(** * kipo / icport terminal dashboard: data layer and delta renderer

    A shallow embedding of
      - src/tui/dashboard-state.ts     (module [DashboardState])
      - src/tui/dashboard-data.ts      (module [DashboardData])
      - src/tui/dashboard-renderer.ts  (module [DashboardRenderer])
      - src/tui/dashboard.ts           (modules [DashboardCore], [Dashboard])
    followed by the properties of the specification that were checked
    against it.

    Conventions.
      - A JavaScript [number] that holds an index, a row, a size or a
        timestamp is a [Z].
      - A JavaScript string is a [string], one character per code unit,
        for code units below U+0100 (ASCII and Latin-1); [toLowerCase]
        folds the capital letters of that range, A-Z and U+00C0-U+00DE
        without the multiplication sign U+00D7, to the letter 32 code
        points higher, as the Unicode case mapping does.
      - Arrays and cache objects that the code compares or hands around by
        reference live in a [Heap]; a reference is a location [loc].
      - The terminal is observed through the list of drawing calls
        ([DrawOp]) that a render method issues, in order.
      - The one exception the rendering code can raise, the RangeError of
        a negative repeat count in [renderConfirm], is modelled by the
        predicate [renderThrows]: where it holds, a render method gives
        the calls issued before the error and the dashboard as the error
        leaves it. *)

From Stdlib Require Import ZArith List String Ascii Bool Lia.
From Stdlib Require Import Sorting.Permutation Sorting.Sorted.
From Stdlib Require Import Numbers.DecimalString Numbers.DecimalPos.
Import ListNotations.

Local Open Scope string_scope.
Local Open Scope list_scope.
Local Open Scope Z_scope.

(* ===================================================================== *)
(** ** JavaScript primitives used by the dashboard                        *)
(* ===================================================================== *)

Module JS.

(** [s.length] *)
Definition len (s : string) : Z := Z.of_nat (String.length s).

(** [n.toString()] for an integral number. *)
Definition Number_toString (n : Z) : string :=
  NilZero.string_of_int (Z.to_int n).

(** Truthiness of a string: the empty string is falsy. *)
Definition truthy (s : string) : bool :=
  match s with EmptyString => false | String _ _ => true end.

(** Truthiness of [number | null]: [null] and [0] are falsy. *)
Definition truthy_num (n : option Z) : bool :=
  match n with Some n => negb (n =? 0) | None => false end.

(** Truthiness of [object | null]. *)
Definition truthy_obj {A : Type} (o : option A) : bool :=
  match o with Some _ => true | None => false end.

(** The code units below U+0100 that [toLowerCase] changes: A-Z and
    U+00C0-U+00DE other than U+00D7. *)
Definition isCapital (n : nat) : bool :=
  (((65 <=? n) && (n <=? 90))
   || ((192 <=? n) && (n <=? 222) && negb (n =? 215)))%nat.

Definition lower_ascii (c : ascii) : ascii :=
  let n := nat_of_ascii c in
  if isCapital n then ascii_of_nat (n + 32) else c.

(** [s.toLowerCase()] *)
Fixpoint toLowerCase (s : string) : string :=
  match s with
  | EmptyString => EmptyString
  | String c s' => String (lower_ascii c) (toLowerCase s')
  end.

(** [s.includes(t)] *)
Fixpoint includes (s t : string) : bool :=
  String.prefix t s ||
  match s with
  | EmptyString => false
  | String _ s' => includes s' t
  end.

(** [s.split(" ")]: the pieces between single spaces, empty pieces kept. *)
Fixpoint split_space (s : string) : list string :=
  match s with
  | EmptyString => [EmptyString]
  | String c s' =>
      if Ascii.eqb c " "%char then EmptyString :: split_space s'
      else match split_space s' with
           | w :: ws => String c w :: ws
           | [] => [String c EmptyString]
           end
  end.

(** [s.substring(a, b)]: both ends clamped to [0 .. s.length], swapped
    when out of order. *)
Definition substring (s : string) (a b : Z) : string :=
  let n := len s in
  let a' := Z.max 0 (Z.min a n) in
  let b' := Z.max 0 (Z.min b n) in
  let lo := Z.min a' b' in
  let hi := Z.max a' b' in
  String.substring (Z.to_nat lo) (Z.to_nat (hi - lo)) s.

(** [xs.join(sep)] *)
Fixpoint join (sep : string) (xs : list string) : string :=
  match xs with
  | [] => EmptyString
  | [x] => x
  | x :: rest => (x ++ sep ++ join sep rest)%string
  end.

(** [xs.length] *)
Definition length {A : Type} (xs : list A) : Z := Z.of_nat (List.length xs).

(** [xs[i]] for an integral [i]: [undefined] outside [0 .. length-1]. *)
Definition get {A : Type} (xs : list A) (i : Z) : option A :=
  if i <? 0 then None else nth_error xs (Z.to_nat i).

(** A [Set<number>]: distinct members, kept in insertion order. *)
Definition NumSet := list Z.

Definition Set_has (s : NumSet) (x : Z) : bool := existsb (Z.eqb x) s.

Definition Set_add (s : NumSet) (x : Z) : NumSet :=
  if Set_has s x then s else s ++ [x].

Definition Set_size (s : NumSet) : Z := length s.

(** [a !== b] on [string | undefined] and [number | undefined]. *)
Definition neq_opt_string (a b : option string) : bool :=
  match a, b with
  | Some x, Some y => negb (String.eqb x y)
  | None, None => false
  | _, _ => true
  end.

Definition neq_opt_num (a b : option Z) : bool :=
  match a, b with
  | Some x, Some y => negb (x =? y)
  | None, None => false
  | _, _ => true
  end.


(** [xs.sort(compare)].  The sort is stable, and for a comparator that
    orders the elements consistently its result is the one stable
    ascending arrangement; [sort] computes it by insertion from the
    right, an element going before the first later element it does not
    exceed. *)
Fixpoint sortInsert {A : Type} (compare : A -> A -> Z) (x : A)
         (sorted : list A) : list A :=
  match sorted with
  | [] => [x]
  | y :: rest =>
      if compare x y <=? 0 then x :: sorted
      else y :: sortInsert compare x rest
  end.

Definition sort {A : Type} (compare : A -> A -> Z) (xs : list A) : list A :=
  fold_right (sortInsert compare) [] xs.

(** [s.split(sep)] for a separator of one character, empty pieces kept. *)
Fixpoint split (sep : ascii) (s : string) : list string :=
  match s with
  | EmptyString => [EmptyString]
  | String c s' =>
      if Ascii.eqb c sep then EmptyString :: split sep s'
      else match split sep s' with
           | w :: ws => String c w :: ws
           | [] => [String c EmptyString]
           end
  end.

(** [s.slice(0, -1)]: all but the last character. *)
Fixpoint sliceLast (s : string) : string :=
  match s with
  | EmptyString => EmptyString
  | String c EmptyString => EmptyString
  | String c s' => String c (sliceLast s')
  end.

(** [key.length === 1 && /[0-9]/.test(key)] *)
Definition isDigitKey (key : string) : bool :=
  match key with
  | String c EmptyString =>
      let n := nat_of_ascii c in ((48 <=? n) && (n <=? 57))%nat
  | _ => false
  end.

(** Truthiness of [string | null | undefined]. *)
Definition truthy_opt (s : option string) : bool :=
  match s with Some s => truthy s | None => false end.

(** [Math.floor(a / b)] for a positive [b]. *)
Definition floorDiv (a b : Z) : Z := a / b.

End JS.

(* ===================================================================== *)
(** ** Port records (src/port/types.ts, consumed read-only)               *)
(* ===================================================================== *)

(** Modelled from the spec: the declaration of [protocol] in
    src/port/types.ts is not among the sources; the data model gives it
    as the enumeration TCP/UDP. *)
Inductive Protocol := TCP | UDP.

Module PortInfo.
(** Modelled from the spec: the declaration of [PortInfo] in
    src/port/types.ts is not among the sources; the fields are those of
    the data model: [port] and [pid] integers, [processName], [command]
    and [user] strings, [protocol], and the optional [type] and
    [lifetime]. *)
Record t := mk {
  port : Z;
  pid : Z;
  processName : string;
  command : string;
  user : string;
  protocol : Protocol;
  type : option string;
  lifetime : option Z
}.
End PortInfo.

Module PortGroup.
(** Modelled from the spec: the declaration of [PortGroup] in
    src/port/types.ts is not among the sources; the fields are those of
    the data model: a stable [id] (interpolated into the fingerprint as a
    string), a category [type], the [collapsed] flag and the ordered
    [ports]. *)
Record t := mk {
  id : string;
  type : string;
  collapsed : bool;
  ports : list PortInfo.t
}.
End PortGroup.

(** One element of the flattened list: [{ port, group }]. *)
Module Entry.
Record t := mk { port : PortInfo.t; group : PortGroup.t }.
End Entry.

Module KillMessage.
Record t := mk {
  message : string;
  emoji : option string;
  color : option string
}.
End KillMessage.

(** The interactive sort key, ["port" | "process" | "pid"]. *)
Inductive SortBy := SortPort | SortProcess | SortPid.

Definition SortBy_eqb (a b : SortBy) : bool :=
  match a, b with
  | SortPort, SortPort | SortProcess, SortProcess | SortPid, SortPid => true
  | _, _ => false
  end.

(* ===================================================================== *)
(** ** dashboard-state.ts                                                 *)
(* ===================================================================== *)

Module DashboardState.
(** The fields read or written by the data layer, the renderer and
    [Dashboard.render]. *)
Record t := mk {
  groups : list PortGroup.t;
  selectedIndex : Z;
  filter : string;
  showHelp : bool;
  showConfirm : bool;
  confirmMessage : string;
  showLogs : bool;
  logsContent : option string;
  showCommand : bool;
  commandContent : option string;
  sortBy : SortBy;
  showDetails : bool;
  searching : bool;
  killMessage : option KillMessage.t;
  killMessageExpiresAt : option Z;
  showStats : bool;
  statsContent : option string
}.

Definition createInitialState : t :=
  {| groups := [];
     selectedIndex := 0;
     filter := "";
     showHelp := false;
     showConfirm := false;
     confirmMessage := "";
     showLogs := false;
     logsContent := None;
     showCommand := false;
     commandContent := None;
     sortBy := SortPort;
     showDetails := true;
     searching := false;
     killMessage := None;
     killMessageExpiresAt := None;
     showStats := false;
     statsContent := None |}.

(** [state.killMessage = null; state.killMessageExpiresAt = null] *)
Definition clearKillMessage (s : t) : t :=
  {| groups := groups s;
     selectedIndex := selectedIndex s;
     filter := filter s;
     showHelp := showHelp s;
     showConfirm := showConfirm s;
     confirmMessage := confirmMessage s;
     showLogs := showLogs s;
     logsContent := logsContent s;
     showCommand := showCommand s;
     commandContent := commandContent s;
     sortBy := sortBy s;
     showDetails := showDetails s;
     searching := searching s;
     killMessage := None;
     killMessageExpiresAt := None;
     showStats := showStats s;
     statsContent := statsContent s |}.

(** [state.groups = groups] *)
Definition setGroups (s : t) (gs : list PortGroup.t) : t :=
  {| groups := gs;
     selectedIndex := selectedIndex s;
     filter := filter s;
     showHelp := showHelp s;
     showConfirm := showConfirm s;
     confirmMessage := confirmMessage s;
     showLogs := showLogs s;
     logsContent := logsContent s;
     showCommand := showCommand s;
     commandContent := commandContent s;
     sortBy := sortBy s;
     showDetails := showDetails s;
     searching := searching s;
     killMessage := killMessage s;
     killMessageExpiresAt := killMessageExpiresAt s;
     showStats := showStats s;
     statsContent := statsContent s |}.

(** [state.selectedIndex = index] *)
Definition setSelectedIndex (s : t) (index : Z) : t :=
  {| groups := groups s;
     selectedIndex := index;
     filter := filter s;
     showHelp := showHelp s;
     showConfirm := showConfirm s;
     confirmMessage := confirmMessage s;
     showLogs := showLogs s;
     logsContent := logsContent s;
     showCommand := showCommand s;
     commandContent := commandContent s;
     sortBy := sortBy s;
     showDetails := showDetails s;
     searching := searching s;
     killMessage := killMessage s;
     killMessageExpiresAt := killMessageExpiresAt s;
     showStats := showStats s;
     statsContent := statsContent s |}.

(** [state.filter = text] *)
Definition setFilter (s : t) (text : string) : t :=
  {| groups := groups s;
     selectedIndex := selectedIndex s;
     filter := text;
     showHelp := showHelp s;
     showConfirm := showConfirm s;
     confirmMessage := confirmMessage s;
     showLogs := showLogs s;
     logsContent := logsContent s;
     showCommand := showCommand s;
     commandContent := commandContent s;
     sortBy := sortBy s;
     showDetails := showDetails s;
     searching := searching s;
     killMessage := killMessage s;
     killMessageExpiresAt := killMessageExpiresAt s;
     showStats := showStats s;
     statsContent := statsContent s |}.

End DashboardState.

(* ===================================================================== *)
(** ** The object store                                                   *)
(* ===================================================================== *)

(** A reference to an array or to a cache object.  Two references denote
    the same object exactly when they are equal. *)
Definition loc := nat.

Module FilteredPortsCache.
Record t := mk {
  result : loc;          (* reference to the flattened array *)
  filter : string;
  groupsHash : string;
  sortBy : SortBy
}.
End FilteredPortsCache.

Module Heap.
(** The arrays and cache objects allocated so far, by location; the
    locations below [next] are in use. *)
Record t := mk {
  arrays : loc -> list Entry.t;
  caches : loc -> FilteredPortsCache.t;
  next : loc                       (* first location not yet allocated *)
}.

Definition upd {A : Type} (f : loc -> A) (l : loc) (v : A) : loc -> A :=
  fun l' => if Nat.eqb l' l then v else f l'.

Definition empty : t :=
  {| arrays := fun _ => [];
     caches := fun _ => FilteredPortsCache.mk 0%nat "" "" SortPort;
     next := 0%nat |}.

(** Allocation of a new array object. *)
Definition allocArray (h : t) (xs : list Entry.t) : loc * t :=
  (next h,
   {| arrays := upd (arrays h) (next h) xs;
      caches := caches h;
      next := S (next h) |}).

(** Allocation of a new cache object. *)
Definition allocCache (h : t) (c : FilteredPortsCache.t) : loc * t :=
  (next h,
   {| arrays := arrays h;
      caches := upd (caches h) (next h) c;
      next := S (next h) |}).
End Heap.

(* ===================================================================== *)
(** ** dashboard-data.ts                                                  *)
(* ===================================================================== *)

Module DashboardData.

(** [`${g.id}:${g.collapsed ? "1" : "0"}:${g.ports.length}`] *)
Definition groupHash (g : PortGroup.t) : string :=
  (PortGroup.id g ++ ":" ++ (if PortGroup.collapsed g then "1" else "0")
     ++ ":" ++ JS.Number_toString (JS.length (PortGroup.ports g)))%string.

Definition groupsHash (groups : list PortGroup.t) : string :=
  JS.join "|" (map groupHash groups).

(** The three matches computed in the inner loop body. *)
Definition portMatch (filter : string) (port : PortInfo.t) : bool :=
  JS.includes (JS.Number_toString (PortInfo.port port)) filter.

Definition processMatch (filter : string) (port : PortInfo.t) : bool :=
  JS.includes (JS.toLowerCase (PortInfo.processName port))
              (JS.toLowerCase filter).

Definition commandMatch (filter : string) (port : PortInfo.t) : bool :=
  JS.includes (JS.toLowerCase (PortInfo.command port))
              (JS.toLowerCase filter).

(** One iteration of [for (const port of group.ports)]: either
    [continue] or [flat.push({ port, group })]. *)
Definition pushPort (filter : string) (group : PortGroup.t)
           (flat : list Entry.t) (port : PortInfo.t) : list Entry.t :=
  if JS.truthy filter then
    if negb (portMatch filter port) && negb (processMatch filter port)
       && negb (commandMatch filter port)
    then flat
    else flat ++ [Entry.mk port group]
  else flat ++ [Entry.mk port group].

(** One iteration of [for (const group of groups)]. *)
Definition pushGroup (filter : string) (flat : list Entry.t)
           (group : PortGroup.t) : list Entry.t :=
  if negb (PortGroup.collapsed group)
  then fold_left (pushPort filter group) (PortGroup.ports group) flat
  else flat.

(** The recalculation: the value of [flat] after both loops. *)
Definition recalculate (filter : string) (groups : list PortGroup.t)
  : list Entry.t :=
  fold_left (pushGroup filter) groups [].

Record Result := mkResult {
  filteredPorts : loc;
  newCache : option loc
}.

(** The cache test of [getFilteredPorts]. *)
Definition cacheHit (state : DashboardState.t) (hash : string)
           (c : FilteredPortsCache.t) : bool :=
  String.eqb (FilteredPortsCache.filter c) (DashboardState.filter state)
  && String.eqb (FilteredPortsCache.groupsHash c) hash
  && SortBy_eqb (FilteredPortsCache.sortBy c) (DashboardState.sortBy state).

Definition getFilteredPorts (state : DashboardState.t)
           (groups : list PortGroup.t) (cache : option loc) (h : Heap.t)
  : Result * Heap.t :=
  let hash := groupsHash groups in
  let miss :=
    let flat := recalculate (DashboardState.filter state) groups in
    let '(flatRef, h1) := Heap.allocArray h flat in
    let '(cacheRef, h2) :=
      Heap.allocCache h1
        {| FilteredPortsCache.result := flatRef;
           FilteredPortsCache.filter := DashboardState.filter state;
           FilteredPortsCache.groupsHash := hash;
           FilteredPortsCache.sortBy := DashboardState.sortBy state |} in
    ({| filteredPorts := flatRef; newCache := Some cacheRef |}, h2) in
  match cache with
  | Some c =>
      if cacheHit state hash (Heap.caches h c)
      then ({| filteredPorts := FilteredPortsCache.result (Heap.caches h c);
               newCache := Some c |}, h)
      else miss
  | None => miss
  end.

Definition getSelectedPort (filteredPorts : list Entry.t)
           (selectedIndex : Z) : option Entry.t :=
  if JS.length filteredPorts =? 0 then None
  else
    let index := Z.min selectedIndex (JS.length filteredPorts - 1) in
    JS.get filteredPorts index.

Definition moveSelection (filteredPorts : list Entry.t)
           (currentIndex direction : Z) : Z :=
  if JS.length filteredPorts =? 0 then currentIndex
  else
    let newIndex := currentIndex + direction in
    if newIndex <? 0 then JS.length filteredPorts - 1
    else if newIndex >=? JS.length filteredPorts then 0
    else newIndex.

Definition adjustSelectedIndex (filteredPorts : list Entry.t)
           (currentIndex : Z) : Z :=
  if currentIndex >=? JS.length filteredPorts
  then Z.max 0 (JS.length filteredPorts - 1)
  else currentIndex.


(** *** applySorting, applyCLISorting *)

(** [group.ports = ports] with the other fields kept. *)
Definition withPorts (g : PortGroup.t) (ps : list PortInfo.t) : PortGroup.t :=
  {| PortGroup.id := PortGroup.id g;
     PortGroup.type := PortGroup.type g;
     PortGroup.collapsed := PortGroup.collapsed g;
     PortGroup.ports := ps |}.

(** The comparator of [applySorting].  [localeCompare] is the string
    comparison of the JavaScript engine, taken as given. *)
Definition compareBy (localeCompare : string -> string -> Z)
           (sortBy : SortBy) (a b : PortInfo.t) : Z :=
  match sortBy with
  | SortPort => PortInfo.port a - PortInfo.port b
  | SortProcess =>
      localeCompare (PortInfo.processName a) (PortInfo.processName b)
  | SortPid => PortInfo.pid a - PortInfo.pid b
  end.

(** [for (const group of groups) group.ports.sort(...)]; the groups after
    the call. *)
Definition applySorting (localeCompare : string -> string -> Z)
           (groups : list PortGroup.t) (sortBy : SortBy)
  : list PortGroup.t :=
  map (fun group =>
         withPorts group
           (JS.sort (compareBy localeCompare sortBy) (PortGroup.ports group)))
      groups.

(** The comparator of [applyCLISorting]; the key is the string handed
    over from the command line. *)
Definition compareCLI (localeCompare : string -> string -> Z)
           (sortBy : string) (a b : PortInfo.t) : Z :=
  if String.eqb sortBy "port" then PortInfo.port a - PortInfo.port b
  else if String.eqb sortBy "process" then
    localeCompare (PortInfo.processName a) (PortInfo.processName b)
  else if String.eqb sortBy "pid" then PortInfo.pid a - PortInfo.pid b
  else if String.eqb sortBy "user" then
    localeCompare (PortInfo.user a) (PortInfo.user b)
  else PortInfo.port a - PortInfo.port b.

Definition applyCLISorting (localeCompare : string -> string -> Z)
           (groups : list PortGroup.t) (sortBy : string)
  : list PortGroup.t :=
  map (fun group =>
         withPorts group
           (JS.sort (compareCLI localeCompare sortBy) (PortGroup.ports group)))
      groups.

(** *** toggleGroup *)

(** [group.collapsed = !group.collapsed] *)
Definition flipCollapsed (g : PortGroup.t) : PortGroup.t :=
  {| PortGroup.id := PortGroup.id g;
     PortGroup.type := PortGroup.type g;
     PortGroup.collapsed := negb (PortGroup.collapsed g);
     PortGroup.ports := PortGroup.ports g |}.

(** [groups.find((g) => g.id === id)], the group found being flipped. *)
Fixpoint toggleFirst (id : string) (groups : list PortGroup.t)
  : list PortGroup.t :=
  match groups with
  | [] => []
  | g :: rest =>
      if String.eqb (PortGroup.id g) id then flipCollapsed g :: rest
      else g :: toggleFirst id rest
  end.

Definition toggleGroup (groups : list PortGroup.t)
           (selectedPort : option Entry.t) : list PortGroup.t :=
  match selectedPort with
  | None => groups
  | Some selected => toggleFirst (PortGroup.id (Entry.group selected)) groups
  end.

(** *** formatLifetime *)

Definition formatLifetime (seconds : Z) : string :=
  if seconds <? 60 then
    (JS.Number_toString seconds ++ "s")%string
  else if seconds <? 3600 then
    let minutes := JS.floorDiv seconds 60 in
    let secs := seconds mod 60 in
    (JS.Number_toString minutes ++ "m" ++ JS.Number_toString secs ++ "s")%string
  else if seconds <? 86400 then
    let hours := JS.floorDiv seconds 3600 in
    let minutes := JS.floorDiv (seconds mod 3600) 60 in
    (JS.Number_toString hours ++ "h" ++ JS.Number_toString minutes ++ "m")%string
  else
    let days := JS.floorDiv seconds 86400 in
    let hours := JS.floorDiv (seconds mod 86400) 3600 in
    (JS.Number_toString days ++ "d" ++ JS.Number_toString hours ++ "h")%string.

End DashboardData.

(* ===================================================================== *)
(** ** The terminal as seen by the dashboard                              *)
(* ===================================================================== *)

(** [renderer.getScreenSize()] *)
Module Screen.
Record t := mk { width : Z; height : Z }.
End Screen.

(** The drawing calls issued by the render methods.  The private methods
    whose layout no property below depends on are one call each. *)
Inductive DrawOp :=
| OpClear                                   (* renderer.clear() *)
| OpHideCursor                              (* renderer.hideCursor() *)
| OpFlush                                   (* renderer.render() *)
| OpHeader (ports : Z)                      (* renderHeader *)
| OpPortLine (e : Entry.t) (index y selectedIndex : Z)  (* renderPortLine *)
| OpDetails (e : Entry.t)                   (* renderDetails *)
| OpFooter (searching : bool) (searchBuffer : string)
| OpKillMessage (m : KillMessage.t)         (* renderKillMessage *)
| OpHelp                                    (* renderHelp *)
| OpConfirm (message : string)              (* renderConfirm *)
| OpLogs (content : option string)          (* renderLogs *)
| OpStats (content : option string)         (* renderStats *)
| OpTitle (text : string)                   (* title bar of a modal view *)
| OpLine (y : Z) (text : string)            (* moveTo(0, y); color(text); clearToEndOfLine() *)
| OpMoveTo (x y : Z)                        (* renderer.moveTo(x, y) on its own *)
| OpCloseHint (text : string).              (* bottom line of a modal view *)

Module RenderState.
Record t := mk {
  filteredPorts : loc;
  selectedIndex : Z;
  filter : string;
  sortBy : SortBy;
  showDetails : bool
}.
End RenderState.

(* ===================================================================== *)
(** ** dashboard.ts: the object and the callbacks it hands the renderer   *)
(* ===================================================================== *)

Module DashboardCore.

(** The private fields of [Dashboard] that the modelled methods touch,
    together with the object store its references point into. *)
Record t := mk {
  state : DashboardState.t;
  searchBuffer : string;
  filteredPortsCache : option loc;
  previousRenderState : option RenderState.t;
  heap : Heap.t
}.

Definition create : t :=
  {| state := DashboardState.createInitialState;
     searchBuffer := "";
     filteredPortsCache := None;
     previousRenderState := None;
     heap := Heap.empty |}.

Definition setState (d : t) (s : DashboardState.t) : t :=
  {| state := s;
     searchBuffer := searchBuffer d;
     filteredPortsCache := filteredPortsCache d;
     previousRenderState := previousRenderState d;
     heap := heap d |}.

Definition setPreviousRenderState (d : t) (r : option RenderState.t) : t :=
  {| state := state d;
     searchBuffer := searchBuffer d;
     filteredPortsCache := filteredPortsCache d;
     previousRenderState := r;
     heap := heap d |}.

(** [private getFilteredPorts()] *)
Definition getFilteredPorts (d : t) : loc * t :=
  let '(result, h) :=
    DashboardData.getFilteredPorts (state d)
      (DashboardState.groups (state d)) (filteredPortsCache d) (heap d) in
  (DashboardData.filteredPorts result,
   {| state := state d;
      searchBuffer := searchBuffer d;
      filteredPortsCache := DashboardData.newCache result;
      previousRenderState := previousRenderState d;
      heap := h |}).

(** [private getSelectedPort()] *)
Definition getSelectedPort (d : t) : option Entry.t * t :=
  let '(flatPorts, d1) := getFilteredPorts d in
  (DashboardData.getSelectedPort (Heap.arrays (heap d1) flatPorts)
     (DashboardState.selectedIndex (state d1)),
   d1).


Definition setSearchBuffer (d : t) (buffer : string) : t :=
  {| state := state d;
     searchBuffer := buffer;
     filteredPortsCache := filteredPortsCache d;
     previousRenderState := previousRenderState d;
     heap := heap d |}.

(** [this.filteredPortsCache = null] *)
Definition clearFilteredPortsCache (d : t) : t :=
  {| state := state d;
     searchBuffer := searchBuffer d;
     filteredPortsCache := None;
     previousRenderState := previousRenderState d;
     heap := heap d |}.

(** [private applySorting()] *)
Definition applySorting (localeCompare : string -> string -> Z) (d : t) : t :=
  clearFilteredPortsCache
    (setState d
       (DashboardState.setGroups (state d)
          (DashboardData.applySorting localeCompare
             (DashboardState.groups (state d))
             (DashboardState.sortBy (state d))))).

(** [private toggleGroup()] *)
Definition toggleGroup (d : t) : t :=
  let '(selected, d1) := getSelectedPort d in
  setState d1
    (DashboardState.setGroups (state d1)
       (DashboardData.toggleGroup (DashboardState.groups (state d1)) selected)).

End DashboardCore.

(* ===================================================================== *)
(** ** dashboard-renderer.ts                                              *)
(* ===================================================================== *)

Module DashboardRenderer.

Definition D := DashboardCore.t.

(** *** renderCommand *)

(** The inner loop
    [for (let i = 0; i < word.length; i += maxWidth)], with its [break].
    Every round advances [y] and the loop leaves once
    [y >= height - 2], so [rows] rounds, for any
    [rows >= height - 2 - y], are never used up
    (lemma [chunkLoop_rows] below). *)
Fixpoint chunkLoop (rows : nat) (maxWidth height : Z) (word : string)
         (i y : Z) (out : list DrawOp) : Z * list DrawOp :=
  if i <? JS.len word then
    let chunk := JS.substring word i (i + maxWidth) in
    let out' := out ++ [OpLine y chunk] in
    let y' := y + 1 in
    if y' >=? height - 2 then (y', out')
    else match rows with
         | O => (y', out')
         | S rows' => chunkLoop rows' maxWidth height word (i + maxWidth) y' out'
         end
  else (y, out).

(** The loop [for (const word of words)]; the result is
    [(currentLine, y)] and the lines drawn when the loop is left. *)
Fixpoint wrapLoop (maxWidth height : Z) (words : list string)
         (currentLine : string) (y : Z) (out : list DrawOp)
  : string * Z * list DrawOp :=
  match words with
  | [] => (currentLine, y, out)
  | word :: rest =>
      let testLine :=
        if JS.truthy currentLine
        then (currentLine ++ " " ++ word)%string else word in
      if JS.len testLine <=? maxWidth then
        wrapLoop maxWidth height rest testLine y out
      else
        let '(y1, out1, stop) :=
          if JS.truthy currentLine
          then (y + 1, out ++ [OpLine y currentLine], y + 1 >=? height - 2)
          else (y, out, false) in
        if stop then (currentLine, y1, out1)
        else if JS.len word >? maxWidth then
          let '(y2, out2) :=
            chunkLoop (Z.to_nat (height - 2 - y1)) maxWidth height word 0 y1 out1 in
          wrapLoop maxWidth height rest "" y2 out2
        else wrapLoop maxWidth height rest word y1 out1
  end.

(** The lines drawn for a non-empty [commandContent]. *)
Definition wrapCommand (scr : Screen.t) (command : string) : list DrawOp :=
  let maxWidth := Screen.width scr in
  let height := Screen.height scr in
  let '(currentLine, y, out) :=
    wrapLoop maxWidth height (JS.split_space command) "" 2 [] in
  if JS.truthy currentLine && (y <? height - 2)
  then out ++ [OpLine y currentLine]
  else out.

Definition renderCommand (scr : Screen.t) (state : DashboardState.t)
  : list DrawOp :=
  [OpTitle " Full Command "]
  ++ (match DashboardState.commandContent state with
      | Some command =>
          if JS.truthy command then wrapCommand scr command else []
      | None => []
      end)
  ++ [OpCloseHint "Press ESC to close"].

(** *** The main view *)

Definition maxHeight (scr : Screen.t) (state : DashboardState.t) : Z :=
  Screen.height scr - (if DashboardState.showDetails state then 6 else 4).

Definition killMessageOps (state : DashboardState.t) : list DrawOp :=
  match DashboardState.killMessage state with
  | Some m => [OpKillMessage m]
  | None => []
  end.

(** [for (let i = 0; i < filteredPorts.length && y < maxHeight; i++)]
    with [y++] in the body. *)
Fixpoint portLines (ps : list Entry.t) (i y maxH selectedIndex : Z)
  : list DrawOp :=
  match ps with
  | e :: rest =>
      if y <? maxH
      then OpPortLine e i y selectedIndex
           :: portLines rest (i + 1) (y + 1) maxH selectedIndex
      else []
  | [] => []
  end.

Definition renderMain (scr : Screen.t) (d : D) (filteredPorts : loc)
           (searchBuffer : string) : list DrawOp * D :=
  let state := DashboardCore.state d in
  let ps := Heap.arrays (DashboardCore.heap d) filteredPorts in
  let lines :=
    portLines ps 0 2 (maxHeight scr state)
              (DashboardState.selectedIndex state) in
  let '(selected, d1) := DashboardCore.getSelectedPort d in
  let details :=
    match selected with
    | Some e => if DashboardState.showDetails state then [OpDetails e] else []
    | None => []
    end in
  ([OpHeader (JS.length ps)] ++ lines ++ details
   ++ [OpFooter (DashboardState.searching state) searchBuffer]
   ++ killMessageOps state,
   d1).

(** *** renderDelta *)

(** The comparison of two rows in the data-change loop. *)
Definition portDataChanged (prev curr : Entry.t) : bool :=
  negb (PortInfo.pid (Entry.port prev) =? PortInfo.pid (Entry.port curr))
  || negb (PortInfo.port (Entry.port prev) =? PortInfo.port (Entry.port curr))
  || negb (String.eqb (PortInfo.processName (Entry.port prev))
                      (PortInfo.processName (Entry.port curr)))
  || negb (String.eqb (PortInfo.command (Entry.port prev))
                      (PortInfo.command (Entry.port curr)))
  || JS.neq_opt_num (PortInfo.lifetime (Entry.port prev))
                    (PortInfo.lifetime (Entry.port curr))
  || JS.neq_opt_string (PortInfo.type (Entry.port prev))
                       (PortInfo.type (Entry.port curr)).

(** [for (let i = 0; i < minLength && i + 2 < maxHeight; i++)]:
    [i < minLength] holds exactly while both lists still have a row
    at [i]. *)
Fixpoint dataLoop (prev curr : list Entry.t) (i maxH : Z)
         (changedLines : JS.NumSet) : JS.NumSet :=
  match prev, curr with
  | p :: prev', c :: curr' =>
      if i + 2 <? maxH then
        dataLoop prev' curr' (i + 1) maxH
          (if portDataChanged p c then JS.Set_add changedLines (i + 2)
           else changedLines)
      else changedLines
  | _, _ => changedLines
  end.

(** The value of [changedLines] when both checks are done. *)
Definition changedLines (maxH : Z) (prevSel currSel : Z)
           (prev curr : list Entry.t) : JS.NumSet :=
  let changed :=
    if negb (prevSel =? currSel)
    then JS.Set_add (JS.Set_add [] (prevSel + 2)) (currSel + 2)
    else [] in
  dataLoop prev curr 0 maxH changed.

(** [changedLines.size > maxHeight / 2]; the division is exact on
    numbers, so the test is [maxHeight < 2 * size]. *)
Definition tooManyChanges (maxH : Z) (changed : JS.NumSet) : bool :=
  maxH <? 2 * JS.Set_size changed.

(** The body of [for (const lineNum of changedLines)]. *)
Definition changedLineOps (maxH currSel : Z) (curr : list Entry.t)
           (lineNum : Z) : list DrawOp :=
  if (lineNum >=? 2) && (lineNum <? maxH) then
    let index := lineNum - 2 in
    if index <? JS.length curr then
      match JS.get curr index with
      | Some e => [OpPortLine e index lineNum currSel]
      | None => []
      end
    else []
  else [].

Definition renderDelta (scr : Screen.t) (previous current : RenderState.t)
           (d : D) (searchBuffer : string) : list DrawOp * D :=
  let state := DashboardCore.state d in
  let maxH := maxHeight scr state in
  let prev := Heap.arrays (DashboardCore.heap d) (RenderState.filteredPorts previous) in
  let curr := Heap.arrays (DashboardCore.heap d) (RenderState.filteredPorts current) in
  let changed :=
    changedLines maxH (RenderState.selectedIndex previous)
                 (RenderState.selectedIndex current) prev curr in
  if tooManyChanges maxH changed then
    let '(ops, d1) := renderMain scr d (RenderState.filteredPorts current) "" in
    ([OpClear; OpHideCursor] ++ ops ++ [OpFlush], d1)
  else
    let lines :=
      flat_map (changedLineOps maxH (RenderState.selectedIndex current) curr)
               changed in
    let '(details, d1) :=
      if DashboardState.showDetails state then
        let '(selected, d1) := DashboardCore.getSelectedPort d in
        (match selected with Some e => [OpDetails e] | None => [] end, d1)
      else ([], d) in
    ([OpHideCursor; OpHeader (JS.length curr)] ++ lines ++ details
     ++ [OpFooter (DashboardState.searching state) searchBuffer]
     ++ killMessageOps state ++ [OpFlush],
     d1).

(** *** renderConfirm *)

(** The geometry of the confirmation box. *)
Record ConfirmBox := mkConfirmBox {
  boxX : Z;            (* startX: column of the left border *)
  boxTop : Z;          (* centerY - 1: row of the top border *)
  boxWidth : Z;        (* messageWidth: columns from border to border *)
  boxMessageX : Z;     (* startX + 2: column where the message starts *)
  boxHintY : Z         (* centerY + 3: row of the key hint *)
}.

(** [startX] of [renderConfirm]. *)
Definition confirmStartX (scr : Screen.t) (state : DashboardState.t) : Z :=
  let width := Screen.width scr in
  let messageWidth :=
    Z.min (JS.len (DashboardState.confirmMessage state) + 4) (width - 4) in
  JS.floorDiv width 2 - JS.floorDiv messageWidth 2.

(** [renderConfirm]: the box drawn, or [None] when
    ["─".repeat(messageWidth - 2)] throws a RangeError (negative
    count). *)
Definition renderConfirm (scr : Screen.t) (state : DashboardState.t)
  : option ConfirmBox :=
  let width := Screen.width scr in
  let height := Screen.height scr in
  let centerY := JS.floorDiv height 2 in
  let centerX := JS.floorDiv width 2 in
  let message := DashboardState.confirmMessage state in
  let messageWidth := Z.min (JS.len message + 4) (width - 4) in
  let startX := centerX - JS.floorDiv messageWidth 2 in
  if messageWidth - 2 <? 0 then None
  else Some {| boxX := startX;
               boxTop := centerY - 1;
               boxWidth := messageWidth;
               boxMessageX := startX + 2;
               boxHintY := centerY + 3 |}.

(** [render] ends in that RangeError, instead of returning, exactly when
    the confirmation box is the modal view to draw and cannot be drawn. *)
Definition renderThrows (scr : Screen.t) (state : DashboardState.t) : bool :=
  negb (DashboardState.showHelp state) && DashboardState.showConfirm state
  && match renderConfirm scr state with Some _ => false | None => true end.

(** *** render *)

Definition anyModal (state : DashboardState.t) : bool :=
  DashboardState.showHelp state || DashboardState.showConfirm state
  || DashboardState.showLogs state || DashboardState.showCommand state
  || DashboardState.showStats state.

Definition renderModal (scr : Screen.t) (state : DashboardState.t)
  : list DrawOp :=
  if DashboardState.showHelp state then [OpHelp]
  else if DashboardState.showConfirm state
       then match renderConfirm scr state with
            | Some _ => [OpConfirm (DashboardState.confirmMessage state)]
            | None =>
                (* the cursor is moved to the top left corner of the box,
                   then the border text raises the RangeError *)
                [OpMoveTo (confirmStartX scr state)
                          (JS.floorDiv (Screen.height scr) 2 - 1)]
            end
  else if DashboardState.showLogs state
       then [OpLogs (DashboardState.logsContent state)]
  else if DashboardState.showCommand state then renderCommand scr state
  else if DashboardState.showStats state
       then [OpStats (DashboardState.statsContent state)]
  else [].

Definition hasKillMessage (state : DashboardState.t) : bool :=
  JS.truthy_obj (DashboardState.killMessage state).

Definition isEnteringSearchMode (state : DashboardState.t)
           (searchBuffer : string) : bool :=
  DashboardState.searching state && String.eqb searchBuffer ""
  && String.eqb (DashboardState.filter state) "".

Definition canUseDelta (h : Heap.t) (state : DashboardState.t)
           (previousRenderState : option RenderState.t)
           (currentState : RenderState.t) (searchBuffer : string) : bool :=
  negb (hasKillMessage state)
  && negb (isEnteringSearchMode state searchBuffer)
  && match previousRenderState with
     | Some previous =>
         (JS.length (Heap.arrays h (RenderState.filteredPorts previous))
          =? JS.length (Heap.arrays h (RenderState.filteredPorts currentState)))
         && String.eqb (RenderState.filter previous)
                       (RenderState.filter currentState)
         && SortBy_eqb (RenderState.sortBy previous)
                       (RenderState.sortBy currentState)
         && Bool.eqb (RenderState.showDetails previous)
                     (RenderState.showDetails currentState)
     | None => false
     end.

(** The snapshot built by [render] for the main view. *)
Definition snapshot (state : DashboardState.t) (filteredPorts : loc)
  : RenderState.t :=
  {| RenderState.filteredPorts := filteredPorts;
     RenderState.selectedIndex := DashboardState.selectedIndex state;
     RenderState.filter := DashboardState.filter state;
     RenderState.sortBy := DashboardState.sortBy state;
     RenderState.showDetails := DashboardState.showDetails state |}.

(** The full-repaint branch of [render]. *)
Definition fullRender (scr : Screen.t) (d : D) (filteredPorts : loc)
           (searchBuffer : string) : list DrawOp * D :=
  let '(ops, d1) := renderMain scr d filteredPorts searchBuffer in
  ([OpClear; OpHideCursor] ++ ops ++ [OpFlush], d1).

(** [render(state, previousRenderState, searchBuffer)], called by
    [Dashboard.render] with its own [state], [previousRenderState] and
    [searchBuffer]; the callbacks act on the same object.  The result is
    the calls issued, the value returned and the dashboard afterwards.
    When [renderThrows] holds the call does not return: the calls are
    those issued before the RangeError ([renderer.render()] is not
    reached) and the second component is not a return value. *)
Definition render (scr : Screen.t) (d : D)
  : list DrawOp * option RenderState.t * D :=
  let state := DashboardCore.state d in
  let previousRenderState := DashboardCore.previousRenderState d in
  let searchBuffer := DashboardCore.searchBuffer d in
  if anyModal state then
    if renderThrows scr state
    then ([OpClear; OpHideCursor] ++ renderModal scr state, None, d)
    else ([OpClear; OpHideCursor] ++ renderModal scr state ++ [OpFlush],
          None, d)
  else
    let '(filteredPorts, d1) := DashboardCore.getFilteredPorts d in
    let currentState := snapshot state filteredPorts in
    let '(ops, d2) :=
      match previousRenderState with
      | Some previous =>
          if canUseDelta (DashboardCore.heap d1) state previousRenderState
                         currentState searchBuffer
          then renderDelta scr previous currentState d1 searchBuffer
          else fullRender scr d1 filteredPorts searchBuffer
      | None => fullRender scr d1 filteredPorts searchBuffer
      end in
    (ops, Some currentState, d2).


(** *** renderLogs, renderStats *)

(** The loop [for (const line of lines)] of [renderLogs] and
    [renderStats]: the rows written and their texts.  [truncate] is the
    helper of renderer.ts, taken as given. *)
Fixpoint textLines (truncate : string -> Z -> string) (width height : Z)
         (lines : list string) (y : Z) : list (Z * string) :=
  match lines with
  | [] => []
  | line :: rest =>
      if y >=? height - 2 then []
      else (y, truncate line width)
           :: textLines truncate width height rest (y + 1)
  end.

(** The body of [renderLogs] ([state.logsContent]) and of [renderStats]
    ([state.statsContent]). *)
Definition textBody (truncate : string -> Z -> string) (scr : Screen.t)
           (content : option string) : list (Z * string) :=
  match content with
  | Some text =>
      if JS.truthy text
      then textLines truncate (Screen.width scr) (Screen.height scr)
                     (JS.split "010"%char text) 2
      else []
  | None => []
  end.

Definition renderLogs (truncate : string -> Z -> string) (scr : Screen.t)
           (state : DashboardState.t) : list (Z * string) :=
  textBody truncate scr (DashboardState.logsContent state).

Definition renderStats (truncate : string -> Z -> string) (scr : Screen.t)
           (state : DashboardState.t) : list (Z * string) :=
  textBody truncate scr (DashboardState.statsContent state).

End DashboardRenderer.

(* ===================================================================== *)
(** ** dashboard.ts: render                                               *)
(* ===================================================================== *)

Module Dashboard.

(** The expiry check at the head of [render]; [now] is [Date.now()]. *)
Definition expireKillMessage (now : Z) (state : DashboardState.t)
  : DashboardState.t :=
  if JS.truthy_obj (DashboardState.killMessage state)
     && JS.truthy_num (DashboardState.killMessageExpiresAt state)
  then
    match DashboardState.killMessageExpiresAt state with
    | Some expiresAt =>
        if now >? expiresAt then DashboardState.clearKillMessage state
        else state
    | None => state
    end
  else state.

(** Whether [render] ends in the RangeError of the confirmation box. *)
Definition renderThrows (scr : Screen.t) (d : DashboardCore.t) : bool :=
  DashboardRenderer.renderThrows scr (DashboardCore.state d).

(** [render()]: the calls issued and the dashboard afterwards.  When the
    renderer throws, the error propagates to the caller and
    [previousRenderState] is not assigned. *)
Definition render (now : Z) (scr : Screen.t) (d : DashboardCore.t)
  : list DrawOp * DashboardCore.t :=
  let d0 := DashboardCore.setState d (expireKillMessage now (DashboardCore.state d)) in
  let '(ops, newRenderState, d1) := DashboardRenderer.render scr d0 in
  if DashboardRenderer.renderThrows scr (DashboardCore.state d0)
  then (ops, d1)
  else (ops, DashboardCore.setPreviousRenderState d1 newRenderState).

(** [private moveSelection(direction)] *)
Definition moveSelection (d : DashboardCore.t) (direction : Z)
  : DashboardCore.t :=
  let '(flatPorts, d1) := DashboardCore.getFilteredPorts d in
  let s := DashboardCore.state d1 in
  DashboardCore.setState d1
    {| DashboardState.groups := DashboardState.groups s;
       DashboardState.selectedIndex :=
         DashboardData.moveSelection
           (Heap.arrays (DashboardCore.heap d1) flatPorts)
           (DashboardState.selectedIndex s) direction;
       DashboardState.filter := DashboardState.filter s;
       DashboardState.showHelp := DashboardState.showHelp s;
       DashboardState.showConfirm := DashboardState.showConfirm s;
       DashboardState.confirmMessage := DashboardState.confirmMessage s;
       DashboardState.showLogs := DashboardState.showLogs s;
       DashboardState.logsContent := DashboardState.logsContent s;
       DashboardState.showCommand := DashboardState.showCommand s;
       DashboardState.commandContent := DashboardState.commandContent s;
       DashboardState.sortBy := DashboardState.sortBy s;
       DashboardState.showDetails := DashboardState.showDetails s;
       DashboardState.searching := DashboardState.searching s;
       DashboardState.killMessage := DashboardState.killMessage s;
       DashboardState.killMessageExpiresAt := DashboardState.killMessageExpiresAt s;
       DashboardState.showStats := DashboardState.showStats s;
       DashboardState.statsContent := DashboardState.statsContent s |}.


(** *** The search input handler, [keyboard.on("*", ...)] *)

Definition onKey (now : Z) (scr : Screen.t) (d : DashboardCore.t)
           (key : string) : list DrawOp * DashboardCore.t :=
  let state := DashboardCore.state d in
  if DashboardState.searching state && JS.isDigitKey key then
    let buffer := (DashboardCore.searchBuffer d ++ key)%string in
    render now scr
      (DashboardCore.clearFilteredPortsCache
         (DashboardCore.setState (DashboardCore.setSearchBuffer d buffer)
                                 (DashboardState.setFilter state buffer)))
  else if DashboardState.searching state && String.eqb key "backspace" then
    let buffer := JS.sliceLast (DashboardCore.searchBuffer d) in
    render now scr
      (DashboardCore.clearFilteredPortsCache
         (DashboardCore.setState (DashboardCore.setSearchBuffer d buffer)
                                 (DashboardState.setFilter state buffer)))
  else ([], d).

(** *** refresh *)

(** The options given to the constructor. *)
Record FilterOptions := mkFilterOptions {
  optType : option string;
  optUser : option string;
  optProcess : option string;
  optSort : option string
}.

(** [refresh()].  [processed] is the [groups] field of what
    [detectPorts] followed by [processPorts] resolved to, or [None] when
    one of them failed (the error is caught and logged);
    [applyFiltersToGroups] is the helper of utils/filter-utils.ts, taken
    as given.  [state.ports] and [state.lastUpdate], which no modelled
    code reads, are left out. *)
Definition refresh (localeCompare : string -> string -> Z)
           (applyFiltersToGroups :
              list PortGroup.t -> FilterOptions -> list PortGroup.t)
           (options : FilterOptions) (processed : option (list PortGroup.t))
           (d : DashboardCore.t) : DashboardCore.t :=
  match processed with
  | None => d
  | Some resultGroups =>
      let groups :=
        if JS.truthy_opt (optType options) || JS.truthy_opt (optUser options)
           || JS.truthy_opt (optProcess options)
        then applyFiltersToGroups resultGroups options
        else resultGroups in
      let d1 :=
        DashboardCore.setState d
          (DashboardState.setGroups (DashboardCore.state d) groups) in
      let d2 :=
        match optSort options with
        | Some sortOption =>
            if JS.truthy sortOption then
              DashboardCore.setState d1
                (DashboardState.setGroups (DashboardCore.state d1)
                   (DashboardData.applyCLISorting localeCompare
                      (DashboardState.groups (DashboardCore.state d1))
                      sortOption))
            else DashboardCore.applySorting localeCompare d1
        | None => DashboardCore.applySorting localeCompare d1
        end in
      let '(flatPorts, d3) := DashboardCore.getFilteredPorts d2 in
      let d4 :=
        DashboardCore.setState d3
          (DashboardState.setSelectedIndex (DashboardCore.state d3)
             (DashboardData.adjustSelectedIndex
                (Heap.arrays (DashboardCore.heap d3) flatPorts)
                (DashboardState.selectedIndex (DashboardCore.state d3)))) in
      DashboardCore.clearFilteredPortsCache d4
  end.

(** One tick of the refresh timer while the dashboard runs:
    [await this.refresh(); this.render()]. *)
Definition tick (localeCompare : string -> string -> Z)
           (applyFiltersToGroups :
              list PortGroup.t -> FilterOptions -> list PortGroup.t)
           (options : FilterOptions) (processed : option (list PortGroup.t))
           (now : Z) (scr : Screen.t) (d : DashboardCore.t)
  : list DrawOp * DashboardCore.t :=
  render now scr (refresh localeCompare applyFiltersToGroups options processed d).

End Dashboard.


(* ===================================================================== *)
(** ** gamification/killer-ranks.ts                                       *)
(* ===================================================================== *)

Module KillerRank.
Record t := mk {
  name : string;
  minKills : Z;
  emoji : option string
}.
End KillerRank.

Module KillerRanks.

Definition junior := KillerRank.mk "Junior Killer" 1 (Some "🌱").
Definition associate := KillerRank.mk "Associate Killer" 10 (Some "⭐").
Definition midLevel := KillerRank.mk "Mid-Level Killer" 25 (Some "🔥").
Definition senior := KillerRank.mk "Senior Killer" 50 (Some "💀").
Definition lead := KillerRank.mk "Lead Killer" 100 (Some "⚡").
Definition principal := KillerRank.mk "Principal Killer" 250 (Some "👑").
Definition staff := KillerRank.mk "Staff Killer" 500 (Some "🏆").
Definition distinguished :=
  KillerRank.mk "Distinguished Killer" 1000 (Some "🌟").

Definition KILLER_RANKS : list KillerRank.t :=
  [junior; associate; midLevel; senior; lead; principal; staff;
   distinguished].

(** [for (const rank of KILLER_RANKS)] with its [break]. *)
Fixpoint rankLoop (ranks : list KillerRank.t) (currentRank : KillerRank.t)
         (totalKills : Z) : KillerRank.t :=
  match ranks with
  | [] => currentRank
  | rank :: rest =>
      if totalKills >=? KillerRank.minKills rank
      then rankLoop rest rank totalKills
      else currentRank
  end.

Definition getCurrentRank (totalKills : Z) : KillerRank.t :=
  rankLoop KILLER_RANKS junior totalKills.

Definition checkRankUp (previousKills currentKills : Z)
  : option KillerRank.t :=
  let previousRank := getCurrentRank previousKills in
  let currentRank := getCurrentRank currentKills in
  if negb (String.eqb (KillerRank.name currentRank)
                      (KillerRank.name previousRank))
  then Some currentRank
  else None.

Definition formatRank (rank : KillerRank.t) : string :=
  match KillerRank.emoji rank with
  | Some emoji =>
      if JS.truthy emoji then (emoji ++ " " ++ KillerRank.name rank)%string
      else KillerRank.name rank
  | None => KillerRank.name rank
  end.

End KillerRanks.

(* ===================================================================== *)
(** ** The properties as the specification words them                     *)
(* ===================================================================== *)

Module Spec.

(** [t] occurs in [s] as a contiguous piece. *)
Definition substring (t s : string) : Prop :=
  exists pre post : string, s = (pre ++ t ++ post)%string.

(** A capital letter among the code units below U+0100, by its code:
    A-Z, or U+00C0-U+00DE other than the multiplication sign U+00D7. *)
Definition capital (n : nat) : Prop :=
  (65 <= n <= 90)%nat \/ ((192 <= n <= 222)%nat /\ n <> 215%nat).

(** Two characters that are the same when letter case is ignored: the
    same character, or a capital letter and its small letter, which is 32
    code points higher. *)
Definition sameLetter (a b : ascii) : Prop :=
  let m := nat_of_ascii a in
  let n := nat_of_ascii b in
  m = n \/ (capital m /\ n = (m + 32)%nat) \/ (capital n /\ m = (n + 32)%nat).

(** Two strings that are the same when letter case is ignored. *)
Fixpoint sameIgnoringCase (s t : string) : Prop :=
  match s, t with
  | EmptyString, EmptyString => True
  | String a s', String b t' => sameLetter a b /\ sameIgnoringCase s' t'
  | _, _ => False
  end.

(** [t] occurs in [s] when letter case is ignored: a contiguous piece of
    [s] is [t] up to letter case. *)
Definition ciSubstring (t s : string) : Prop :=
  exists pre mid post : string,
    s = (pre ++ mid ++ post)%string /\ sameIgnoringCase mid t.

(** The character of the decimal digit [d]. *)
Definition digitChar (d : Z) : ascii := ascii_of_nat (48 + Z.to_nat d).

(** The decimal digits of a number that is not negative, most
    significant first, put in front of [acc]; [fuel] bounds their
    number. *)
Fixpoint digits (fuel : nat) (n : Z) (acc : string) : string :=
  match fuel with
  | O => acc
  | S fuel' =>
      let acc' := String (digitChar (n mod 10)) acc in
      if n <? 10 then acc' else digits fuel' (n / 10) acc'
  end.

(** The decimal representation of an integer: its digits, after a minus
    sign when it is negative. *)
Definition decimal (n : Z) : string :=
  if n <? 0 then String "-" (digits (Z.to_nat (- n)) (- n) "")
  else digits (S (Z.to_nat n)) n "".

(** The OR-filter of the data model: the filter occurs in the decimal
    representation of the port number, or, letter case ignored, in the
    process name or in the command. *)
Definition matches (filter : string) (p : PortInfo.t) : Prop :=
  substring filter (decimal (PortInfo.port p))
  \/ ciSubstring filter (PortInfo.processName p)
  \/ ciSubstring filter (PortInfo.command p).

(** The decision procedure for [matches] used to write the flattened
    list down; [keep_iff] relates the two. *)
Definition keep (filter : string) (p : PortInfo.t) : bool :=
  match filter with
  | EmptyString => true
  | String _ _ =>
      JS.includes (JS.Number_toString (PortInfo.port p)) filter
      || JS.includes (JS.toLowerCase (PortInfo.processName p))
                     (JS.toLowerCase filter)
      || JS.includes (JS.toLowerCase (PortInfo.command p))
                     (JS.toLowerCase filter)
  end.

(** Groups in order, collapsed groups skipped, each group's ports in
    order, filtered. *)
Definition flatten (filter : string) (groups : list PortGroup.t)
  : list Entry.t :=
  flat_map
    (fun g =>
       if PortGroup.collapsed g then []
       else map (fun p => Entry.mk p g)
                (List.filter (keep filter) (PortGroup.ports g)))
    groups.

(** What the fingerprint records of a group. *)
Definition fingerprint (g : PortGroup.t) : string * bool * nat :=
  (PortGroup.id g, PortGroup.collapsed g, List.length (PortGroup.ports g)).

(** A selection index is valid for a list. *)
Definition validIndex (l : list Entry.t) (i : Z) : Prop :=
  0 <= i < JS.length l \/ (l = [] /\ i = 0).

(** The cache is absent, or the list it stores is the flattening of
    [groups] under the filter it stores. *)
Definition cacheFresh (h : Heap.t) (groups : list PortGroup.t)
           (cache : option loc) : Prop :=
  match cache with
  | None => True
  | Some c =>
      Heap.arrays h (FilteredPortsCache.result (Heap.caches h c))
      = flatten (FilteredPortsCache.filter (Heap.caches h c)) groups
  end.

(** The groups came from [groups0] by collapse changes only: group by
    group the same id, type and ports, whatever the collapsed flags. *)
Definition collapseChange (groups0 groups : list PortGroup.t) : Prop :=
  Forall2 (fun g0 g =>
             PortGroup.id g0 = PortGroup.id g
             /\ PortGroup.type g0 = PortGroup.type g
             /\ PortGroup.ports g0 = PortGroup.ports g)
          groups0 groups.

(** The cache object at [c] is as a computation of [getFilteredPorts]
    over [state0] and [groups0] left it: their filter, fingerprint and
    sort key, and the list flattened from them. *)
Definition cacheFor (h : Heap.t) (state0 : DashboardState.t)
           (groups0 : list PortGroup.t) (c : loc) : Prop :=
  let cache := Heap.caches h c in
  FilteredPortsCache.filter cache = DashboardState.filter state0
  /\ FilteredPortsCache.groupsHash cache = DashboardData.groupsHash groups0
  /\ FilteredPortsCache.sortBy cache = DashboardState.sortBy state0
  /\ Heap.arrays h (FilteredPortsCache.result cache)
     = DashboardData.recalculate (DashboardState.filter state0) groups0.

(** The cache is absent, or was computed for a state and groups from
    which the present ones come by filter, sort-key and collapse changes:
    whenever filter and sort key are as they were, the groups differ at
    most in their collapsed flags. *)
Definition cacheUsable (h : Heap.t) (state : DashboardState.t)
           (groups : list PortGroup.t) (cache : option loc) : Prop :=
  match cache with
  | None => True
  | Some c =>
      exists state0 groups0,
        cacheFor h state0 groups0 c
        /\ (DashboardState.filter state0 = DashboardState.filter state ->
            DashboardState.sortBy state0 = DashboardState.sortBy state ->
            collapseChange groups0 groups)
  end.

(** Row [i] is present in both lists and a displayed field differs. *)
Definition rowChanged (prev curr : list Entry.t) (i : Z) : Prop :=
  exists p c, JS.get prev i = Some p /\ JS.get curr i = Some c
              /\ DashboardRenderer.portDataChanged p c = true.

(** The displayed fields of two rows differ. *)
Definition fieldsDiffer (p c : PortInfo.t) : Prop :=
  PortInfo.port p <> PortInfo.port c
  \/ PortInfo.pid p <> PortInfo.pid c
  \/ PortInfo.processName p <> PortInfo.processName c
  \/ PortInfo.command p <> PortInfo.command c
  \/ PortInfo.lifetime p <> PortInfo.lifetime c
  \/ PortInfo.type p <> PortInfo.type c.

(** The changed rows as the delta algorithm is described: the two
    selection rows when the selection moved, and every row present in
    both lists whose fields differ. *)
Fixpoint changedData (prev curr : list Entry.t) (i : Z)
         (changed : JS.NumSet) : JS.NumSet :=
  match prev, curr with
  | p :: prev', c :: curr' =>
      changedData prev' curr' (i + 1)
        (if DashboardRenderer.portDataChanged p c
         then JS.Set_add changed (i + 2) else changed)
  | _, _ => changed
  end.

Definition changedRows (prevSel currSel : Z) (prev curr : list Entry.t)
  : JS.NumSet :=
  changedData prev curr 0
    (if negb (prevSel =? currSel)
     then JS.Set_add (JS.Set_add [] (prevSel + 2)) (currSel + 2)
     else []).

(** Searching with nothing typed yet. *)
Definition enteringSearchMode (state : DashboardState.t)
           (searchBuffer : string) : Prop :=
  DashboardState.searching state = true /\ searchBuffer = "".

(** The snapshots agree on list length, filter, sort key and details
    flag. *)
Definition snapshotsAgree (h : Heap.t) (previous current : RenderState.t)
  : Prop :=
  JS.length (Heap.arrays h (RenderState.filteredPorts previous))
  = JS.length (Heap.arrays h (RenderState.filteredPorts current))
  /\ RenderState.filter previous = RenderState.filter current
  /\ RenderState.sortBy previous = RenderState.sortBy current
  /\ RenderState.showDetails previous = RenderState.showDetails current.

(** Eligibility for a delta repaint, with the search-mode condition as
    the specification words it. *)
Definition deltaEligible (h : Heap.t) (state : DashboardState.t)
           (previous : option RenderState.t) (current : RenderState.t)
           (searchBuffer : string) : Prop :=
  exists p, previous = Some p
    /\ DashboardState.killMessage state = None
    /\ ~ enteringSearchMode state searchBuffer
    /\ snapshotsAgree h p current.

(** Eligibility with the search-mode condition of the code: searching,
    nothing typed, and no filter active. *)
Definition deltaEligibleCode (h : Heap.t) (state : DashboardState.t)
           (previous : option RenderState.t) (current : RenderState.t)
           (searchBuffer : string) : Prop :=
  exists p, previous = Some p
    /\ DashboardState.killMessage state = None
    /\ ~ (enteringSearchMode state searchBuffer
          /\ DashboardState.filter state = "")
    /\ snapshotsAgree h p current.

(** The texts of the wrapped lines of a command view, top to bottom. *)
Fixpoint lineTexts (ops : list DrawOp) : list string :=
  match ops with
  | [] => []
  | OpLine _ text :: rest => text :: lineTexts rest
  | _ :: rest => lineTexts rest
  end.

(** No character of [s] is a space. *)
Fixpoint noSpace (s : string) : bool :=
  match s with
  | EmptyString => true
  | String c s' => negb (Ascii.eqb c " "%char) && noSpace s'
  end.

(** No wrapped line is longer than [w]. *)
Definition linesWithin (w : Z) (ops : list DrawOp) : Prop :=
  forall y text, In (OpLine y text) ops -> JS.len text <= w.

(** Every call is the drawing of a wrapped line. *)
Definition onlyLines (ops : list DrawOp) : Prop :=
  forall op, In op ops -> exists y text, op = OpLine y text.

(** The pieces of [width] characters of a word: piece [k] holds the
    characters [k * width] up to [(k + 1) * width], the last one what is
    left. *)
Definition chunks (width : nat) (word : string) : list string :=
  map (fun k => String.substring (k * width) width word)
      (seq 0 ((String.length word + width - 1) / width)).

(** How many of the words that follow fit on the line after [line], each
    after one space. *)
Fixpoint fitCount (width : Z) (line : string) (words : list string) : nat :=
  match words with
  | [] => O
  | word :: rest =>
      let line' := (line ++ " " ++ word)%string in
      if JS.len line' <=? width then S (fitCount width line' rest) else O
  end.

(** The greedy wrap of a list of words.  A word longer than the width is
    split into chunks, and the word after it starts a new line; any other
    word starts a line that takes as many of the following words as fit,
    one space between two words.  Empty words (from spaces in a row) at
    the start of a line are dropped.  [fuel] bounds the number of
    words. *)
Fixpoint wrap (fuel : nat) (width : Z) (words : list string) : list string :=
  match fuel, words with
  | O, _ => []
  | _, [] => []
  | S fuel', word :: rest =>
      if String.eqb word "" then wrap fuel' width rest
      else if JS.len word >? width
      then chunks (Z.to_nat width) word ++ wrap fuel' width rest
      else
        let k := fitCount width word rest in
        JS.join " " (word :: firstn k rest) :: wrap fuel' width (skipn k rest)
  end.

Definition wrapWords (width : Z) (words : list string) : list string :=
  wrap (List.length words) width words.

(** The lines drawn one below the other from row [y] on. *)
Fixpoint rows (y : Z) (lines : list string) : list DrawOp :=
  match lines with
  | [] => []
  | line :: rest => OpLine y line :: rows (y + 1) rest
  end.

(** The toast is drawn in a frame. *)
Definition drawsToast (ops : list DrawOp) : Prop :=
  exists m, In (OpKillMessage m) ops.


(** *** Sorting *)

(** The list is in ascending order of an integer key. *)
Definition ascending {A : Type} (key : A -> Z) (l : list A) : Prop :=
  Sorted (fun a b => key a <= key b) l.

(** The integer key a sort key orders by, when it has one. *)
Definition numericKey (sortBy : SortBy) : option (PortInfo.t -> Z) :=
  match sortBy with
  | SortPort => Some PortInfo.port
  | SortPid => Some PortInfo.pid
  | SortProcess => None
  end.

(** Same group apart from the order of its ports. *)
Definition sameGroupUpToOrder (g' g : PortGroup.t) : Prop :=
  PortGroup.id g' = PortGroup.id g
  /\ PortGroup.type g' = PortGroup.type g
  /\ PortGroup.collapsed g' = PortGroup.collapsed g
  /\ Permutation (PortGroup.ports g') (PortGroup.ports g).

(** No two groups share an id. *)
Fixpoint uniqueIds (groups : list PortGroup.t) : bool :=
  match groups with
  | [] => true
  | g :: rest =>
      negb (existsb (fun g' => String.eqb (PortGroup.id g') (PortGroup.id g)) rest)
      && uniqueIds rest
  end.

(** Some group has the id. *)
Definition hasGroup (id : string) (groups : list PortGroup.t) : bool :=
  existsb (fun g => String.eqb (PortGroup.id g) id) groups.


(** *** The search buffer *)

(** Every character is one of 0-9. *)
Fixpoint allDigits (s : string) : bool :=
  match s with
  | EmptyString => true
  | String c s' =>
      let n := nat_of_ascii c in
      ((48 <=? n) && (n <=? 57))%nat && allDigits s'
  end.

End Spec.

(* ===================================================================== *)
(** ** Concrete data for the examples                                     *)
(* ===================================================================== *)

Module Ex.

Definition port (n pid : Z) (name cmd : string) : PortInfo.t :=
  PortInfo.mk n pid name cmd "dev" TCP None None.

Definition p80 := port 80 100 "nginx" "/usr/sbin/nginx".
Definition p443 := port 443 101 "Node" "node server.js".
Definition p3000 := port 3000 102 "vite" "vite --port 3000".

Definition web (ps : list PortInfo.t) : PortGroup.t :=
  PortGroup.mk "web" "dev-server" false ps.

Definition entry (p : PortInfo.t) : Entry.t := Entry.mk p (web [p]).

Definition three : list Entry.t := [entry p80; entry p443; entry p3000].

Definition state0 := DashboardState.createInitialState.

(** *** A refresh that replaces a port and keeps the group's size *)

Definition groupsBefore : list PortGroup.t := [web [p80]].
Definition groupsAfter : list PortGroup.t := [web [p443]].

(** The store and the cache left by a first call on [groupsBefore]. *)
Definition firstCall : DashboardData.Result * Heap.t :=
  DashboardData.getFilteredPorts state0 groupsBefore None Heap.empty.

(** *** Two snapshots that differ below the visible rows *)

Definition withPid (pid : Z) (p : PortInfo.t) : PortInfo.t :=
  PortInfo.mk (PortInfo.port p) pid (PortInfo.processName p)
              (PortInfo.command p) (PortInfo.user p) (PortInfo.protocol p)
              (PortInfo.type p) (PortInfo.lifetime p).

Definition p5000 := port 5000 103 "flask" "flask run".
Definition p8080 := port 8080 104 "java" "java -jar app.jar".

Definition portsBefore : list PortInfo.t :=
  [p80; p443; p3000; p5000; p8080].

Definition portsAfter : list PortInfo.t :=
  [p80; p443; withPid 202 p3000; withPid 203 p5000; withPid 204 p8080].

Definition fiveBefore : list Entry.t :=
  map (fun p => Entry.mk p (web portsBefore)) portsBefore.

Definition fiveAfter : list Entry.t :=
  map (fun p => Entry.mk p (web portsAfter)) portsAfter.

(** A ten-row terminal: with the details strip on, rows 2 and 3 show
    ports. *)
Definition tenRows : Screen.t := Screen.mk 100 10.

(** The dashboard after the refresh, before it is rendered: the
    previous frame showed [fiveBefore], the groups now hold
    [portsAfter]. *)
Definition fiveState : DashboardState.t :=
  DashboardState.mk [web portsAfter] 0 "" false false "" false None
                    false None SortPort true false None None false None.

Definition snap (ref : loc) : RenderState.t :=
  RenderState.mk ref 0 "" SortPort true.

Definition dashFive : DashboardCore.t :=
  DashboardCore.mk fiveState "" None (Some (snap 0%nat))
                   (snd (Heap.allocArray Heap.empty fiveBefore)).

(** *** Entering search mode while a filter is active *)

Definition searchingState : DashboardState.t :=
  DashboardState.mk [web [p80; p443]] 0 "80" false false "" false None
                    false None SortPort true true None None false None.

Definition oneArray : Heap.t :=
  snd (Heap.allocArray Heap.empty [Entry.mk p80 (web [p80; p443])]).

Definition dashSearching : DashboardCore.t :=
  DashboardCore.mk searchingState ""
    None (Some (RenderState.mk 0%nat 0 "80" SortPort true)) oneArray.

(** *** A toast whose expiry timestamp is 0 *)

Definition toast : KillMessage.t :=
  KillMessage.mk "Killed port 80" None (Some "green").

Definition toastState (expiresAt : Z) : DashboardState.t :=
  DashboardState.mk [web [p80; p443]] 0 "" false false "" false None
                    false None SortPort true false
                    (Some toast) (Some expiresAt) false None.

Definition dashToast (expiresAt : Z) : DashboardCore.t :=
  DashboardCore.mk (toastState expiresAt) "" None None Heap.empty.

Definition screen : Screen.t := Screen.mk 100 30.

(** *** A long command without spaces *)

Fixpoint repeat_a (n : nat) : string :=
  match n with
  | O => EmptyString
  | S n' => String "a"%char (repeat_a n')
  end.

Definition commandState (command : string) : DashboardState.t :=
  DashboardState.mk [] 0 "" false false "" false None
                    true (Some command) SortPort true false
                    None None false None.


(** *** Two groups with distinct ids *)

Definition dbGroup : PortGroup.t :=
  PortGroup.mk "db" "database" false [port 5432 300 "postgres" "postgres -D data"].

Definition webGroup : PortGroup.t := web [p80; p443].

Definition twoGroups : list PortGroup.t := [webGroup; dbGroup].

(** The first port of the list flattened from [twoGroups]. *)
Definition selectedWeb : Entry.t := Entry.mk p80 webGroup.


Definition twoGroupsState : DashboardState.t :=
  DashboardState.mk twoGroups 0 "" false false "" false None
                    false None SortPort true false None None false None.

Definition dashTwoGroups : DashboardCore.t :=
  DashboardCore.mk twoGroupsState "" None None Heap.empty.


(** *** Searching *)

Definition searchState (filter : string) : DashboardState.t :=
  DashboardState.mk twoGroups 0 filter false false "" false None
                    false None SortPort true true None None false None.

Definition dashSearch (buffer : string) : DashboardCore.t :=
  DashboardCore.mk (searchState buffer) buffer None None Heap.empty.

(** A byte-wise stand-in for [localeCompare], for the examples. *)
Definition byteCompare (a b : string) : Z :=
  match String.compare a b with
  | Lt => -1
  | Eq => 0
  | Gt => 1
  end.

Definition noOptions : Dashboard.FilterOptions :=
  Dashboard.mkFilterOptions None None None None.

Definition keepGroups (groups : list PortGroup.t)
           (options : Dashboard.FilterOptions) : list PortGroup.t := groups.

(** The store and the cache left by a first call on [twoGroups]. *)
Definition firstCallTwoGroups : DashboardData.Result * Heap.t :=
  DashboardData.getFilteredPorts twoGroupsState twoGroups None Heap.empty.

(** [twoGroups] after the web group was collapsed. *)
Definition webCollapsed : list PortGroup.t :=
  DashboardData.toggleGroup twoGroups (Some selectedWeb).

(** *** A filter over an open and a collapsed group *)

Definition filterState (filter : string) : DashboardState.t :=
  DashboardState.setFilter state0 filter.

(** A collapsed group whose port number contains 80. *)
Definition collapsedJvm : PortGroup.t :=
  PortGroup.mk "jvm" "service" true [p8080].

(** A process name in capitals that ends in U+00C9, and the small letter
    U+00E9 as a filter. *)
Definition cafe : PortInfo.t :=
  port 8000 105 ("CAF" ++ String "201"%char "") "./serve".

Definition eAcute : string := String "233"%char "".

End Ex.

(* ===================================================================== *)
(** ** Selection: adjustSelectedIndex, moveSelection, getSelectedPort     *)
(* ===================================================================== *)

Lemma length_nonneg {A : Type} (l : list A) : 0 <= JS.length l.
Proof. unfold JS.length. lia. Qed.

Lemma length_nil_iff {A : Type} (l : list A) : JS.length l = 0 <-> l = [].
Proof.
  unfold JS.length. split.
  - destruct l; [reflexivity | simpl; lia].
  - intros ->. reflexivity.
Qed.

Lemma length_cons {A : Type} (x : A) (l : list A) :
  JS.length (x :: l) = JS.length l + 1.
Proof. unfold JS.length. simpl List.length. lia. Qed.

Lemma get_in_range {A : Type} (l : list A) (i : Z) :
  0 <= i < JS.length l -> exists x, JS.get l i = Some x.
Proof.
  intros Hi. unfold JS.get, JS.length in *.
  destruct (Z.ltb_spec i 0); [lia |].
  destruct (nth_error l (Z.to_nat i)) eqn:E; [eauto |].
  apply nth_error_None in E. lia.
Qed.

Lemma get_some_range {A : Type} (l : list A) (i : Z) (x : A) :
  JS.get l i = Some x -> 0 <= i < JS.length l.
Proof.
  unfold JS.get, JS.length. destruct (Z.ltb_spec i 0); [discriminate |].
  intros E. assert (Hn : nth_error l (Z.to_nat i) <> None) by congruence.
  apply nth_error_Some in Hn. lia.
Qed.

Lemma last_default {A : Type} (y : A) (l : list A) (d1 d2 : A) :
  last (y :: l) d1 = last (y :: l) d2.
Proof.
  revert y. induction l as [| z l IH]; intros y; [reflexivity |].
  change (last (z :: l) d1 = last (z :: l) d2). apply IH.
Qed.

Lemma nth_error_last {A : Type} (x : A) (l : list A) :
  nth_error (x :: l) (List.length l) = Some (last (x :: l) x).
Proof.
  revert x. induction l as [| y l IH]; intros x; [reflexivity |].
  change (nth_error (y :: l) (List.length l) = Some (last (y :: l) x)).
  rewrite IH. f_equal. apply last_default.
Qed.

Lemma get_last {A : Type} (x : A) (l : list A) :
  JS.get (x :: l) (JS.length (x :: l) - 1) = Some (last (x :: l) x).
Proof.
  unfold JS.get. rewrite length_cons.
  pose proof (length_nonneg l) as Hl.
  destruct (Z.ltb_spec (JS.length l + 1 - 1) 0); [lia |].
  replace (Z.to_nat (JS.length l + 1 - 1)) with (List.length l)
    by (unfold JS.length; lia).
  apply nth_error_last.
Qed.

(** C1, the range claimed for every index fails below zero: a negative
    index is returned as it is. *)
Lemma adjustSelectedIndex_negative_kept :
  DashboardData.adjustSelectedIndex Ex.three (-1) = -1
  /\ ~ Spec.validIndex Ex.three (DashboardData.adjustSelectedIndex Ex.three (-1)).
Proof.
  split; [reflexivity |].
  unfold Spec.validIndex. vm_compute. intros [[H _] | [H _]].
  - apply H. reflexivity.
  - discriminate H.
Qed.

(** C1 (amended): for every list and every index that is not negative,
    the adjusted index is valid for the list (or 0 when the list is
    empty); for every index, negative or not, one that is at or past the
    length is clamped to [length - 1] (0 for the empty list) and any
    other is returned unchanged. *)
Theorem adjustSelectedIndex_valid (l : list Entry.t) (i : Z) :
  (0 <= i -> Spec.validIndex l (DashboardData.adjustSelectedIndex l i))
  /\ (JS.length l <= i ->
      (l = [] -> DashboardData.adjustSelectedIndex l i = 0)
      /\ (l <> [] -> DashboardData.adjustSelectedIndex l i = JS.length l - 1))
  /\ (i < JS.length l -> DashboardData.adjustSelectedIndex l i = i).
Proof.
  unfold DashboardData.adjustSelectedIndex, Spec.validIndex.
  pose proof (length_nonneg l) as Hl.
  pose proof (length_nil_iff l) as Hnil.
  destruct (Z.geb_spec i (JS.length l)) as [Hge | Hlt].
  - split; [| split].
    + intros _. destruct (Z.eq_dec (JS.length l) 0) as [E | E].
      * right. split; [tauto | lia].
      * left. lia.
    + intros _. split.
      * intros ->. reflexivity.
      * intros Hne. assert (JS.length l <> 0) by tauto. lia.
    + lia.
  - split; [| split].
    + intros Hi. left. lia.
    + lia.
    + reflexivity.
Qed.

Lemma adjustSelectedIndex_valid_witness :
  Spec.validIndex Ex.three (DashboardData.adjustSelectedIndex Ex.three 7)
  /\ DashboardData.adjustSelectedIndex Ex.three 7 = 2.
Proof.
  split.
  - apply (proj1 (adjustSelectedIndex_valid Ex.three 7)). lia.
  - reflexivity.
Defined.

(** C9: [moveSelection] wraps at both ends of a non-empty list (from
    index 0 a step of -1 gives the last index, from the last index a step
    of +1 gives 0; on five items 0 goes to 4 and 4 goes to 0) and returns
    the current index unchanged on the empty list. *)
Theorem moveSelection_wraps :
  (forall (e : Entry.t) (l : list Entry.t),
      DashboardData.moveSelection (e :: l) 0 (-1) = JS.length (e :: l) - 1
      /\ DashboardData.moveSelection (e :: l) (JS.length (e :: l) - 1) 1 = 0)
  /\ (forall a b c d e : Entry.t,
         DashboardData.moveSelection [a; b; c; d; e] 0 (-1) = 4
         /\ DashboardData.moveSelection [a; b; c; d; e] 4 1 = 0)
  /\ (forall currentIndex direction : Z,
         DashboardData.moveSelection [] currentIndex direction = currentIndex).
Proof.
  split; [| split].
  - intros e l. unfold DashboardData.moveSelection.
    rewrite length_cons. pose proof (length_nonneg l) as Hl.
    destruct (Z.eqb_spec (JS.length l + 1) 0); [lia |].
    split.
    + reflexivity.
    + destruct (Z.ltb_spec (JS.length l + 1 - 1 + 1) 0); [lia |].
      destruct (Z.geb_spec (JS.length l + 1 - 1 + 1) (JS.length l + 1)); [reflexivity | lia].
  - intros. split; reflexivity.
  - intros. reflexivity.
Qed.

(** C10: [getSelectedPort] is a total function: it gives [null] on the
    empty list; on a non-empty list the element at the index when the
    index is in range, the last element when the index is at or past the
    length, and [null] when the index is negative. *)
Theorem getSelectedPort_total (l : list Entry.t) (i : Z) :
  (l = [] -> DashboardData.getSelectedPort l i = None)
  /\ (0 <= i < JS.length l ->
      exists e, nth_error l (Z.to_nat i) = Some e
                /\ DashboardData.getSelectedPort l i = Some e)
  /\ (forall e l', l = e :: l' -> JS.length l <= i ->
      DashboardData.getSelectedPort l i = Some (last l e))
  /\ (i < 0 -> DashboardData.getSelectedPort l i = None).
Proof.
  unfold DashboardData.getSelectedPort.
  pose proof (length_nonneg l) as Hl.
  pose proof (length_nil_iff l) as Hnil.
  split; [| split; [| split]].
  - intros ->. reflexivity.
  - intros Hi. destruct (Z.eqb_spec (JS.length l) 0); [lia |].
    rewrite Z.min_l by lia.
    destruct (get_in_range l i Hi) as [x Hx]. exists x. split; [| exact Hx].
    unfold JS.get in Hx. destruct (Z.ltb_spec i 0); [lia | exact Hx].
  - intros e l' -> Hi. rewrite length_cons in *.
    pose proof (length_nonneg l') as Hl'.
    destruct (Z.eqb_spec (JS.length l' + 1) 0); [lia |].
    rewrite Z.min_r by lia.
    rewrite <- (length_cons e l'). apply get_last.
  - intros Hi. destruct (JS.length l =? 0); [reflexivity |].
    rewrite Z.min_l by lia. unfold JS.get.
    destruct (Z.ltb_spec i 0); [reflexivity | lia].
Qed.

Lemma getSelectedPort_total_witness :
  exists e, nth_error Ex.three (Z.to_nat 1) = Some e
            /\ DashboardData.getSelectedPort Ex.three 1 = Some e.
Proof.
  apply (proj1 (proj2 (getSelectedPort_total Ex.three 1))).
  unfold JS.length. simpl. lia.
Defined.

(* ===================================================================== *)
(** ** Substring tests                                                    *)
(* ===================================================================== *)

Lemma truthy_iff (s : string) : JS.truthy s = true <-> s <> "".
Proof. destruct s; cbn; split; congruence. Qed.

Lemma append_cancel_l (s a b : string) :
  (s ++ a)%string = (s ++ b)%string -> a = b.
Proof.
  induction s as [| c s IH]; simpl; intros H; [exact H |].
  inversion H. auto.
Qed.

Lemma string_app_assoc (a b c : string) :
  ((a ++ b) ++ c)%string = (a ++ b ++ c)%string.
Proof.
  induction a as [| x a IH]; simpl; [reflexivity | now rewrite IH].
Qed.

Lemma string_app_nil_r (a : string) : (a ++ "")%string = a.
Proof. induction a as [| x a IH]; simpl; [reflexivity | now rewrite IH]. Qed.

Lemma join_cons (sep x : string) (xs : list string) :
  xs <> [] -> JS.join sep (x :: xs) = (x ++ sep ++ JS.join sep xs)%string.
Proof. destruct xs; [congruence | reflexivity]. Qed.

Lemma prefix_iff (t s : string) :
  String.prefix t s = true <-> exists post, s = (t ++ post)%string.
Proof.
  revert s. induction t as [| c t IH]; intros s.
  - destruct s; simpl; (split; [intros _; eexists; reflexivity | reflexivity]).
  - destruct s as [| d s]; simpl.
    + split; [discriminate | intros [post H]; discriminate H].
    + destruct (ascii_dec c d) as [-> | Hne].
      * rewrite IH. split; intros [post H]; exists post.
        -- now rewrite H.
        -- now inversion H.
      * split; [discriminate |].
        intros [post H]. inversion H. congruence.
Qed.

Lemma includes_iff (s t : string) :
  JS.includes s t = true <-> Spec.substring t s.
Proof.
  unfold Spec.substring. induction s as [| c s IH].
  - cbn [JS.includes]. rewrite orb_false_r, prefix_iff. split.
    + intros [post H]. exists "", post. exact H.
    + intros [pre [post H]]. destruct pre; [eauto | discriminate H].
  - cbn [JS.includes]. rewrite orb_true_iff, prefix_iff, IH. split.
    + intros [[post H] | [pre [post H]]].
      * exists "", post. exact H.
      * exists (String c pre), post. simpl. now rewrite H.
    + intros [pre [post H]]. destruct pre as [| d pre].
      * left. exists post. exact H.
      * right. simpl in H. inversion H. eauto.
Qed.

(** *** Letter case *)

Lemma nat_of_lower_ascii (c : ascii) :
  nat_of_ascii (JS.lower_ascii c)
  = if JS.isCapital (nat_of_ascii c)
    then (nat_of_ascii c + 32)%nat else nat_of_ascii c.
Proof.
  unfold JS.lower_ascii.
  destruct (JS.isCapital (nat_of_ascii c)) eqn:E; [| reflexivity].
  apply nat_ascii_embedding. unfold JS.isCapital in E.
  apply orb_true_iff in E.
  rewrite !andb_true_iff, !Nat.leb_le in E. lia.
Qed.

Lemma isCapital_iff (n : nat) : JS.isCapital n = true <-> Spec.capital n.
Proof.
  unfold JS.isCapital, Spec.capital.
  rewrite orb_true_iff, !andb_true_iff, negb_true_iff, !Nat.leb_le,
    Nat.eqb_neq. tauto.
Qed.

Lemma lower_ascii_same (a b : ascii) :
  JS.lower_ascii a = JS.lower_ascii b <-> Spec.sameLetter a b.
Proof.
  unfold Spec.sameLetter. cbv zeta. split.
  - intros H. apply (f_equal nat_of_ascii) in H.
    rewrite !nat_of_lower_ascii in H.
    destruct (JS.isCapital (nat_of_ascii a)) eqn:Ea,
             (JS.isCapital (nat_of_ascii b)) eqn:Eb;
      try apply isCapital_iff in Ea; try apply isCapital_iff in Eb.
    + left. lia.
    + right. left. split; [exact Ea | lia].
    + right. right. split; [exact Eb | lia].
    + left. exact H.
  - intros H.
    rewrite <- (ascii_nat_embedding (JS.lower_ascii a)),
            <- (ascii_nat_embedding (JS.lower_ascii b)).
    f_equal. rewrite !nat_of_lower_ascii.
    destruct (JS.isCapital (nat_of_ascii a)) eqn:Ea,
             (JS.isCapital (nat_of_ascii b)) eqn:Eb;
      try apply isCapital_iff in Ea; try apply isCapital_iff in Eb;
      try (assert (Ha : ~ Spec.capital (nat_of_ascii a))
            by (rewrite <- isCapital_iff; congruence));
      try (assert (Hb : ~ Spec.capital (nat_of_ascii b))
            by (rewrite <- isCapital_iff; congruence));
      unfold Spec.capital in *; lia.
Qed.

Lemma toLowerCase_same (s t : string) :
  JS.toLowerCase s = JS.toLowerCase t <-> Spec.sameIgnoringCase s t.
Proof.
  revert t. induction s as [| a s IH]; intros [| b t];
    cbn [JS.toLowerCase Spec.sameIgnoringCase]; try (split; easy).
  rewrite <- IH, <- lower_ascii_same. split.
  - intros H. now inversion H.
  - intros [-> ->]. reflexivity.
Qed.

Lemma toLowerCase_app (s t : string) :
  JS.toLowerCase (s ++ t) = (JS.toLowerCase s ++ JS.toLowerCase t)%string.
Proof.
  induction s as [| a s IH]; cbn; [reflexivity | now rewrite IH].
Qed.

(** A lower-cased string splits where the string splits. *)
Lemma toLowerCase_split (s x y : string) :
  JS.toLowerCase s = (x ++ y)%string ->
  exists s1 s2, s = (s1 ++ s2)%string
                /\ JS.toLowerCase s1 = x /\ JS.toLowerCase s2 = y.
Proof.
  revert s. induction x as [| c x IH]; intros s H.
  - exists "", s. cbn in *. auto.
  - destruct s as [| a s]; [discriminate H |].
    cbn in H. inversion H as [[Hc Hrest]].
    destruct (IH s Hrest) as (s1 & s2 & -> & H1 & H2).
    exists (String a s1), s2. cbn. now rewrite H1, H2.
Qed.

(** The test of the code, lower-case both and look for a piece, is the
    occurrence with letter case ignored. *)
Lemma includes_lower_iff (s t : string) :
  JS.includes (JS.toLowerCase s) (JS.toLowerCase t) = true
  <-> Spec.ciSubstring t s.
Proof.
  rewrite includes_iff. unfold Spec.substring, Spec.ciSubstring. split.
  - intros (pre & post & H).
    apply toLowerCase_split in H. destruct H as (s1 & s' & -> & H1 & H').
    apply toLowerCase_split in H'. destruct H' as (mid & s3 & -> & H2 & H3).
    exists s1, mid, s3. split; [reflexivity |]. now apply toLowerCase_same.
  - intros (pre & mid & post & -> & Hsame).
    apply toLowerCase_same in Hsame.
    exists (JS.toLowerCase pre), (JS.toLowerCase post).
    now rewrite !toLowerCase_app, Hsame.
Qed.

(** *** Decimal representation *)

Lemma string_of_uint_revapp (d e : Decimal.uint) :
  NilEmpty.string_of_uint (Decimal.revapp d e)
  = (NilEmpty.string_of_uint (Decimal.revapp d Decimal.Nil)
     ++ NilEmpty.string_of_uint e)%string.
Proof.
  revert e. induction d; intros e; cbn [Decimal.revapp];
    try reflexivity;
    rewrite IHd; symmetry; rewrite IHd, string_app_assoc; reflexivity.
Qed.

(** The digits of [10 q + r] are those of [q] followed by the digit
    [r]. *)
Lemma to_uint_step (q : positive) (r : Z) :
  0 <= r < 10 ->
  NilEmpty.string_of_uint (Pos.to_uint (Z.to_pos (10 * Z.pos q + r)))
  = (NilEmpty.string_of_uint (Pos.to_uint q)
     ++ String (Spec.digitChar r) "")%string.
Proof.
  intros Hr. unfold Pos.to_uint, Decimal.rev.
  change (Pos.to_little_uint q) with (Unsigned.to_lu (N.pos q)).
  assert (E : Pos.to_little_uint (Z.to_pos (10 * Z.pos q + r))
              = Unsigned.to_lu (10 * N.pos q + Z.to_N r)).
  { replace (10 * N.pos q + Z.to_N r)%N
      with (N.pos (Z.to_pos (10 * Z.pos q + r))) by lia.
    reflexivity. }
  rewrite E. clear E.
  assert (Hcase : r = 0 \/ r = 1 \/ r = 2 \/ r = 3 \/ r = 4 \/ r = 5
                  \/ r = 6 \/ r = 7 \/ r = 8 \/ r = 9) by lia.
  repeat (destruct Hcase as [-> | Hcase]); try subst r;
    cbn [Z.to_N];
    repeat match goal with
    | |- context [(10 * N.pos q + N.pos ?p)%N] =>
        replace (10 * N.pos q + N.pos p)%N
          with (N.succ (10 * N.pos q + N.pred (N.pos p)))%N by lia;
        cbn [N.pred Pos.pred_N Pos.pred_double]
    end;
    rewrite ?N.add_0_r, ?Unsigned.to_lu_succ, Unsigned.to_ldec_tenfold;
    cbn [Decimal.Little.succ Decimal.revapp];
    rewrite string_of_uint_revapp; reflexivity.
Qed.

Lemma digits_to_uint (fuel : nat) (n : Z) (acc : string) :
  0 < n -> (Z.to_nat n <= fuel)%nat ->
  Spec.digits fuel n acc
  = (NilEmpty.string_of_uint (Pos.to_uint (Z.to_pos n)) ++ acc)%string.
Proof.
  revert n acc. induction fuel as [| fuel IH]; intros n acc Hn Hfuel; [lia |].
  cbn [Spec.digits]. destruct (Z.ltb_spec n 10) as [Hlt | Hge].
  - assert (Hcase : n = 1 \/ n = 2 \/ n = 3 \/ n = 4 \/ n = 5
                    \/ n = 6 \/ n = 7 \/ n = 8 \/ n = 9) by lia.
    repeat (destruct Hcase as [-> | Hcase]); try subst n; reflexivity.
  - assert (Hq : 0 < n / 10) by (apply Z.div_str_pos; lia).
    assert (Hr : 0 <= n mod 10 < 10) by (apply Z.mod_pos_bound; lia).
    rewrite IH; [| exact Hq |].
    2: { assert (n / 10 < n) by (apply Z.div_lt; lia). lia. }
    assert (En : n = 10 * Z.pos (Z.to_pos (n / 10)) + n mod 10).
    { rewrite Z2Pos.id by exact Hq. apply Z.div_mod. lia. }
    rewrite En at 3.
    rewrite to_uint_step by exact Hr.
    now rewrite string_app_assoc.
Qed.

(** [toString] of an integer is its decimal representation. *)
Lemma Number_toString_decimal (n : Z) :
  JS.Number_toString n = Spec.decimal n.
Proof.
  unfold JS.Number_toString, Spec.decimal. destruct n as [| p | p].
  - reflexivity.
  - change (Z.pos p <? 0) with false. cbv iota.
    rewrite digits_to_uint by lia. rewrite string_app_nil_r.
    cbn [Z.to_int NilZero.string_of_int Z.to_pos].
    unfold NilZero.string_of_uint.
    pose proof (Unsigned.to_uint_nonnil p) as Hnil.
    now destruct (Pos.to_uint p).
  - change (Z.neg p <? 0) with true. cbv iota.
    change (- Z.neg p) with (Z.pos p).
    rewrite digits_to_uint by lia. rewrite string_app_nil_r.
    cbn [Z.to_int NilZero.string_of_int Z.to_pos].
    unfold NilZero.string_of_uint.
    pose proof (Unsigned.to_uint_nonnil p) as Hnil.
    now destruct (Pos.to_uint p).
Qed.

Lemma keep_iff (filter : string) (p : PortInfo.t) :
  Spec.keep filter p = true <-> filter = "" \/ Spec.matches filter p.
Proof.
  unfold Spec.keep, Spec.matches.
  destruct filter as [| c f].
  - split; [now left | reflexivity].
  - rewrite !orb_true_iff, !includes_lower_iff, includes_iff,
      Number_toString_decimal.
    split.
    + intros H. right. tauto.
    + intros [H | H]; [discriminate H | tauto].
Qed.

(* ===================================================================== *)
(** ** The recalculation of getFilteredPorts                              *)
(* ===================================================================== *)

Lemma pushPort_keep (filter : string) (g : PortGroup.t)
      (flat : list Entry.t) (p : PortInfo.t) :
  DashboardData.pushPort filter g flat p
  = flat ++ (if Spec.keep filter p then [Entry.mk p g] else []).
Proof.
  unfold DashboardData.pushPort, Spec.keep, DashboardData.portMatch,
    DashboardData.processMatch, DashboardData.commandMatch.
  destruct filter as [| c f]; [reflexivity |].
  cbn [JS.truthy].
  destruct (JS.includes _ _), (JS.includes _ _), (JS.includes _ _);
    cbn; now rewrite ?app_nil_r.
Qed.

Lemma fold_pushPort (filter : string) (g : PortGroup.t)
      (ps : list PortInfo.t) (flat : list Entry.t) :
  fold_left (DashboardData.pushPort filter g) ps flat
  = flat ++ map (fun p => Entry.mk p g) (List.filter (Spec.keep filter) ps).
Proof.
  revert flat. induction ps as [| p ps IH]; intros flat; simpl.
  - now rewrite app_nil_r.
  - rewrite IH, pushPort_keep, <- app_assoc.
    destruct (Spec.keep filter p); reflexivity.
Qed.

Lemma fold_pushGroup (filter : string) (groups : list PortGroup.t)
      (flat : list Entry.t) :
  fold_left (DashboardData.pushGroup filter) groups flat
  = flat ++ Spec.flatten filter groups.
Proof.
  revert flat. induction groups as [| g groups IH]; intros flat; simpl.
  - now rewrite app_nil_r.
  - rewrite IH. unfold DashboardData.pushGroup.
    destruct (PortGroup.collapsed g); simpl.
    + reflexivity.
    + now rewrite fold_pushPort, <- app_assoc.
Qed.

Lemma recalculate_flatten (filter : string) (groups : list PortGroup.t) :
  DashboardData.recalculate filter groups = Spec.flatten filter groups.
Proof. unfold DashboardData.recalculate. apply fold_pushGroup. Qed.

(** The two outcomes of [getFilteredPorts]. *)
Lemma getFilteredPorts_miss (state : DashboardState.t)
      (groups : list PortGroup.t) (cache : option loc) (h : Heap.t) :
  (cache = None
   \/ exists c, cache = Some c
        /\ DashboardData.cacheHit state (DashboardData.groupsHash groups)
                                  (Heap.caches h c) = false) ->
  DashboardData.getFilteredPorts state groups cache h
  = DashboardData.getFilteredPorts state groups None h.
Proof.
  intros [-> | [c [-> Hmiss]]]; [reflexivity |].
  unfold DashboardData.getFilteredPorts. now rewrite Hmiss.
Qed.

Lemma getFilteredPorts_hit (state : DashboardState.t)
      (groups : list PortGroup.t) (c : loc) (h : Heap.t) :
  DashboardData.cacheHit state (DashboardData.groupsHash groups)
                         (Heap.caches h c) = true ->
  DashboardData.getFilteredPorts state groups (Some c) h
  = ({| DashboardData.filteredPorts :=
          FilteredPortsCache.result (Heap.caches h c);
        DashboardData.newCache := Some c |}, h).
Proof.
  intros Hhit. unfold DashboardData.getFilteredPorts. now rewrite Hhit.
Qed.

Lemma upd_same {A : Type} (f : loc -> A) (l : loc) (v : A) :
  Heap.upd f l v l = v.
Proof. unfold Heap.upd. now rewrite Nat.eqb_refl. Qed.

Lemma SortBy_eqb_eq (a b : SortBy) : SortBy_eqb a b = true <-> a = b.
Proof. destruct a, b; simpl; split; congruence. Qed.

Lemma cacheHit_iff (state : DashboardState.t) (hash : string)
      (c : FilteredPortsCache.t) :
  DashboardData.cacheHit state hash c = true
  <-> FilteredPortsCache.filter c = DashboardState.filter state
      /\ FilteredPortsCache.groupsHash c = hash
      /\ FilteredPortsCache.sortBy c = DashboardState.sortBy state.
Proof.
  unfold DashboardData.cacheHit.
  rewrite !andb_true_iff, !String.eqb_eq, SortBy_eqb_eq. tauto.
Qed.

(** The hash is a function of the per-group fingerprints. *)
Lemma groupsHash_fingerprint (groups groups' : list PortGroup.t) :
  map Spec.fingerprint groups' = map Spec.fingerprint groups ->
  DashboardData.groupsHash groups' = DashboardData.groupsHash groups.
Proof.
  intros H. unfold DashboardData.groupsHash. f_equal.
  revert groups' H. induction groups as [| g groups IH]; intros groups' H.
  - destruct groups'; [reflexivity | discriminate H].
  - destruct groups' as [| g' groups']; [discriminate H |].
    simpl in H. inversion H as [[Hid Hcol Hlen Hrest]].
    simpl. rewrite (IH _ Hrest). f_equal.
    unfold DashboardData.groupHash, JS.length. now rewrite Hid, Hcol, Hlen.
Qed.

(** What a fresh computation returns and stores. *)
Lemma getFilteredPorts_fresh (state : DashboardState.t)
      (groups : list PortGroup.t) (h : Heap.t) :
  let '(r, h') := DashboardData.getFilteredPorts state groups None h in
  DashboardData.filteredPorts r = Heap.next h
  /\ DashboardData.newCache r = Some (S (Heap.next h))
  /\ Heap.arrays h' (Heap.next h)
     = Spec.flatten (DashboardState.filter state) groups
  /\ Heap.caches h' (S (Heap.next h))
     = {| FilteredPortsCache.result := Heap.next h;
          FilteredPortsCache.filter := DashboardState.filter state;
          FilteredPortsCache.groupsHash := DashboardData.groupsHash groups;
          FilteredPortsCache.sortBy := DashboardState.sortBy state |}
  /\ Heap.next h' = S (S (Heap.next h)).
Proof.
  unfold DashboardData.getFilteredPorts, Heap.allocArray, Heap.allocCache.
  cbn. rewrite !upd_same, recalculate_flatten. repeat split.
Qed.

(** C5: on a cache miss the list returned holds the ports of the groups
    in the given order, collapsed groups skipped, each visible group's
    ports in their order, and, for a non-empty filter, exactly the ports
    whose number in decimal contains the filter or whose process name or
    command contains it when letter case is ignored. *)
Theorem getFilteredPorts_miss_flatten (state : DashboardState.t)
        (groups : list PortGroup.t) (cache : option loc) (h : Heap.t) :
  (cache = None
   \/ exists c, cache = Some c
        /\ DashboardData.cacheHit state (DashboardData.groupsHash groups)
                                  (Heap.caches h c) = false) ->
  (let '(r, h') := DashboardData.getFilteredPorts state groups cache h in
   Heap.arrays h' (DashboardData.filteredPorts r)
   = Spec.flatten (DashboardState.filter state) groups)
  /\ (forall p, Spec.keep (DashboardState.filter state) p = true
                <-> DashboardState.filter state = ""
                    \/ Spec.matches (DashboardState.filter state) p).
Proof.
  intros Hmiss. split; [| intros p; apply keep_iff].
  rewrite (getFilteredPorts_miss _ _ _ _ Hmiss).
  pose proof (getFilteredPorts_fresh state groups h) as H.
  destruct (DashboardData.getFilteredPorts state groups None h) as [r h'].
  destruct H as (-> & _ & H & _). exact H.
Qed.

Lemma getFilteredPorts_miss_flatten_witness :
  (let '(r, h') :=
     DashboardData.getFilteredPorts
       (Ex.filterState "80")
       [Ex.web [Ex.p80; Ex.p443]; Ex.collapsedJvm] None Heap.empty in
   Heap.arrays h' (DashboardData.filteredPorts r)
   = [Entry.mk Ex.p80 (Ex.web [Ex.p80; Ex.p443])])
  /\ (let '(r, h') :=
        DashboardData.getFilteredPorts
          (Ex.filterState Ex.eAcute)
          [Ex.web [Ex.p443; Ex.cafe]] None Heap.empty in
      Heap.arrays h' (DashboardData.filteredPorts r)
      = [Entry.mk Ex.cafe (Ex.web [Ex.p443; Ex.cafe])])
  /\ (Spec.keep "NODE" Ex.p443 = true <-> "NODE" = "" \/ Spec.matches "NODE" Ex.p443).
Proof.
  split; [| split].
  - exact (proj1 (getFilteredPorts_miss_flatten
                    (Ex.filterState "80")
                    [Ex.web [Ex.p80; Ex.p443]; Ex.collapsedJvm]
                    None Heap.empty (or_introl eq_refl))).
  - exact (proj1 (getFilteredPorts_miss_flatten
                    (Ex.filterState Ex.eAcute)
                    [Ex.web [Ex.p443; Ex.cafe]]
                    None Heap.empty (or_introl eq_refl))).
  - exact (proj2 (getFilteredPorts_miss_flatten
                    (Ex.filterState "NODE") [] None Heap.empty
                    (or_introl eq_refl)) Ex.p443).
Defined.

(** C4: a second call whose filter text, groups fingerprint and sort key
    are those of the first returns what the first call returned: the same
    array reference and the same cache reference, and allocates nothing
    (the store is unchanged).  The cache reference is that of a cache
    object, and the array returned is the one its [result] field refers
    to. *)
Theorem getFilteredPorts_idempotent (state state' : DashboardState.t)
        (groups groups' : list PortGroup.t) (cache : option loc)
        (h : Heap.t) :
  DashboardState.filter state' = DashboardState.filter state ->
  DashboardData.groupsHash groups' = DashboardData.groupsHash groups ->
  DashboardState.sortBy state' = DashboardState.sortBy state ->
  let '(r, h') := DashboardData.getFilteredPorts state groups cache h in
  (exists c,
      DashboardData.newCache r = Some c
      /\ FilteredPortsCache.result (Heap.caches h' c)
         = DashboardData.filteredPorts r)
  /\ DashboardData.getFilteredPorts state' groups' (DashboardData.newCache r) h'
     = (r, h').
Proof.
  intros Hf Hg Hs.
  assert (Hhit : forall c h0,
             DashboardData.cacheHit state (DashboardData.groupsHash groups)
                                    (Heap.caches h0 c) = true ->
             DashboardData.cacheHit state' (DashboardData.groupsHash groups')
                                    (Heap.caches h0 c) = true).
  { intros c h0. rewrite !cacheHit_iff, Hf, Hg, Hs. tauto. }
  assert (Hmiss :
    let '(r, h') := DashboardData.getFilteredPorts state groups None h in
    (exists c,
        DashboardData.newCache r = Some c
        /\ FilteredPortsCache.result (Heap.caches h' c)
           = DashboardData.filteredPorts r)
    /\ DashboardData.getFilteredPorts state' groups'
                                      (DashboardData.newCache r) h'
       = (r, h')).
  { pose proof (getFilteredPorts_fresh state groups h) as H.
    destruct (DashboardData.getFilteredPorts state groups None h) as [r h'].
    destruct H as (Hr & Hc & _ & Hobj & _). split.
    - exists (S (Heap.next h)). split; [exact Hc |]. now rewrite Hobj, Hr.
    - rewrite Hc. rewrite getFilteredPorts_hit.
      + rewrite Hobj. cbn. destruct r; cbn in *. now subst.
      + apply Hhit. rewrite Hobj. apply cacheHit_iff. cbn. tauto. }
  destruct cache as [c |]; [| exact Hmiss].
  destruct (DashboardData.cacheHit state (DashboardData.groupsHash groups)
                                   (Heap.caches h c)) eqn:E.
  - rewrite (getFilteredPorts_hit _ _ _ _ E). cbn [DashboardData.newCache].
    split; [exists c; split; reflexivity |].
    now rewrite (getFilteredPorts_hit _ _ _ _ (Hhit _ _ E)).
  - rewrite (getFilteredPorts_miss state groups (Some c) h)
      by (right; eauto).
    exact Hmiss.
Qed.

Lemma getFilteredPorts_idempotent_witness :
  let '(r, h') :=
    DashboardData.getFilteredPorts Ex.state0 Ex.groupsBefore None Heap.empty in
  (exists c,
      DashboardData.newCache r = Some c
      /\ FilteredPortsCache.result (Heap.caches h' c)
         = DashboardData.filteredPorts r)
  /\ DashboardData.getFilteredPorts Ex.state0 Ex.groupsBefore
                                    (DashboardData.newCache r) h'
     = (r, h').
Proof.
  exact (getFilteredPorts_idempotent
           Ex.state0 Ex.state0 Ex.groupsBefore Ex.groupsBefore None Heap.empty
           eq_refl eq_refl eq_refl).
Defined.

(** C3, the claim for every cache fails: after a refresh that replaced the
    port of a group and kept its id, collapse flag and port count, the
    cache left by the call before the refresh is hit and its list is not
    the list a fresh computation returns. *)
Lemma getFilteredPorts_stale_hit :
  let '(r0, h0) := Ex.firstCall in
  let '(hit, h1) :=
    DashboardData.getFilteredPorts Ex.state0 Ex.groupsAfter
                                   (DashboardData.newCache r0) h0 in
  let '(fresh, h2) :=
    DashboardData.getFilteredPorts Ex.state0 Ex.groupsAfter None h0 in
  DashboardData.newCache hit = DashboardData.newCache r0
  /\ Heap.arrays h1 (DashboardData.filteredPorts hit)
     = [Entry.mk Ex.p80 (Ex.web [Ex.p80])]
  /\ Heap.arrays h2 (DashboardData.filteredPorts fresh)
     = [Entry.mk Ex.p443 (Ex.web [Ex.p443])]
  /\ Heap.arrays h1 (DashboardData.filteredPorts hit)
     <> Heap.arrays h2 (DashboardData.filteredPorts fresh).
Proof.
  vm_compute. repeat split. discriminate.
Qed.

Lemma append_first (a b : ascii) (s t : string) :
  String a s = String b t -> a = b /\ s = t.
Proof. intros H. now inversion H. Qed.

(** Among groups with the same ids and port counts, the fingerprint
    tells the collapsed flags apart. *)
Lemma groupsHash_collapse (groups0 groups : list PortGroup.t) :
  Spec.collapseChange groups0 groups ->
  DashboardData.groupsHash groups0 = DashboardData.groupsHash groups ->
  groups0 = groups.
Proof.
  unfold Spec.collapseChange, DashboardData.groupsHash.
  induction 1 as [| g0 g t0 t (Hid & Hty & Hports) Hrest IH]; [reflexivity |].
  intros Hhash.
  assert (Hg : forall r0 r,
             (DashboardData.groupHash g0 ++ r0)%string
             = (DashboardData.groupHash g ++ r)%string ->
             g0 = g /\ r0 = r).
  { intros r0 r H. unfold DashboardData.groupHash in H.
    rewrite Hid, Hports, !string_app_assoc in H.
    apply append_cancel_l in H. cbn [String.append] in H.
    apply append_first in H. destruct H as [_ H].
    assert (Hc : PortGroup.collapsed g0 = PortGroup.collapsed g
                 /\ r0 = r).
    { destruct (PortGroup.collapsed g0), (PortGroup.collapsed g);
        cbn [String.append] in H; apply append_first in H;
        destruct H as [Hc H]; try discriminate Hc;
        (split; [reflexivity |]);
        apply append_first in H; destruct H as [_ H];
        now apply append_cancel_l in H. }
    destruct Hc as [Hc ->]. split; [| reflexivity].
    destruct g0, g. cbn in *. now subst. }
  cbn [map] in Hhash.
  destruct t0 as [| g0' t0], t as [| g' t];
    try (inversion Hrest; fail).
  - cbn [map JS.join] in Hhash.
    destruct (Hg "" "") as [-> _]; [now rewrite !string_app_nil_r |].
    reflexivity.
  - rewrite !join_cons in Hhash by discriminate.
    destruct (Hg _ _ Hhash) as [-> Hj].
    apply append_cancel_l in Hj. now rewrite (IH Hj).
Qed.

Lemma getFilteredPorts_miss_cacheFor (state : DashboardState.t)
      (groups : list PortGroup.t) (h : Heap.t) :
  let '(r, h') := DashboardData.getFilteredPorts state groups None h in
  exists c,
    DashboardData.newCache r = Some c
    /\ FilteredPortsCache.result (Heap.caches h' c)
       = DashboardData.filteredPorts r
    /\ Spec.cacheFor h' state groups c
    /\ Heap.arrays h' (DashboardData.filteredPorts r)
       = DashboardData.recalculate (DashboardState.filter state) groups.
Proof.
  pose proof (getFilteredPorts_fresh state groups h) as H.
  destruct (DashboardData.getFilteredPorts state groups None h) as [r h'].
  destruct H as (Hr & Hc & Harr & Hobj & _).
  exists (S (Heap.next h)). unfold Spec.cacheFor.
  rewrite Hc, Hobj, Hr, Harr, recalculate_flatten. cbn. tauto.
Qed.

(** C3 (amended): when the cache is absent, or was computed for a state
    and groups from which the present ones come by filter, sort-key and
    collapse changes (whenever filter and sort key are as they were, the
    groups differ at most in their collapsed flags), the list returned,
    on a hit as on a miss, is in content the list a fresh computation
    over the present state and groups returns, and the cache returned is
    a cache computed for the present state and groups. *)
Theorem getFilteredPorts_fresh_cache (state : DashboardState.t)
        (groups : list PortGroup.t) (cache : option loc) (h : Heap.t) :
  Spec.cacheUsable h state groups cache ->
  let '(r, h1) := DashboardData.getFilteredPorts state groups cache h in
  let '(r0, h0) := DashboardData.getFilteredPorts state groups None h in
  Heap.arrays h1 (DashboardData.filteredPorts r)
  = Heap.arrays h0 (DashboardData.filteredPorts r0)
  /\ Heap.arrays h1 (DashboardData.filteredPorts r)
     = DashboardData.recalculate (DashboardState.filter state) groups
  /\ exists c, DashboardData.newCache r = Some c
               /\ Spec.cacheFor h1 state groups c.
Proof.
  intros Husable.
  pose proof (getFilteredPorts_miss_cacheFor state groups h) as Hmiss.
  destruct cache as [c |].
  - destruct (DashboardData.cacheHit state (DashboardData.groupsHash groups)
                                     (Heap.caches h c)) eqn:E.
    + rewrite (getFilteredPorts_hit _ _ _ _ E).
      destruct (DashboardData.getFilteredPorts state groups None h) as [r0 h0].
      destruct Hmiss as (c0 & _ & _ & _ & Harr0).
      cbn [DashboardData.filteredPorts DashboardData.newCache].
      apply cacheHit_iff in E. destruct E as (Ef & Eh & Es).
      destruct Husable as (state0 & groups0 & Hfor & Hchange).
      destruct Hfor as (Hf & Hh & Hs & Harr).
      assert (Hgroups : groups0 = groups).
      { apply groupsHash_collapse; [apply Hchange | ]; congruence. }
      subst groups0.
      assert (Hlist : Heap.arrays h (FilteredPortsCache.result (Heap.caches h c))
                      = DashboardData.recalculate
                          (DashboardState.filter state) groups).
      { rewrite Harr. f_equal. congruence. }
      split; [now rewrite Harr0 | split; [exact Hlist |]].
      exists c. split; [reflexivity |]. unfold Spec.cacheFor.
      repeat split; assumption.
    + rewrite (getFilteredPorts_miss state groups (Some c) h) by (right; eauto).
      destruct (DashboardData.getFilteredPorts state groups None h) as [r0 h0].
      destruct Hmiss as (c0 & Hc0 & _ & Hfor & Harr0). eauto.
  - destruct (DashboardData.getFilteredPorts state groups None h) as [r0 h0].
    destruct Hmiss as (c0 & Hc0 & _ & Hfor & Harr0). eauto.
Qed.

Lemma getFilteredPorts_fresh_cache_witness :
  (* after the web group was collapsed: a miss *)
  (let '(r, h1) :=
     DashboardData.getFilteredPorts Ex.twoGroupsState Ex.webCollapsed
       (DashboardData.newCache (fst Ex.firstCallTwoGroups))
       (snd Ex.firstCallTwoGroups) in
   let '(r0, h0) :=
     DashboardData.getFilteredPorts Ex.twoGroupsState Ex.webCollapsed None
       (snd Ex.firstCallTwoGroups) in
   Heap.arrays h1 (DashboardData.filteredPorts r)
   = Heap.arrays h0 (DashboardData.filteredPorts r0)
   /\ Heap.arrays h1 (DashboardData.filteredPorts r)
      = DashboardData.recalculate (DashboardState.filter Ex.twoGroupsState)
                                  Ex.webCollapsed
   /\ exists c, DashboardData.newCache r = Some c
                /\ Spec.cacheFor h1 Ex.twoGroupsState Ex.webCollapsed c)
  (* after it was opened again: a hit *)
  /\ (let '(r, h1) :=
        DashboardData.getFilteredPorts
          Ex.twoGroupsState
          (DashboardData.toggleGroup Ex.webCollapsed (Some Ex.selectedWeb))
          (DashboardData.newCache (fst Ex.firstCallTwoGroups))
          (snd Ex.firstCallTwoGroups) in
      let '(r0, h0) :=
        DashboardData.getFilteredPorts
          Ex.twoGroupsState
          (DashboardData.toggleGroup Ex.webCollapsed (Some Ex.selectedWeb))
          None (snd Ex.firstCallTwoGroups) in
      Heap.arrays h1 (DashboardData.filteredPorts r)
      = Heap.arrays h0 (DashboardData.filteredPorts r0)
      /\ Heap.arrays h1 (DashboardData.filteredPorts r)
         = DashboardData.recalculate
             (DashboardState.filter Ex.twoGroupsState)
             (DashboardData.toggleGroup Ex.webCollapsed (Some Ex.selectedWeb))
      /\ exists c,
          DashboardData.newCache r = Some c
          /\ Spec.cacheFor
               h1 Ex.twoGroupsState
               (DashboardData.toggleGroup Ex.webCollapsed (Some Ex.selectedWeb))
               c).
Proof.
  split.
  - apply (getFilteredPorts_fresh_cache
             Ex.twoGroupsState Ex.webCollapsed
             (DashboardData.newCache (fst Ex.firstCallTwoGroups))
             (snd Ex.firstCallTwoGroups)).
    exists Ex.twoGroupsState, Ex.twoGroups. split.
    + repeat split.
    + intros _ _. repeat constructor.
  - apply (getFilteredPorts_fresh_cache
             Ex.twoGroupsState
             (DashboardData.toggleGroup Ex.webCollapsed (Some Ex.selectedWeb))
             (DashboardData.newCache (fst Ex.firstCallTwoGroups))
             (snd Ex.firstCallTwoGroups)).
    exists Ex.twoGroupsState, Ex.twoGroups. split.
    + repeat split.
    + intros _ _. repeat constructor.
Defined.

(* ===================================================================== *)
(** ** renderDelta: the changed rows                                      *)
(* ===================================================================== *)

Lemma Set_has_In (s : JS.NumSet) (x : Z) : JS.Set_has s x = true <-> In x s.
Proof.
  unfold JS.Set_has. rewrite existsb_exists. split.
  - intros [y [Hy E]]. apply Z.eqb_eq in E. now subst.
  - intros H. exists x. split; [exact H | apply Z.eqb_refl].
Qed.

Lemma Set_add_In (s : JS.NumSet) (x r : Z) :
  In r (JS.Set_add s x) <-> In r s \/ r = x.
Proof.
  unfold JS.Set_add. destruct (JS.Set_has s x) eqn:E.
  - apply Set_has_In in E. split; [tauto |]. intros [H | ->]; assumption.
  - rewrite in_app_iff. simpl. intuition congruence.
Qed.

Lemma Set_add_NoDup (s : JS.NumSet) (x : Z) :
  NoDup s -> NoDup (JS.Set_add s x).
Proof.
  intros Hs. unfold JS.Set_add. destruct (JS.Set_has s x) eqn:E; [exact Hs |].
  assert (Hx : ~ In x s).
  { intros H. apply Set_has_In in H. congruence. }
  clear E. induction Hs as [| y s Hy Hs IH]; simpl.
  - constructor; [intros [] | constructor].
  - constructor.
    + rewrite in_app_iff. simpl. intros [H | [H | []]]; [tauto |].
      apply Hx. left. symmetry. exact H.
    + apply IH. intros H. apply Hx. right. exact H.
Qed.

Lemma portDataChanged_iff (p c : Entry.t) :
  DashboardRenderer.portDataChanged p c = true
  <-> Spec.fieldsDiffer (Entry.port p) (Entry.port c).
Proof.
  unfold DashboardRenderer.portDataChanged, Spec.fieldsDiffer.
  rewrite !orb_true_iff, !negb_true_iff.
  rewrite !Z.eqb_neq.
  assert (Hs : forall a b : string, String.eqb a b = false <-> a <> b).
  { intros a b. destruct (String.eqb_spec a b); split; congruence. }
  rewrite !Hs.
  assert (Hn : forall a b : option Z, JS.neq_opt_num a b = true <-> a <> b).
  { intros [a |] [b |]; simpl; try (split; congruence).
    rewrite negb_true_iff, Z.eqb_neq. split; congruence. }
  assert (Ho : forall a b : option string,
             JS.neq_opt_string a b = true <-> a <> b).
  { intros [a |] [b |]; simpl; try (split; congruence).
    rewrite negb_true_iff, Hs. split; congruence. }
  rewrite Hn, Ho. tauto.
Qed.

Lemma dataLoop_In (prev curr : list Entry.t) (i maxH : Z)
      (acc : JS.NumSet) (r : Z) :
  In r (DashboardRenderer.dataLoop prev curr i maxH acc)
  <-> In r acc
      \/ exists (k : nat) (p c : Entry.t),
           nth_error prev k = Some p /\ nth_error curr k = Some c
           /\ i + Z.of_nat k + 2 < maxH
           /\ DashboardRenderer.portDataChanged p c = true
           /\ r = i + Z.of_nat k + 2.
Proof.
  revert curr i acc.
  induction prev as [| p prev IH]; intros curr i acc.
  - simpl. split; [tauto |].
    intros [H | (k & p & c & Hp & _)]; [exact H |].
    destruct k; discriminate Hp.
  - destruct curr as [| c curr].
    + simpl. split; [tauto |].
      intros [H | (k & p' & c' & _ & Hc & _)]; [exact H |].
      destruct k; discriminate Hc.
    + cbn [DashboardRenderer.dataLoop].
      destruct (Z.ltb_spec (i + 2) maxH) as [Hlt | Hge].
      * rewrite IH. split.
        -- intros [H | (k & p' & c' & Hp & Hc & Hb & Hd & ->)].
           ++ destruct (DashboardRenderer.portDataChanged p c) eqn:E.
              ** apply Set_add_In in H. destruct H as [H | ->]; [now left |].
                 right. exists O, p, c. simpl.
                 repeat split; try assumption; lia.
              ** now left.
           ++ right. exists (S k), p', c'. simpl.
              repeat split; try assumption; lia.
        -- intros [H | (k & p' & c' & Hp & Hc & Hb & Hd & ->)].
           ++ left. destruct (DashboardRenderer.portDataChanged p c);
                [apply Set_add_In; now left | exact H].
           ++ destruct k as [| k]; simpl in Hp, Hc.
              ** inversion Hp; inversion Hc; subst p' c'. left.
                 rewrite Hd. apply Set_add_In. right. lia.
              ** right. exists k, p', c'.
                 repeat split; try assumption; lia.
      * split; [tauto |].
        intros [H | (k & p' & c' & _ & _ & Hb & _)]; [exact H | lia].
Qed.

Lemma dataLoop_NoDup (prev curr : list Entry.t) (i maxH : Z)
      (acc : JS.NumSet) :
  NoDup acc -> NoDup (DashboardRenderer.dataLoop prev curr i maxH acc).
Proof.
  revert curr i acc.
  induction prev as [| p prev IH]; intros curr i acc Hacc; [exact Hacc |].
  destruct curr as [| c curr]; [exact Hacc |].
  cbn [DashboardRenderer.dataLoop].
  destruct (i + 2 <? maxH); [| exact Hacc].
  apply IH. destruct (DashboardRenderer.portDataChanged p c);
    [now apply Set_add_NoDup | exact Hacc].
Qed.

Lemma get_nth_error {A : Type} (l : list A) (k : nat) :
  JS.get l (Z.of_nat k) = nth_error l k.
Proof.
  unfold JS.get. destruct (Z.ltb_spec (Z.of_nat k) 0); [lia |].
  now rewrite Nat2Z.id.
Qed.

Lemma changedLines_In (maxH prevSel currSel : Z) (prev curr : list Entry.t)
      (r : Z) :
  In r (DashboardRenderer.changedLines maxH prevSel currSel prev curr)
  <-> (prevSel <> currSel /\ (r = prevSel + 2 \/ r = currSel + 2))
      \/ exists i, 0 <= i /\ i + 2 < maxH
                   /\ Spec.rowChanged prev curr i /\ r = i + 2.
Proof.
  unfold DashboardRenderer.changedLines. rewrite dataLoop_In.
  assert (Hsel :
    In r (if negb (prevSel =? currSel)
          then JS.Set_add (JS.Set_add [] (prevSel + 2)) (currSel + 2)
          else [])
    <-> prevSel <> currSel /\ (r = prevSel + 2 \/ r = currSel + 2)).
  { destruct (Z.eqb_spec prevSel currSel) as [E | E]; cbn [negb].
    - simpl. tauto.
    - rewrite !Set_add_In. simpl. tauto. }
  rewrite Hsel. unfold Spec.rowChanged. split.
  - intros [H | (k & p & c & Hp & Hc & Hb & Hd & ->)]; [now left |].
    right. exists (Z.of_nat k). repeat split; try lia.
    exists p, c. now rewrite !get_nth_error.
  - intros [H | (i & Hi & Hb & (p & c & Hp & Hc & Hd) & ->)]; [now left |].
    right. exists (Z.to_nat i), p, c.
    rewrite <- !get_nth_error, Z2Nat.id by lia.
    repeat split; try assumption; lia.
Qed.

Lemma changedLines_NoDup (maxH prevSel currSel : Z)
      (prev curr : list Entry.t) :
  NoDup (DashboardRenderer.changedLines maxH prevSel currSel prev curr).
Proof.
  unfold DashboardRenderer.changedLines. apply dataLoop_NoDup.
  destruct (negb (prevSel =? currSel)); [| constructor].
  apply Set_add_NoDup, Set_add_NoDup. constructor.
Qed.

(** The calls a render method never issues. *)
Lemma changedLineOps_no_clear (maxH currSel : Z) (curr : list Entry.t)
      (lineNum : Z) :
  ~ In OpClear (DashboardRenderer.changedLineOps maxH currSel curr lineNum).
Proof.
  unfold DashboardRenderer.changedLineOps.
  destruct (_ && _); [| intros []].
  destruct (_ <? _); [| intros []].
  destruct (JS.get _ _); simpl; [| tauto].
  intros [H | []]. discriminate H.
Qed.

Lemma killMessageOps_In (state : DashboardState.t) (op : DrawOp) :
  In op (DashboardRenderer.killMessageOps state) ->
  exists m, DashboardState.killMessage state = Some m /\ op = OpKillMessage m.
Proof.
  unfold DashboardRenderer.killMessageOps.
  destruct (DashboardState.killMessage state) as [m |]; simpl; [| tauto].
  intros [<- | []]. eauto.
Qed.

(** C6, the claimed row set fails on rows below the visible budget: rows
    2, 3 and 4 of the two lists differ and are present in both, none of
    their lines is in the set the code builds, and although three changed
    rows exceed half of the budget of 4, the delta is not abandoned. *)
Lemma renderDelta_ignores_hidden_rows :
  let maxH := DashboardRenderer.maxHeight Ex.tenRows Ex.fiveState in
  let '(fp, d1) := DashboardCore.getFilteredPorts Ex.dashFive in
  let current := DashboardRenderer.snapshot Ex.fiveState fp in
  maxH = 4
  /\ Heap.arrays (DashboardCore.heap d1) 0%nat = Ex.fiveBefore
  /\ Heap.arrays (DashboardCore.heap d1) fp = Ex.fiveAfter
  /\ Spec.rowChanged Ex.fiveBefore Ex.fiveAfter 2
  /\ ~ In 4 (DashboardRenderer.changedLines maxH 0 0 Ex.fiveBefore Ex.fiveAfter)
  /\ Spec.changedRows 0 0 Ex.fiveBefore Ex.fiveAfter = [4; 5; 6]
  /\ DashboardRenderer.tooManyChanges
       maxH (Spec.changedRows 0 0 Ex.fiveBefore Ex.fiveAfter) = true
  /\ ~ In OpClear
       (fst (DashboardRenderer.renderDelta
               Ex.tenRows (Ex.snap 0%nat) current d1 ""))
  /\ fst (DashboardRenderer.render Ex.tenRows Ex.dashFive)
     = (fst (DashboardRenderer.renderDelta
               Ex.tenRows (Ex.snap 0%nat) current d1 ""),
        Some current).
Proof.
  vm_compute. repeat split.
  - eexists _, _. repeat split.
  - tauto.
  - intros H.
    repeat (destruct H as [H | H]; [discriminate H |]). exact H.
Qed.

(** C6 (amended): the changed rows of a delta repaint are the two rows of
    a selection change (old and new selected row) and every row index
    that is present in both snapshots, lies within the visible row budget
    ([index + 2 < maxHeight]) and has a different port number, pid,
    process name, command, lifetime or type; when the number of changed
    rows exceeds half the budget the delta is abandoned for a full
    repaint, and otherwise the screen is not cleared. *)
Theorem renderDelta_changed_rows (scr : Screen.t)
        (previous current : RenderState.t) (d : DashboardCore.t)
        (searchBuffer : string) :
  let maxH := DashboardRenderer.maxHeight scr (DashboardCore.state d) in
  let prev :=
    Heap.arrays (DashboardCore.heap d) (RenderState.filteredPorts previous) in
  let curr :=
    Heap.arrays (DashboardCore.heap d) (RenderState.filteredPorts current) in
  let prevSel := RenderState.selectedIndex previous in
  let currSel := RenderState.selectedIndex current in
  let changed :=
    DashboardRenderer.changedLines maxH prevSel currSel prev curr in
  (forall r,
      In r changed
      <-> (prevSel <> currSel /\ (r = prevSel + 2 \/ r = currSel + 2))
          \/ exists i, 0 <= i /\ i + 2 < maxH
                       /\ Spec.rowChanged prev curr i /\ r = i + 2)
  /\ NoDup changed
  /\ (forall p c,
         DashboardRenderer.portDataChanged p c = true
         <-> Spec.fieldsDiffer (Entry.port p) (Entry.port c))
  /\ (maxH < 2 * JS.Set_size changed ->
      DashboardRenderer.renderDelta scr previous current d searchBuffer
      = DashboardRenderer.fullRender scr d (RenderState.filteredPorts current) "")
  /\ (2 * JS.Set_size changed <= maxH ->
      ~ In OpClear
          (fst (DashboardRenderer.renderDelta scr previous current d
                                              searchBuffer))).
Proof.
  cbv zeta. split; [| split; [| split; [| split]]].
  - intros r. apply changedLines_In.
  - apply changedLines_NoDup.
  - apply portDataChanged_iff.
  - intros Hmany. unfold DashboardRenderer.renderDelta,
      DashboardRenderer.fullRender, DashboardRenderer.tooManyChanges.
    destruct (Z.ltb_spec
                (DashboardRenderer.maxHeight scr (DashboardCore.state d))
                (2 * JS.Set_size
                       (DashboardRenderer.changedLines
                          (DashboardRenderer.maxHeight scr (DashboardCore.state d))
                          (RenderState.selectedIndex previous)
                          (RenderState.selectedIndex current)
                          (Heap.arrays (DashboardCore.heap d)
                                       (RenderState.filteredPorts previous))
                          (Heap.arrays (DashboardCore.heap d)
                                       (RenderState.filteredPorts current)))));
      [reflexivity | lia].
  - intros Hfew. unfold DashboardRenderer.renderDelta,
      DashboardRenderer.tooManyChanges.
    match goal with
    | |- context [?a <? ?b] => destruct (Z.ltb_spec a b) as [Hlt | Hge]; [lia |]
    end.
    match goal with
    | |- context [if ?b then _ else ([], d)] =>
        destruct b; [destruct (DashboardCore.getSelectedPort d) as [sel d1] |]
    end; cbn [fst].
    + intros H. rewrite !in_app_iff in H.
      destruct H as [H | [H | [H | [H | [H | H]]]]].
      * destruct H as [H | [H | []]]; discriminate H.
      * apply in_flat_map in H. destruct H as [x [_ H]].
        exact (changedLineOps_no_clear _ _ _ _ H).
      * destruct sel; [destruct H as [H | []]; discriminate H | exact H].
      * destruct H as [H | []]; discriminate H.
      * apply killMessageOps_In in H. destruct H as [m [_ H]]. discriminate H.
      * destruct H as [H | []]; discriminate H.
    + intros H. rewrite !in_app_iff in H.
      destruct H as [H | [H | [H | [H | [H | H]]]]].
      * destruct H as [H | [H | []]]; discriminate H.
      * apply in_flat_map in H. destruct H as [x [_ H]].
        exact (changedLineOps_no_clear _ _ _ _ H).
      * exact H.
      * destruct H as [H | []]; discriminate H.
      * apply killMessageOps_In in H. destruct H as [m [_ H]]. discriminate H.
      * destruct H as [H | []]; discriminate H.
Qed.

Lemma renderDelta_changed_rows_witness :
  ~ In OpClear
      (fst (DashboardRenderer.renderDelta
              Ex.tenRows (Ex.snap 0%nat) (Ex.snap 0%nat) Ex.dashFive "")).
Proof.
  apply (proj2 (proj2 (proj2 (proj2
           (renderDelta_changed_rows
              Ex.tenRows (Ex.snap 0%nat) (Ex.snap 0%nat) Ex.dashFive ""))))).
  vm_compute. discriminate.
Defined.

(* ===================================================================== *)
(** ** render: delta or full repaint                                      *)
(* ===================================================================== *)

Lemma canUseDelta_iff (h : Heap.t) (state : DashboardState.t)
      (previous : option RenderState.t) (current : RenderState.t)
      (searchBuffer : string) :
  DashboardRenderer.canUseDelta h state previous current searchBuffer = true
  <-> Spec.deltaEligibleCode h state previous current searchBuffer.
Proof.
  unfold DashboardRenderer.canUseDelta, Spec.deltaEligibleCode,
    DashboardRenderer.hasKillMessage, DashboardRenderer.isEnteringSearchMode,
    Spec.enteringSearchMode, Spec.snapshotsAgree.
  destruct previous as [p |].
  - rewrite !andb_true_iff, !negb_true_iff, Z.eqb_eq, String.eqb_eq,
      SortBy_eqb_eq, Bool.eqb_true_iff.
    assert (Hsearch :
      DashboardState.searching state && (searchBuffer =? "")%string
      && (DashboardState.filter state =? "")%string = false
      <-> ~ ((DashboardState.searching state = true /\ searchBuffer = "")
             /\ DashboardState.filter state = "")).
    { rewrite <- not_true_iff_false.
      rewrite !andb_true_iff, !String.eqb_eq. tauto. }
    rewrite Hsearch. split.
    + intros [[Hk Hs] Hagree]. exists p. repeat split; try tauto.
      destruct (DashboardState.killMessage state); [discriminate Hk | reflexivity].
    + intros (p' & Hp & Hk & Hs & Hagree). inversion Hp; subst p'.
      rewrite Hk. repeat split; try tauto.
  - rewrite andb_false_r. split; [discriminate |].
    intros (p & Hp & _). discriminate Hp.
Qed.

(** C2, the eligibility as claimed fails: while searching with an empty
    search buffer and an active filter, with a previous snapshot that
    agrees with the current one and no toast, the claimed condition does
    not hold and the delta repaint is taken all the same (the screen is
    not cleared). *)
Lemma render_delta_while_entering_search :
  let '(fp, d1) := DashboardCore.getFilteredPorts Ex.dashSearching in
  let current := DashboardRenderer.snapshot Ex.searchingState fp in
  DashboardRenderer.anyModal Ex.searchingState = false
  /\ Spec.enteringSearchMode Ex.searchingState ""
  /\ ~ Spec.deltaEligible (DashboardCore.heap d1) Ex.searchingState
         (DashboardCore.previousRenderState Ex.dashSearching) current ""
  /\ DashboardRenderer.render Ex.tenRows Ex.dashSearching
     = (let '(ops, d2) :=
          DashboardRenderer.renderDelta
            Ex.tenRows (RenderState.mk 0%nat 0 "80" SortPort true)
            current d1 "" in
        (ops, Some current, d2))
  /\ ~ In OpClear (fst (fst (DashboardRenderer.render Ex.tenRows Ex.dashSearching))).
Proof.
  vm_compute. repeat split.
  - intros (p & _ & _ & Hs & _). apply Hs. split; reflexivity.
  - intros H.
    repeat (destruct H as [H | H]; [discriminate H |]). exact H.
Qed.

(** C2 (amended): with no modal flag set, the renderer takes the delta
    repaint if and only if a previous snapshot exists, no toast is
    active, the state is not searching with both an empty search buffer
    and an empty filter, and the previous and current snapshots have
    equal flattened-list length, filter text, sort key and
    details-visibility flag; otherwise it performs a full repaint. *)
Theorem render_delta_iff_eligible (scr : Screen.t) (d : DashboardCore.t) :
  DashboardRenderer.anyModal (DashboardCore.state d) = false ->
  let '(fp, d1) := DashboardCore.getFilteredPorts d in
  let current := DashboardRenderer.snapshot (DashboardCore.state d) fp in
  let eligible :=
    Spec.deltaEligibleCode (DashboardCore.heap d1) (DashboardCore.state d)
      (DashboardCore.previousRenderState d) current
      (DashboardCore.searchBuffer d) in
  (eligible ->
   exists previous,
     DashboardCore.previousRenderState d = Some previous
     /\ DashboardRenderer.render scr d
        = (let '(ops, d2) :=
             DashboardRenderer.renderDelta scr previous current d1
                                           (DashboardCore.searchBuffer d) in
           (ops, Some current, d2)))
  /\ (~ eligible ->
      DashboardRenderer.render scr d
      = (let '(ops, d2) :=
           DashboardRenderer.fullRender scr d1 fp (DashboardCore.searchBuffer d) in
         (ops, Some current, d2))).
Proof.
  intros Hmodal. unfold DashboardRenderer.render. rewrite Hmodal.
  destruct (DashboardCore.getFilteredPorts d) as [fp d1]. cbv zeta.
  pose proof (canUseDelta_iff (DashboardCore.heap d1) (DashboardCore.state d)
                (DashboardCore.previousRenderState d)
                (DashboardRenderer.snapshot (DashboardCore.state d) fp)
                (DashboardCore.searchBuffer d)) as Hiff.
  split.
  - intros Hel. pose proof Hel as (p & Hp & _).
    exists p. split; [exact Hp |].
    apply Hiff in Hel. rewrite Hp in *. now rewrite Hel.
  - intros Hnel.
    destruct (DashboardCore.previousRenderState d) as [p |]; [| reflexivity].
    destruct (DashboardRenderer.canUseDelta _ _ _ _ _) eqn:E; [| reflexivity].
    exfalso. apply Hnel, Hiff. reflexivity.
Qed.

Lemma render_delta_iff_eligible_witness :
  let '(fp, d1) := DashboardCore.getFilteredPorts Ex.dashFive in
  let current := DashboardRenderer.snapshot Ex.fiveState fp in
  let eligible :=
    Spec.deltaEligibleCode (DashboardCore.heap d1) Ex.fiveState
      (Some (Ex.snap 0%nat)) current "" in
  (eligible ->
   exists previous,
     Some (Ex.snap 0%nat) = Some previous
     /\ DashboardRenderer.render Ex.tenRows Ex.dashFive
        = (let '(ops, d2) :=
             DashboardRenderer.renderDelta Ex.tenRows previous current d1 "" in
           (ops, Some current, d2)))
  /\ (~ eligible ->
      DashboardRenderer.render Ex.tenRows Ex.dashFive
      = (let '(ops, d2) := DashboardRenderer.fullRender Ex.tenRows d1 fp "" in
         (ops, Some current, d2))).
Proof.
  apply (render_delta_iff_eligible Ex.tenRows Ex.dashFive). reflexivity.
Defined.

(* ===================================================================== *)
(** ** renderCommand: the word wrap                                       *)
(* ===================================================================== *)

Lemma substring_length_le (n m : nat) (s : string) :
  (String.length (String.substring n m s) <= m)%nat.
Proof.
  revert n m. induction s as [| c s IH]; intros n m.
  - destruct n, m; simpl; lia.
  - destruct n as [| n].
    + destruct m as [| m]; simpl; [lia |]. specialize (IH O m). lia.
    + simpl. apply IH.
Qed.

Lemma substring_length_exact (n m : nat) (s : string) :
  (n + m <= String.length s)%nat ->
  String.length (String.substring n m s) = m.
Proof.
  revert n m. induction s as [| c s IH]; intros n m H.
  - simpl in H. assert (n = O) by lia. assert (m = O) by lia. now subst.
  - destruct n as [| n].
    + destruct m as [| m]; simpl; [reflexivity |].
      f_equal. apply (IH O m). simpl in H. lia.
    + simpl. apply IH. simpl in H. lia.
Qed.

Lemma substring_app (n a b : nat) (s : string) :
  (String.substring n a s ++ String.substring (n + a) b s)%string
  = String.substring n (a + b) s.
Proof.
  revert n a. induction s as [| c s IH]; intros n a.
  - destruct n, a, b; reflexivity.
  - destruct n as [| n].
    + destruct a as [| a].
      * reflexivity.
      * simpl. f_equal. apply (IH O a).
    + simpl. apply IH.
Qed.

Lemma substring_all (s : string) :
  String.substring 0 (String.length s) s = s.
Proof.
  induction s as [| c s IH]; simpl; [reflexivity | now rewrite IH].
Qed.

Lemma JS_substring_length (s : string) (i w : Z) :
  0 <= w -> JS.len (JS.substring s i (i + w)) <= w.
Proof.
  intros Hw. unfold JS.substring, JS.len.
  match goal with
  | |- Z.of_nat (String.length (String.substring ?n ?m s)) <= _ =>
      pose proof (substring_length_le n m s)
  end.
  lia.
Qed.

Lemma linesWithin_app (w : Z) (a b : list DrawOp) :
  Spec.linesWithin w (a ++ b) <-> Spec.linesWithin w a /\ Spec.linesWithin w b.
Proof.
  unfold Spec.linesWithin. split.
  - intros H. split; intros y t Hin; apply (H y t), in_app_iff; tauto.
  - intros [Ha Hb] y t Hin. apply in_app_iff in Hin.
    destruct Hin; [eapply Ha | eapply Hb]; eassumption.
Qed.

Lemma linesWithin_one (w y : Z) (text : string) :
  JS.len text <= w -> Spec.linesWithin w [OpLine y text].
Proof.
  intros H y' t [E | []]. inversion E; subst. exact H.
Qed.

Lemma onlyLines_app (a b : list DrawOp) :
  Spec.onlyLines (a ++ b) <-> Spec.onlyLines a /\ Spec.onlyLines b.
Proof.
  unfold Spec.onlyLines. split.
  - intros H. split; intros op Hin; apply H, in_app_iff; tauto.
  - intros [Ha Hb] op Hin. apply in_app_iff in Hin.
    destruct Hin; [apply Ha | apply Hb]; assumption.
Qed.

Lemma onlyLines_one (y : Z) (text : string) : Spec.onlyLines [OpLine y text].
Proof. intros op [<- | []]. eauto. Qed.

(** The inner loop never uses up its rounds. *)
Lemma chunkLoop_rows (rows : nat) (maxWidth height : Z) (word : string)
      (i y : Z) (out : list DrawOp) :
  (Z.to_nat (height - 2 - y) <= rows)%nat ->
  DashboardRenderer.chunkLoop rows maxWidth height word i y out
  = DashboardRenderer.chunkLoop (Z.to_nat (height - 2 - y))
                                maxWidth height word i y out.
Proof.
  revert i y out. induction rows as [| rows IH]; intros i y out Hrows.
  - now replace (Z.to_nat (height - 2 - y)) with O by lia.
  - destruct (Z.to_nat (height - 2 - y)) as [| need] eqn:E.
    + cbn [DashboardRenderer.chunkLoop].
      destruct (i <? JS.len word); [| reflexivity].
      destruct (Z.geb_spec (y + 1) (height - 2)); [reflexivity | lia].
    + cbn [DashboardRenderer.chunkLoop].
      destruct (i <? JS.len word); [| reflexivity].
      destruct (Z.geb_spec (y + 1) (height - 2)); [reflexivity |].
      rewrite IH by lia.
      now replace (Z.to_nat (height - 2 - (y + 1))) with need by lia.
Qed.

Lemma chunkLoop_done (rows : nat) (maxWidth height : Z) (word : string)
      (i y : Z) (out : list DrawOp) :
  JS.len word <= i ->
  DashboardRenderer.chunkLoop rows maxWidth height word i y out = (y, out).
Proof.
  intros H. destruct rows; cbn [DashboardRenderer.chunkLoop];
    destruct (Z.ltb_spec i (JS.len word)); (reflexivity || lia).
Qed.

Lemma chunkLoop_next (rows : nat) (maxWidth height : Z) (word : string)
      (i y : Z) (out : list DrawOp) :
  i < JS.len word -> y + 1 < height - 2 ->
  DashboardRenderer.chunkLoop (S rows) maxWidth height word i y out
  = DashboardRenderer.chunkLoop rows maxWidth height word (i + maxWidth) (y + 1)
      (out ++ [OpLine y (JS.substring word i (i + maxWidth))]).
Proof.
  intros Hi Hy. cbn [DashboardRenderer.chunkLoop].
  destruct (Z.ltb_spec i (JS.len word)); [| lia].
  destruct (Z.geb_spec (y + 1) (height - 2)); [lia | reflexivity].
Qed.

Lemma chunkLoop_final (rows : nat) (maxWidth height : Z) (word : string)
      (i y : Z) (out : list DrawOp) :
  i < JS.len word -> JS.len word <= i + maxWidth ->
  DashboardRenderer.chunkLoop rows maxWidth height word i y out
  = (y + 1, out ++ [OpLine y (JS.substring word i (i + maxWidth))]).
Proof.
  intros Hi Hend. destruct rows; cbn [DashboardRenderer.chunkLoop];
    destruct (Z.ltb_spec i (JS.len word)); try lia;
    destruct (y + 1 >=? height - 2); try reflexivity.
  now apply chunkLoop_done.
Qed.

Lemma chunkLoop_inv (P : list DrawOp -> Prop) (rows : nat)
      (maxWidth height : Z) (word : string) (i y : Z) (out : list DrawOp) :
  (forall a b, P a -> P b -> P (a ++ b)) ->
  (forall y0 j, P [OpLine y0 (JS.substring word j (j + maxWidth))]) ->
  P out ->
  P (snd (DashboardRenderer.chunkLoop rows maxWidth height word i y out)).
Proof.
  intros Happ Hone. revert i y out.
  induction rows as [| rows IH]; intros i y out Hout;
    cbn [DashboardRenderer.chunkLoop];
    destruct (i <? JS.len word); try exact Hout;
    destruct (y + 1 >=? height - 2); cbn [snd]; auto.
Qed.

Lemma wrapLoop_inv (P : list DrawOp -> Prop) (Q : string -> Prop)
      (maxWidth height : Z) (words : list string) (currentLine : string)
      (y : Z) (out : list DrawOp) :
  (forall a b, P a -> P b -> P (a ++ b)) ->
  (forall y0 word j, P [OpLine y0 (JS.substring word j (j + maxWidth))]) ->
  (forall y0 line, Q line -> P [OpLine y0 line]) ->
  (forall line, JS.len line <= maxWidth -> Q line) ->
  Q "" ->
  Q currentLine -> P out ->
  let '(line, _, out') :=
    DashboardRenderer.wrapLoop maxWidth height words currentLine y out in
  Q line /\ P out'.
Proof.
  intros Happ Hchunk Hline Hfit Hempty. revert currentLine y out.
  induction words as [| word rest IH]; intros currentLine y out Hcur Hout.
  - simpl. tauto.
  - cbn [DashboardRenderer.wrapLoop].
    destruct (Z.leb_spec
                (JS.len (if JS.truthy currentLine
                         then (currentLine ++ " " ++ word)%string else word))
                maxWidth) as [Hle | Hgt].
    + apply IH; [apply Hfit; exact Hle | exact Hout].
    + destruct (JS.truthy currentLine).
      * destruct (y + 1 >=? height - 2).
        -- split; [exact Hcur | apply Happ; [exact Hout | now apply Hline]].
        -- assert (Hout1 : P (out ++ [OpLine y currentLine]))
             by (apply Happ; [exact Hout | now apply Hline]).
           destruct (Z.gtb_spec (JS.len word) maxWidth) as [Hlong | Hshort].
           ++ pose proof (chunkLoop_inv P (Z.to_nat (height - 2 - (y + 1)))
                            maxWidth height word 0 (y + 1) _ Happ
                            (fun y0 j => Hchunk y0 word j) Hout1) as Hc.
              destruct (DashboardRenderer.chunkLoop _ _ _ _ _ _ _) as [y2 out2].
              apply IH; [exact Hempty | exact Hc].
           ++ apply IH; [apply Hfit; lia | exact Hout1].
      * destruct (Z.gtb_spec (JS.len word) maxWidth) as [Hlong | Hshort].
        -- pose proof (chunkLoop_inv P (Z.to_nat (height - 2 - y))
                         maxWidth height word 0 y _ Happ
                         (fun y0 j => Hchunk y0 word j) Hout) as Hc.
           destruct (DashboardRenderer.chunkLoop _ _ _ _ _ _ _) as [y2 out2].
           apply IH; [exact Hempty | exact Hc].
        -- apply IH; [apply Hfit; lia | exact Hout].
Qed.

Lemma wrapCommand_within (scr : Screen.t) (command : string) :
  0 <= Screen.width scr ->
  Spec.linesWithin (Screen.width scr) (DashboardRenderer.wrapCommand scr command).
Proof.
  intros Hw. unfold DashboardRenderer.wrapCommand.
  pose proof (wrapLoop_inv
                (Spec.linesWithin (Screen.width scr))
                (fun line => JS.len line <= Screen.width scr)
                (Screen.width scr) (Screen.height scr)
                (JS.split_space command) "" 2 []) as H.
  destruct (DashboardRenderer.wrapLoop _ _ _ _ _ _) as [[line y] out].
  destruct H as [Hline Hout].
  - intros a b Ha Hb. apply linesWithin_app. tauto.
  - intros y0 word j. apply linesWithin_one, JS_substring_length, Hw.
  - intros y0 l Hl. now apply linesWithin_one.
  - tauto.
  - exact Hw.
  - exact Hw.
  - intros y0 t [].
  - destruct (_ && _); [| exact Hout].
    apply linesWithin_app. split; [exact Hout | now apply linesWithin_one].
Qed.

Lemma wrapCommand_onlyLines (scr : Screen.t) (command : string) :
  Spec.onlyLines (DashboardRenderer.wrapCommand scr command).
Proof.
  unfold DashboardRenderer.wrapCommand.
  pose proof (wrapLoop_inv Spec.onlyLines (fun _ => True)
                (Screen.width scr) (Screen.height scr)
                (JS.split_space command) "" 2 []) as H.
  destruct (DashboardRenderer.wrapLoop _ _ _ _ _ _) as [[line y] out].
  destruct H as [_ Hout].
  - intros a b Ha Hb. apply onlyLines_app. tauto.
  - intros. apply onlyLines_one.
  - intros. apply onlyLines_one.
  - tauto.
  - exact I.
  - exact I.
  - intros op [].
  - destruct (_ && _); [| exact Hout].
    apply onlyLines_app. split; [exact Hout | apply onlyLines_one].
Qed.

Lemma split_space_noSpace (s : string) :
  Spec.noSpace s = true -> JS.split_space s = [s].
Proof.
  induction s as [| c s IH]; [reflexivity |].
  cbn [Spec.noSpace JS.split_space]. intros H.
  apply andb_true_iff in H. destruct H as [Hc Hs].
  apply negb_true_iff in Hc. rewrite Hc, (IH Hs). reflexivity.
Qed.

(** A word of 200 characters at width 40 on a screen of at least 9 rows:
    five chunks of 40 on rows 2 to 6. *)
Lemma wrapCommand_200_at_40 (scr : Screen.t) (s : string) :
  Screen.width scr = 40 -> 9 <= Screen.height scr ->
  String.length s = 200%nat -> Spec.noSpace s = true ->
  DashboardRenderer.wrapCommand scr s
  = [OpLine 2 (String.substring 0 40 s); OpLine 3 (String.substring 40 40 s);
     OpLine 4 (String.substring 80 40 s); OpLine 5 (String.substring 120 40 s);
     OpLine 6 (String.substring 160 40 s)].
Proof.
  intros Hw Hh Hlen Hns. unfold DashboardRenderer.wrapCommand.
  rewrite (split_space_noSpace s Hns), Hw.
  assert (Hl : JS.len s = 200) by (unfold JS.len; rewrite Hlen; reflexivity).
  cbn [DashboardRenderer.wrapLoop JS.truthy]. rewrite Hl.
  change (200 <=? 40) with false. change (200 >? 40) with true. cbv iota.
  rewrite <- (chunkLoop_rows (S (S (S (S (Z.to_nat (Screen.height scr - 2 - 2)))))))
    by lia.
  rewrite !chunkLoop_next by lia.
  rewrite chunkLoop_final by lia.
  cbn [app andb JS.truthy]. unfold JS.substring. rewrite Hl. reflexivity.
Qed.

(** C7, the five lines claimed for every screen fail on a short one: on
    8 rows the 200-character word is cut after four chunks, and the lines
    drawn no longer make up the command. *)
Lemma renderCommand_clipped_at_8_rows :
  let ops :=
    DashboardRenderer.renderCommand (Screen.mk 40 8)
                                    (Ex.commandState (Ex.repeat_a 200)) in
  String.length (Ex.repeat_a 200) = 200%nat
  /\ Spec.noSpace (Ex.repeat_a 200) = true
  /\ List.length (Spec.lineTexts ops) = 4%nat
  /\ String.concat "" (Spec.lineTexts ops) = Ex.repeat_a 160
  /\ String.concat "" (Spec.lineTexts ops) <> Ex.repeat_a 200.
Proof.
  vm_compute. repeat split. discriminate.
Qed.

Lemma rows_app (y : Z) (a b : list string) :
  Spec.rows y (a ++ b)
  = Spec.rows y a ++ Spec.rows (y + Z.of_nat (List.length a)) b.
Proof.
  revert y. induction a as [| x a IH]; intros y; cbn [Spec.rows app List.length].
  - now rewrite Z.add_0_r.
  - rewrite IH. do 3 f_equal. lia.
Qed.

(** [String.substring] stops at the end of the string. *)
Lemma substring_clamp (n m : nat) (s : string) :
  String.substring n m s
  = String.substring n (Nat.min m (String.length s - n)) s.
Proof.
  revert n m. induction s as [| c s IH]; intros n m.
  - destruct n, m; reflexivity.
  - destruct n as [| n].
    + destruct m as [| m]; [reflexivity |].
      cbn [String.substring String.length Nat.sub Nat.min]. f_equal.
      rewrite (IH O m). now rewrite Nat.sub_0_r.
    + cbn [String.substring String.length Nat.sub]. apply IH.
Qed.

Lemma JS_substring_chunk (word : string) (k width : nat) :
  (k * width < String.length word)%nat ->
  JS.substring word (Z.of_nat (k * width))
               (Z.of_nat (k * width) + Z.of_nat width)
  = String.substring (k * width) width word.
Proof.
  intros Hk. unfold JS.substring, JS.len.
  rewrite (substring_clamp (k * width) width word). f_equal; lia.
Qed.

Lemma chunk_count_done (len width k : nat) :
  (0 < width)%nat -> ((len + width - 1) / width <= k)%nat ->
  (len <= k * width)%nat.
Proof.
  intros Hw Hk.
  pose proof (Nat.div_mod (len + width - 1) width ltac:(lia)) as Hd.
  pose proof (Nat.mod_upper_bound (len + width - 1) width ltac:(lia)) as Hm.
  nia.
Qed.

Lemma chunk_count_more (len width k : nat) :
  (0 < width)%nat -> (k < (len + width - 1) / width)%nat ->
  (k * width < len)%nat.
Proof.
  intros Hw Hk.
  pose proof (Nat.div_mod (len + width - 1) width ltac:(lia)) as Hd.
  pose proof (Nat.mod_upper_bound (len + width - 1) width ltac:(lia)) as Hm.
  nia.
Qed.

(** With rows enough for the chunks that are left, the inner loop draws
    them all, one below the other. *)
Lemma chunkLoop_chunks (c k rows : nat) (maxWidth height : Z) (word : string)
      (y : Z) (out : list DrawOp) :
  0 < maxWidth ->
  (k + c = (String.length word + Z.to_nat maxWidth - 1) / Z.to_nat maxWidth)%nat ->
  (c <= S rows)%nat ->
  y + Z.of_nat c <= height - 2 ->
  DashboardRenderer.chunkLoop rows maxWidth height word
                              (Z.of_nat (k * Z.to_nat maxWidth)) y out
  = (y + Z.of_nat c,
     out ++ Spec.rows y
              (map (fun j => String.substring (j * Z.to_nat maxWidth)
                                              (Z.to_nat maxWidth) word)
                   (seq k c))).
Proof.
  intros Hw. revert k rows y out.
  induction c as [| c IH]; intros k rows y out Hk Hrows Hy.
  - rewrite chunkLoop_done.
    + cbn. now rewrite Z.add_0_r, app_nil_r.
    + unfold JS.len.
      pose proof (chunk_count_done (String.length word) (Z.to_nat maxWidth) k
                    ltac:(lia) ltac:(lia)).
      lia.
  - assert (Hlt : (k * Z.to_nat maxWidth < String.length word)%nat)
      by (apply chunk_count_more; lia).
    assert (Hchunk :
      JS.substring word (Z.of_nat (k * Z.to_nat maxWidth))
                   (Z.of_nat (k * Z.to_nat maxWidth) + maxWidth)
      = String.substring (k * Z.to_nat maxWidth) (Z.to_nat maxWidth) word).
    { rewrite <- (JS_substring_chunk word k (Z.to_nat maxWidth) Hlt).
      now rewrite Z2Nat.id by lia. }
    assert (Hnext : Z.of_nat (k * Z.to_nat maxWidth) + maxWidth
                    = Z.of_nat (S k * Z.to_nat maxWidth)) by lia.
    cbn [seq map Spec.rows].
    destruct rows as [| rows].
    + assert (c = O) by lia. subst c.
      cbn [DashboardRenderer.chunkLoop].
      destruct (Z.ltb_spec (Z.of_nat (k * Z.to_nat maxWidth)) (JS.len word));
        [| unfold JS.len in *; lia].
      rewrite Hchunk. cbn [seq map Spec.rows].
      replace (y + Z.of_nat 1) with (y + 1) by lia.
      now destruct (y + 1 >=? height - 2).
    + cbn [DashboardRenderer.chunkLoop].
      destruct (Z.ltb_spec (Z.of_nat (k * Z.to_nat maxWidth)) (JS.len word));
        [| unfold JS.len in *; lia].
      rewrite Hchunk, Hnext.
      destruct (Z.geb_spec (y + 1) (height - 2)) as [Hstop | Hgo].
      * assert (c = O) by lia. subst c. cbn [seq map Spec.rows].
        now replace (y + Z.of_nat 1) with (y + 1) by lia.
      * rewrite (IH (S k) rows (y + 1)) by lia.
        rewrite <- app_assoc. cbn [app]. f_equal. lia.
Qed.

Lemma join_step (a b : string) (l : list string) :
  JS.join " " ((a ++ " " ++ b)%string :: l)
  = (a ++ " " ++ JS.join " " (b :: l))%string.
Proof.
  destruct l as [| c l]; [reflexivity |].
  cbn [JS.join]. now rewrite !string_app_assoc.
Qed.

Lemma app_ne (a b : string) : a <> "" -> (a ++ b)%string <> "".
Proof. destruct a; [congruence | discriminate]. Qed.

(** While the next word fits, the loop appends it to the current line. *)
Lemma wrapLoop_line (maxWidth height : Z) (rest : list string)
      (line : string) (y : Z) (out : list DrawOp) :
  line <> "" ->
  DashboardRenderer.wrapLoop maxWidth height rest line y out
  = DashboardRenderer.wrapLoop
      maxWidth height
      (skipn (Spec.fitCount maxWidth line rest) rest)
      (JS.join " " (line :: firstn (Spec.fitCount maxWidth line rest) rest))
      y out.
Proof.
  revert line. induction rest as [| word rest IH]; intros line Hline;
    [reflexivity |].
  cbn [Spec.fitCount DashboardRenderer.wrapLoop].
  apply truthy_iff in Hline. rewrite Hline. apply truthy_iff in Hline.
  destruct (JS.len (line ++ " " ++ word) <=? maxWidth) eqn:Hfit.
  - rewrite IH by now apply app_ne.
    cbn [skipn firstn]. now rewrite join_step.
  - cbn [skipn firstn JS.join DashboardRenderer.wrapLoop].
    apply truthy_iff in Hline. now rewrite Hline, Hfit.
Qed.

(** The word after the words that fit does not fit. *)
Lemma fitCount_stop (maxWidth : Z) (rest : list string) (line word : string)
      (rest' : list string) :
  skipn (Spec.fitCount maxWidth line rest) rest = word :: rest' ->
  maxWidth
  < JS.len (JS.join " " (line :: firstn (Spec.fitCount maxWidth line rest) rest)
            ++ " " ++ word).
Proof.
  revert line. induction rest as [| w rest IH]; intros line H;
    [discriminate H |].
  cbn [Spec.fitCount] in *.
  destruct (Z.leb_spec (JS.len (line ++ " " ++ w)) maxWidth) as [Hfit | Hno].
  - cbn [skipn firstn] in *. specialize (IH _ H).
    now rewrite join_step in IH.
  - cbn [skipn firstn JS.join] in *. inversion H; subst. exact Hno.
Qed.

(** The line taken fits as long as its first word does. *)
Lemma fitCount_fits (maxWidth : Z) (rest : list string) (line : string) :
  JS.len line <= maxWidth ->
  JS.len (JS.join " " (line :: firstn (Spec.fitCount maxWidth line rest) rest))
  <= maxWidth.
Proof.
  revert line. induction rest as [| w rest IH]; intros line H; [exact H |].
  cbn [Spec.fitCount].
  destruct (Z.leb_spec (JS.len (line ++ " " ++ w)) maxWidth) as [Hfit | Hno].
  - cbn [firstn]. specialize (IH _ Hfit). now rewrite join_step in IH.
  - exact H.
Qed.

(** A line is closed when the next word does not fit, and the loop goes
    on as from the start of a line. *)
Lemma wrapLoop_restart (maxWidth height : Z) (word : string)
      (rest : list string) (line : string) (y : Z) (out : list DrawOp) :
  line <> "" -> maxWidth < JS.len (line ++ " " ++ word) ->
  y + 1 < height - 2 ->
  DashboardRenderer.wrapLoop maxWidth height (word :: rest) line y out
  = DashboardRenderer.wrapLoop maxWidth height (word :: rest) "" (y + 1)
                               (out ++ [OpLine y line]).
Proof.
  intros Hline Hno Hy. cbn [DashboardRenderer.wrapLoop JS.truthy].
  apply truthy_iff in Hline. rewrite Hline.
  destruct (Z.leb_spec (JS.len (line ++ " " ++ word)) maxWidth); [lia |].
  destruct (Z.geb_spec (y + 1) (height - 2)); [lia |].
  destruct (Z.leb_spec (JS.len word) maxWidth) as [Hfit | Hlong].
  - destruct (Z.gtb_spec (JS.len word) maxWidth); [lia | reflexivity].
  - destruct (Z.gtb_spec (JS.len word) maxWidth); [reflexivity | lia].
Qed.

Lemma join_ne (word : string) (l : list string) :
  word <> "" -> JS.join " " (word :: l) <> "".
Proof.
  intros H. destruct l; [exact H | cbn [JS.join]; now apply app_ne].
Qed.

Lemma length_zero_nil {A : Type} (l : list A) :
  Z.of_nat (List.length l) <= 0 -> l = [].
Proof. destruct l; [reflexivity | cbn [List.length]; lia]. Qed.

(** With rows enough for all the lines, the loop and the last line after
    it draw the greedy wrap of the words, one line below the other. *)
Lemma wrapLoop_wrap (fuel : nat) (maxWidth height : Z) (words : list string)
      (y : Z) (out : list DrawOp) :
  0 < maxWidth -> (List.length words <= fuel)%nat ->
  y + Z.of_nat (List.length (Spec.wrap fuel maxWidth words)) <= height - 2 ->
  (let '(currentLine, y', out') :=
     DashboardRenderer.wrapLoop maxWidth height words "" y out in
   if JS.truthy currentLine && (y' <? height - 2)
   then out' ++ [OpLine y' currentLine] else out')
  = out ++ Spec.rows y (Spec.wrap fuel maxWidth words).
Proof.
  intros Hw. revert words y out.
  induction fuel as [| fuel IH]; intros words y out Hfuel Hrows.
  - destruct words; [| cbn in Hfuel; lia]. cbn. now rewrite app_nil_r.
  - destruct words as [| word rest].
    + cbn. now rewrite app_nil_r.
    + cbn [List.length] in Hfuel. cbn [Spec.wrap] in *.
      destruct (String.eqb_spec word "") as [-> | Hword].
      * (* an empty word at the start of a line *)
        cbn [DashboardRenderer.wrapLoop JS.truthy].
        change (JS.len "") with 0.
        destruct (Z.leb_spec 0 maxWidth); [| lia].
        apply IH; [lia | exact Hrows].
      * destruct (Z.gtb_spec (JS.len word) maxWidth) as [Hlong | Hshort].
        -- (* a word longer than the width *)
           rewrite length_app, Nat2Z.inj_add in Hrows.
           unfold Spec.chunks in *. rewrite length_map, length_seq in Hrows.
           cbn [DashboardRenderer.wrapLoop JS.truthy].
           destruct (Z.leb_spec (JS.len word) maxWidth); [lia |].
           destruct (Z.gtb_spec (JS.len word) maxWidth); [| lia].
           pose proof (chunkLoop_chunks
                         ((String.length word + Z.to_nat maxWidth - 1)
                          / Z.to_nat maxWidth)
                         0 (Z.to_nat (height - 2 - y)) maxWidth height word
                         y out Hw eq_refl ltac:(lia) ltac:(lia)) as Hchunks.
           cbn [Nat.mul Z.of_nat] in Hchunks. rewrite Hchunks.
           rewrite IH by lia.
           rewrite rows_app, length_map, length_seq, app_assoc. reflexivity.
        -- (* a word that starts a line *)
           cbn [DashboardRenderer.wrapLoop JS.truthy].
           destruct (Z.leb_spec (JS.len word) maxWidth); [| lia].
           rewrite wrapLoop_line by exact Hword.
           cbn [List.length Spec.rows] in *.
           pose proof (fitCount_stop maxWidth rest word) as Hstop.
           pose proof (join_ne word
                         (firstn (Spec.fitCount maxWidth word rest) rest)
                         Hword) as Hline.
           assert (Hlen : (List.length
                             (skipn (Spec.fitCount maxWidth word rest) rest)
                           <= fuel)%nat)
             by (rewrite length_skipn; lia).
           set (line := JS.join " " (word :: firstn _ rest)) in *.
           destruct (skipn (Spec.fitCount maxWidth word rest) rest)
             as [| next rest'] eqn:Hskip.
           ++ (* the last line *)
              cbn [DashboardRenderer.wrapLoop].
              apply truthy_iff in Hline. rewrite Hline.
              destruct (Z.ltb_spec y (height - 2)); [| lia].
              cbn [andb]. destruct fuel; reflexivity.
           ++ specialize (Hstop next rest' eq_refl).
              destruct (Z.lt_ge_cases (y + 1) (height - 2)) as [Hgo | Hend].
              ** rewrite wrapLoop_restart by assumption.
                 rewrite IH by (assumption || lia).
                 rewrite <- app_assoc. reflexivity.
              ** (* the rows end with this line: nothing is left to draw *)
                 assert (Hnil : Spec.wrap fuel maxWidth (next :: rest') = [])
                   by (apply length_zero_nil; lia).
                 rewrite Hnil.
                 cbn [DashboardRenderer.wrapLoop].
                 apply truthy_iff in Hline. rewrite Hline.
                 destruct (Z.leb_spec (JS.len (line ++ " " ++ next)) maxWidth);
                   [lia |].
                 destruct (Z.geb_spec (y + 1) (height - 2)); [| lia].
                 rewrite Hline.
                 destruct (Z.ltb_spec (y + 1) (height - 2)); [lia |].
                 reflexivity.
Qed.

(** With rows enough for all the lines, the command view draws the
    greedy wrap of the words of the command from row 2 on. *)
Lemma wrapCommand_wrap (scr : Screen.t) (command : string) :
  0 < Screen.width scr ->
  Z.of_nat (List.length (Spec.wrapWords (Screen.width scr)
                                         (JS.split_space command)))
  <= Screen.height scr - 4 ->
  DashboardRenderer.wrapCommand scr command
  = Spec.rows 2 (Spec.wrapWords (Screen.width scr) (JS.split_space command)).
Proof.
  intros Hw Hrows. unfold DashboardRenderer.wrapCommand, Spec.wrapWords in *.
  pose proof (wrapLoop_wrap (List.length (JS.split_space command))
                (Screen.width scr) (Screen.height scr)
                (JS.split_space command) 2 [] Hw (le_n _) ltac:(lia)) as H.
  destruct (DashboardRenderer.wrapLoop _ _ _ _ _ _) as [[line y] out].
  exact H.
Qed.

(** *** The chunks of a long word *)

Lemma concat_cons (x : string) (l : list string) :
  String.concat "" (x :: l) = (x ++ String.concat "" l)%string.
Proof.
  destruct l; cbn [String.concat]; [now rewrite string_app_nil_r | reflexivity].
Qed.

Lemma chunks_concat_from (width : nat) (word : string) (c k : nat) :
  String.concat ""
    (map (fun j => String.substring (j * width) width word) (seq k c))
  = String.substring (k * width) (c * width) word.
Proof.
  revert k. induction c as [| c IH]; intros k.
  - cbn [seq map String.concat Nat.mul].
    pose proof (substring_length_le (k * width) 0 word) as H.
    now destruct (String.substring (k * width) 0 word).
  - cbn [seq map]. rewrite concat_cons, IH.
    replace (S k * width)%nat with (k * width + width)%nat by lia.
    now rewrite substring_app.
Qed.

Lemma chunks_concat (width : nat) (word : string) :
  (0 < width)%nat -> String.concat "" (Spec.chunks width word) = word.
Proof.
  intros Hw. unfold Spec.chunks. rewrite chunks_concat_from.
  rewrite substring_clamp. cbn [Nat.mul]. rewrite Nat.sub_0_r.
  pose proof (chunk_count_done (String.length word) width
                ((String.length word + width - 1) / width) Hw (le_n _)).
  rewrite Nat.min_r by lia. apply substring_all.
Qed.

Lemma chunks_nth (width : nat) (word : string) (k : nat) (piece : string) :
  (0 < width)%nat ->
  nth_error (Spec.chunks width word) k = Some piece ->
  piece = String.substring (k * width) width word
  /\ (k * width < String.length word)%nat.
Proof.
  intros Hw H. unfold Spec.chunks in H.
  assert (Hk : (k < (String.length word + width - 1) / width)%nat).
  { assert (Hsome : nth_error
                      (map (fun j => String.substring (j * width) width word)
                           (seq 0 ((String.length word + width - 1) / width)))
                      k <> None) by congruence.
    apply nth_error_Some in Hsome.
    now rewrite length_map, length_seq in Hsome. }
  rewrite nth_error_map, nth_error_seq in H.
  destruct (Nat.ltb_spec k ((String.length word + width - 1) / width));
    [| lia].
  cbn in H. inversion H. split; [reflexivity |].
  now apply chunk_count_more.
Qed.

Lemma chunk_length (width : nat) (word : string) (k : nat) :
  (k * width < String.length word)%nat ->
  String.length (String.substring (k * width) width word)
  = Nat.min width (String.length word - k * width).
Proof.
  intros Hk. rewrite substring_clamp. apply substring_length_exact. lia.
Qed.

Lemma join_snoc (a b : string) (l : list string) :
  JS.join " " (a :: l ++ [b]) = (JS.join " " (a :: l) ++ " " ++ b)%string.
Proof.
  revert a. induction l as [| c l IH]; intros a; [reflexivity |].
  cbn [app]. rewrite (join_cons " " a (c :: l ++ [b])) by discriminate.
  rewrite (join_cons " " a (c :: l)) by discriminate.
  now rewrite IH, !string_app_assoc.
Qed.

Lemma firstn_S_nth {A : Type} (l : list A) (k : nat) (x : A) :
  nth_error l k = Some x ->
  firstn (S k) l = firstn k l ++ [x] /\ skipn k l = x :: skipn (S k) l.
Proof.
  revert k. induction l as [| y l IH]; intros [| k] H; try discriminate H.
  - cbn in H. inversion H. subst. split; [now destruct l | reflexivity].
  - cbn [nth_error] in H. destruct (IH k H) as [H1 H2]. split.
    + change (y :: firstn (S k) l = y :: firstn k l ++ [x]). now rewrite H1.
    + exact H2.
Qed.

(** The line that starts with [word] takes the longest run of the words
    after it that fits. *)
Lemma fitCount_longest (width : Z) (word : string) (rest : list string) :
  JS.len word <= width ->
  let k := Spec.fitCount width word rest in
  JS.len (JS.join " " (word :: firstn k rest)) <= width
  /\ forall next,
       nth_error rest k = Some next ->
       width < JS.len (JS.join " " (word :: firstn (S k) rest)).
Proof.
  intros Hfit k. split; [now apply fitCount_fits |].
  intros next Hnext. destruct (firstn_S_nth rest k next Hnext) as [H1 H2].
  rewrite H1, join_snoc. exact (fitCount_stop width rest word next _ H2).
Qed.

(** The chunks of a word longer than the width. *)
Lemma chunks_long_word (width : Z) (word : string) :
  0 < width -> width < JS.len word ->
  let pieces := Spec.chunks (Z.to_nat width) word in
  (Spec.noSpace word = true ->
   Spec.wrapWords width (JS.split_space word) = pieces)
  /\ String.concat "" pieces = word
  /\ Z.of_nat (List.length pieces) = (JS.len word + width - 1) / width
  /\ forall k piece,
       nth_error pieces k = Some piece ->
       0 < JS.len piece <= width
       /\ ((S k < List.length pieces)%nat -> JS.len piece = width).
Proof.
  intros Hw Hlong pieces. unfold JS.len in *.
  assert (Hw' : (0 < Z.to_nat width)%nat) by lia.
  split; [| split; [| split]].
  - intros Hns. rewrite (split_space_noSpace word Hns).
    unfold Spec.wrapWords. cbn [List.length Spec.wrap].
    destruct (String.eqb_spec word "") as [-> | _]; [cbn in Hlong; lia |].
    unfold JS.len.
    destruct (Z.gtb_spec (Z.of_nat (String.length word)) width); [| lia].
    apply app_nil_r.
  - now apply chunks_concat.
  - unfold pieces, Spec.chunks. rewrite length_map, length_seq.
    rewrite Nat2Z.inj_div, Nat2Z.inj_sub, Nat2Z.inj_add by lia.
    rewrite Z2Nat.id by lia. reflexivity.
  - intros k piece Hnth.
    destruct (chunks_nth (Z.to_nat width) word k piece Hw' Hnth) as [-> Hk].
    rewrite (chunk_length _ _ _ Hk). split; [lia |].
    intros Hmore. unfold pieces, Spec.chunks in Hmore.
    rewrite length_map, length_seq in Hmore.
    pose proof (chunk_count_more (String.length word) (Z.to_nat width) (S k)
                  Hw' Hmore).
    lia.
Qed.

(** C7 (amended): no line of the command view is longer than the
    terminal width, for any command and any width that is not negative.
    On a terminal at least one column wide with at least four more rows
    than the wrap has lines, the view draws, from row 2 on, the greedy
    wrap of the words of the command.  In that wrap a line takes the
    longest run of words that fits, and a word longer than the width is
    split into chunks of exactly the width, the last chunk holding what
    is left, so that the chunks put together are the word.  In particular
    a 200-character command without spaces at width 40 gives 5 lines of
    length 40 whose concatenation is the command when the screen has at
    least 9 rows. *)
Theorem renderCommand_lines_within_width :
  (forall (scr : Screen.t) (state : DashboardState.t) (y : Z) (text : string),
      0 <= Screen.width scr ->
      In (OpLine y text) (DashboardRenderer.renderCommand scr state) ->
      JS.len text <= Screen.width scr)
  /\ (forall (scr : Screen.t) (state : DashboardState.t) (command : string),
         DashboardState.commandContent state = Some command ->
         command <> "" ->
         0 < Screen.width scr ->
         let lines :=
           Spec.wrapWords (Screen.width scr) (JS.split_space command) in
         Z.of_nat (List.length lines) <= Screen.height scr - 4 ->
         DashboardRenderer.renderCommand scr state
         = [OpTitle " Full Command "] ++ Spec.rows 2 lines
           ++ [OpCloseHint "Press ESC to close"])
  /\ (forall (width : Z) (word : string) (rest : list string),
         JS.len word <= width ->
         let k := Spec.fitCount width word rest in
         JS.len (JS.join " " (word :: firstn k rest)) <= width
         /\ forall next,
              nth_error rest k = Some next ->
              width < JS.len (JS.join " " (word :: firstn (S k) rest)))
  /\ (forall (width : Z) (word : string),
         0 < width -> width < JS.len word ->
         let pieces := Spec.chunks (Z.to_nat width) word in
         (Spec.noSpace word = true ->
          Spec.wrapWords width (JS.split_space word) = pieces)
         /\ String.concat "" pieces = word
         /\ Z.of_nat (List.length pieces) = (JS.len word + width - 1) / width
         /\ forall k piece,
              nth_error pieces k = Some piece ->
              0 < JS.len piece <= width
              /\ ((S k < List.length pieces)%nat -> JS.len piece = width))
  /\ (forall (scr : Screen.t) (state : DashboardState.t) (s : string),
         DashboardState.commandContent state = Some s ->
         Screen.width scr = 40 -> 9 <= Screen.height scr ->
         String.length s = 200%nat -> Spec.noSpace s = true ->
         exists l1 l2 l3 l4 l5,
           DashboardRenderer.renderCommand scr state
           = [OpTitle " Full Command ";
              OpLine 2 l1; OpLine 3 l2; OpLine 4 l3; OpLine 5 l4; OpLine 6 l5;
              OpCloseHint "Press ESC to close"]
           /\ Forall (fun l => JS.len l = 40) [l1; l2; l3; l4; l5]
           /\ (l1 ++ l2 ++ l3 ++ l4 ++ l5)%string = s).
Proof.
  split; [| split; [| split; [| split]]].
  - intros scr state y text Hw Hin. unfold DashboardRenderer.renderCommand in Hin.
    rewrite !in_app_iff in Hin. destruct Hin as [Hin | [Hin | Hin]].
    + destruct Hin as [H | []]; discriminate H.
    + destruct (DashboardState.commandContent state) as [command |]; [| destruct Hin].
      destruct (JS.truthy command); [| destruct Hin].
      exact (wrapCommand_within scr command Hw y text Hin).
    + destruct Hin as [H | []]; discriminate H.
  - intros scr state command Hcmd Hne Hw lines Hrows.
    unfold DashboardRenderer.renderCommand. rewrite Hcmd.
    apply truthy_iff in Hne. rewrite Hne.
    now rewrite (wrapCommand_wrap scr command Hw Hrows).
  - exact fitCount_longest.
  - exact chunks_long_word.
  - intros scr state s Hcmd Hw Hh Hlen Hns.
    exists (String.substring 0 40 s), (String.substring 40 40 s),
      (String.substring 80 40 s), (String.substring 120 40 s),
      (String.substring 160 40 s).
    split; [| split].
    + unfold DashboardRenderer.renderCommand. rewrite Hcmd.
      assert (Ht : JS.truthy s = true) by (destruct s; [discriminate Hlen | reflexivity]).
      rewrite Ht, (wrapCommand_200_at_40 scr s Hw Hh Hlen Hns). reflexivity.
    + repeat constructor; unfold JS.len;
        rewrite substring_length_exact; (reflexivity || (rewrite Hlen; lia)).
    + assert (E1 : (String.substring 120 40 s ++ String.substring 160 40 s)%string
                   = String.substring 120 80 s)
        by exact (substring_app 120 40 40 s).
      assert (E2 : (String.substring 80 40 s ++ String.substring 120 80 s)%string
                   = String.substring 80 120 s)
        by exact (substring_app 80 40 80 s).
      assert (E3 : (String.substring 40 40 s ++ String.substring 80 120 s)%string
                   = String.substring 40 160 s)
        by exact (substring_app 40 40 120 s).
      assert (E4 : (String.substring 0 40 s ++ String.substring 40 160 s)%string
                   = String.substring 0 200 s)
        by exact (substring_app 0 40 160 s).
      rewrite E1, E2, E3, E4, <- Hlen. apply substring_all.
Qed.

Lemma renderCommand_lines_within_width_witness :
  (exists l1 l2 l3 l4 l5,
      DashboardRenderer.renderCommand (Screen.mk 40 24)
                                      (Ex.commandState (Ex.repeat_a 200))
      = [OpTitle " Full Command ";
         OpLine 2 l1; OpLine 3 l2; OpLine 4 l3; OpLine 5 l4; OpLine 6 l5;
         OpCloseHint "Press ESC to close"]
      /\ Forall (fun l => JS.len l = 40) [l1; l2; l3; l4; l5]
      /\ (l1 ++ l2 ++ l3 ++ l4 ++ l5)%string = Ex.repeat_a 200)
  /\ DashboardRenderer.renderCommand
       (Screen.mk 12 24)
       (Ex.commandState "node server.js --inspect-brk=9229 --port 3000")
     = [OpTitle " Full Command ";
        OpLine 2 "node"; OpLine 3 "server.js"; OpLine 4 "--inspect-br";
        OpLine 5 "k=9229"; OpLine 6 "--port 3000";
        OpCloseHint "Press ESC to close"].
Proof.
  split.
  - apply (proj2 (proj2 (proj2 (proj2 renderCommand_lines_within_width)))
                 (Screen.mk 40 24) (Ex.commandState (Ex.repeat_a 200))
                 (Ex.repeat_a 200)).
    + reflexivity.
    + reflexivity.
    + simpl. lia.
    + reflexivity.
    + reflexivity.
  - apply (proj1 (proj2 renderCommand_lines_within_width)
                 (Screen.mk 12 24)
                 (Ex.commandState
                    "node server.js --inspect-brk=9229 --port 3000")
                 "node server.js --inspect-brk=9229 --port 3000").
    + reflexivity.
    + discriminate.
    + reflexivity.
    + vm_compute. discriminate.
Defined.

(* ===================================================================== *)
(** ** Dashboard.render: the toast                                        *)
(* ===================================================================== *)

Lemma getFilteredPorts_state (d : DashboardCore.t) :
  DashboardCore.state (snd (DashboardCore.getFilteredPorts d))
  = DashboardCore.state d.
Proof.
  unfold DashboardCore.getFilteredPorts.
  destruct (DashboardData.getFilteredPorts _ _ _ _). reflexivity.
Qed.

Lemma getSelectedPort_state (d : DashboardCore.t) :
  DashboardCore.state (snd (DashboardCore.getSelectedPort d))
  = DashboardCore.state d.
Proof.
  unfold DashboardCore.getSelectedPort.
  pose proof (getFilteredPorts_state d) as H.
  destruct (DashboardCore.getFilteredPorts d). exact H.
Qed.

Lemma portLines_only (ps : list Entry.t) (i y maxH sel : Z) (op : DrawOp) :
  In op (DashboardRenderer.portLines ps i y maxH sel) ->
  exists e i' y', op = OpPortLine e i' y' sel.
Proof.
  revert i y. induction ps as [| e ps IH]; intros i y; simpl; [tauto |].
  destruct (y <? maxH); [| intros []].
  intros [<- | H]; [eauto | exact (IH _ _ H)].
Qed.

Lemma renderMain_toast (scr : Screen.t) (d : DashboardCore.t) (fp : loc)
      (searchBuffer : string) (m : KillMessage.t) :
  In (OpKillMessage m) (fst (DashboardRenderer.renderMain scr d fp searchBuffer)) ->
  DashboardState.killMessage (DashboardCore.state d) = Some m.
Proof.
  unfold DashboardRenderer.renderMain.
  destruct (DashboardCore.getSelectedPort d) as [sel d1]. cbn [fst].
  rewrite !in_app_iff. intros [H | [H | [H | [H | H]]]].
  - destruct H as [H | []]; discriminate H.
  - apply portLines_only in H. destruct H as (e & i & y & H). discriminate H.
  - destruct sel; [| destruct H].
    destruct (DashboardState.showDetails _); [| destruct H].
    destruct H as [H | []]; discriminate H.
  - destruct H as [H | []]; discriminate H.
  - apply killMessageOps_In in H. destruct H as (m' & Hk & E).
    inversion E; subst. exact Hk.
Qed.

Lemma renderMain_state (scr : Screen.t) (d : DashboardCore.t) (fp : loc)
      (searchBuffer : string) :
  DashboardCore.state (snd (DashboardRenderer.renderMain scr d fp searchBuffer))
  = DashboardCore.state d.
Proof.
  unfold DashboardRenderer.renderMain.
  pose proof (getSelectedPort_state d) as H.
  destruct (DashboardCore.getSelectedPort d). exact H.
Qed.

Lemma fullRender_toast (scr : Screen.t) (d : DashboardCore.t) (fp : loc)
      (searchBuffer : string) (m : KillMessage.t) :
  In (OpKillMessage m) (fst (DashboardRenderer.fullRender scr d fp searchBuffer)) ->
  DashboardState.killMessage (DashboardCore.state d) = Some m.
Proof.
  unfold DashboardRenderer.fullRender.
  pose proof (renderMain_toast scr d fp searchBuffer m) as Hm.
  destruct (DashboardRenderer.renderMain scr d fp searchBuffer) as [ops d1].
  cbn [fst] in *. rewrite !in_app_iff. intros [H | [H | H]].
  - destruct H as [H | [H | []]]; discriminate H.
  - exact (Hm H).
  - destruct H as [H | []]; discriminate H.
Qed.

Lemma fullRender_state (scr : Screen.t) (d : DashboardCore.t) (fp : loc)
      (searchBuffer : string) :
  DashboardCore.state (snd (DashboardRenderer.fullRender scr d fp searchBuffer))
  = DashboardCore.state d.
Proof.
  unfold DashboardRenderer.fullRender.
  pose proof (renderMain_state scr d fp searchBuffer) as H.
  destruct (DashboardRenderer.renderMain scr d fp searchBuffer). exact H.
Qed.

Lemma renderDelta_toast (scr : Screen.t) (previous current : RenderState.t)
      (d : DashboardCore.t) (searchBuffer : string) (m : KillMessage.t) :
  In (OpKillMessage m)
     (fst (DashboardRenderer.renderDelta scr previous current d searchBuffer)) ->
  DashboardState.killMessage (DashboardCore.state d) = Some m.
Proof.
  unfold DashboardRenderer.renderDelta.
  destruct (DashboardRenderer.tooManyChanges _ _).
  - exact (fullRender_toast scr d (RenderState.filteredPorts current) "" m).
  - match goal with
    | |- context [if ?b then _ else ([], d)] =>
        destruct b; [destruct (DashboardCore.getSelectedPort d) as [sel d1] |]
    end; cbn [fst]; rewrite !in_app_iff;
      intros [H | [H | [H | [H | [H | H]]]]];
      try (destruct H as [H | [H | []]]; discriminate H);
      try (destruct H as [H | []]; discriminate H);
      try (apply killMessageOps_In in H; destruct H as (m' & Hk & E);
           inversion E; subst; exact Hk);
      try (apply in_flat_map in H; destruct H as [x [_ H]];
           unfold DashboardRenderer.changedLineOps in H;
           destruct (_ && _); [| destruct H];
           destruct (_ <? _); [| destruct H];
           destruct (JS.get _ _); [| destruct H];
           destruct H as [H | []]; discriminate H).
    + destruct sel; [destruct H as [H | []]; discriminate H | destruct H].
    + destruct H.
Qed.

Lemma renderDelta_state (scr : Screen.t) (previous current : RenderState.t)
      (d : DashboardCore.t) (searchBuffer : string) :
  DashboardCore.state
    (snd (DashboardRenderer.renderDelta scr previous current d searchBuffer))
  = DashboardCore.state d.
Proof.
  unfold DashboardRenderer.renderDelta.
  destruct (DashboardRenderer.tooManyChanges _ _).
  - exact (fullRender_state scr d (RenderState.filteredPorts current) "").
  - destruct (DashboardState.showDetails _); [| reflexivity].
    pose proof (getSelectedPort_state d) as H.
    destruct (DashboardCore.getSelectedPort d). exact H.
Qed.

(** Only a modal view can throw. *)
Lemma renderThrows_main (scr : Screen.t) (state : DashboardState.t) :
  DashboardRenderer.anyModal state = false ->
  DashboardRenderer.renderThrows scr state = false.
Proof.
  unfold DashboardRenderer.anyModal, DashboardRenderer.renderThrows.
  destruct (DashboardState.showHelp state); [discriminate |].
  destruct (DashboardState.showConfirm state); [discriminate | reflexivity].
Qed.

Lemma renderModal_toast (scr : Screen.t) (state : DashboardState.t)
      (m : KillMessage.t) :
  ~ In (OpKillMessage m) (DashboardRenderer.renderModal scr state).
Proof.
  unfold DashboardRenderer.renderModal.
  destruct (DashboardState.showHelp state);
    [intros [H | []]; discriminate H |].
  destruct (DashboardState.showConfirm state);
    [destruct (DashboardRenderer.renderConfirm scr state);
       intros [H | []]; discriminate H |].
  destruct (DashboardState.showLogs state);
    [intros [H | []]; discriminate H |].
  destruct (DashboardState.showCommand state).
  2: { destruct (DashboardState.showStats state);
         [intros [H | []]; discriminate H | intros []]. }
  unfold DashboardRenderer.renderCommand. intros H.
  rewrite !in_app_iff in H.
  destruct H as [H | [H | H]]; try (destruct H as [H | []]; discriminate H).
  destruct (DashboardState.commandContent state) as [c |]; [| destruct H].
  destruct (JS.truthy c); [| destruct H].
  apply wrapCommand_onlyLines in H. destruct H as (y & t & H). discriminate H.
Qed.

(** The renderer draws the toast only when the state holds one, and
    leaves the state as it is. *)
Lemma render_toast (scr : Screen.t) (d : DashboardCore.t) (m : KillMessage.t) :
  In (OpKillMessage m) (fst (fst (DashboardRenderer.render scr d))) ->
  DashboardState.killMessage (DashboardCore.state d) = Some m.
Proof.
  unfold DashboardRenderer.render.
  destruct (DashboardRenderer.anyModal _).
  - destruct (DashboardRenderer.renderThrows _ _);
      cbn [fst]; rewrite !in_app_iff.
    + intros [H | H].
      * destruct H as [H | [H | []]]; discriminate H.
      * now apply renderModal_toast in H.
    + intros [H | [H | H]].
      * destruct H as [H | [H | []]]; discriminate H.
      * now apply renderModal_toast in H.
      * destruct H as [H | []]; discriminate H.
  - pose proof (getFilteredPorts_state d) as Hs.
    destruct (DashboardCore.getFilteredPorts d) as [fp d1]. cbn [snd] in Hs.
    destruct (DashboardCore.previousRenderState d) as [p |].
    + destruct (DashboardRenderer.canUseDelta _ _ _ _ _).
      * pose proof (renderDelta_toast scr p
                      (DashboardRenderer.snapshot (DashboardCore.state d) fp)
                      d1 (DashboardCore.searchBuffer d) m) as H.
        destruct (DashboardRenderer.renderDelta _ _ _ _ _).
        intros Hin. rewrite <- Hs. exact (H Hin).
      * pose proof (fullRender_toast scr d1 fp (DashboardCore.searchBuffer d) m) as H.
        destruct (DashboardRenderer.fullRender _ _ _ _).
        intros Hin. rewrite <- Hs. exact (H Hin).
    + pose proof (fullRender_toast scr d1 fp (DashboardCore.searchBuffer d) m) as H.
      destruct (DashboardRenderer.fullRender _ _ _ _).
      intros Hin. rewrite <- Hs. exact (H Hin).
Qed.

Lemma render_state (scr : Screen.t) (d : DashboardCore.t) :
  DashboardCore.state (snd (DashboardRenderer.render scr d))
  = DashboardCore.state d.
Proof.
  unfold DashboardRenderer.render.
  destruct (DashboardRenderer.anyModal _);
    [destruct (DashboardRenderer.renderThrows _ _); reflexivity |].
  pose proof (getFilteredPorts_state d) as Hs.
  destruct (DashboardCore.getFilteredPorts d) as [fp d1]. cbn [snd] in Hs.
  destruct (DashboardCore.previousRenderState d) as [p |].
  - destruct (DashboardRenderer.canUseDelta _ _ _ _ _).
    + pose proof (renderDelta_state scr p
                    (DashboardRenderer.snapshot (DashboardCore.state d) fp)
                    d1 (DashboardCore.searchBuffer d)) as H.
      destruct (DashboardRenderer.renderDelta _ _ _ _ _).
      rewrite <- Hs. exact H.
    + pose proof (fullRender_state scr d1 fp (DashboardCore.searchBuffer d)) as H.
      destruct (DashboardRenderer.fullRender _ _ _ _).
      rewrite <- Hs. exact H.
  - pose proof (fullRender_state scr d1 fp (DashboardCore.searchBuffer d)) as H.
    destruct (DashboardRenderer.fullRender _ _ _ _).
    rewrite <- Hs. exact H.
Qed.

(** The expiry check itself. *)
Lemma expireKillMessage_expired (now t : Z) (state : DashboardState.t)
      (m : KillMessage.t) :
  DashboardState.killMessage state = Some m ->
  DashboardState.killMessageExpiresAt state = Some t ->
  t <> 0 -> now > t ->
  Dashboard.expireKillMessage now state = DashboardState.clearKillMessage state.
Proof.
  intros Hm Ht Hnz Hnow. unfold Dashboard.expireKillMessage.
  rewrite Hm, Ht. cbn [JS.truthy_obj JS.truthy_num andb].
  destruct (Z.eqb_spec t 0); [contradiction |]. cbn [negb].
  destruct (Z.gtb_spec now t); [reflexivity | lia].
Qed.

(** C8: for every state in which the toast and its expiry timestamp are
    set (the timestamp is [Date.now()] plus a duration, so it is not 0,
    the one number the guard of [render] takes for unset), a render tick
    that observes a time past the timestamp clears the toast and the
    timestamp before the frame is drawn: the state after the tick holds
    neither and the frame holds no toast. *)
Theorem render_clears_expired_toast (now t : Z) (scr : Screen.t)
      (d : DashboardCore.t) (m : KillMessage.t) :
  DashboardState.killMessage (DashboardCore.state d) = Some m ->
  DashboardState.killMessageExpiresAt (DashboardCore.state d) = Some t ->
  t <> 0 -> now > t ->
  let '(ops, d') := Dashboard.render now scr d in
  DashboardState.killMessage (DashboardCore.state d') = None
  /\ DashboardState.killMessageExpiresAt (DashboardCore.state d') = None
  /\ ~ Spec.drawsToast ops.
Proof.
  intros Hm Ht Hnz Hnow. unfold Dashboard.render.
  rewrite (expireKillMessage_expired now t _ m Hm Ht Hnz Hnow).
  set (d0 := DashboardCore.setState d _).
  pose proof (render_state scr d0) as Hs.
  pose proof (render_toast scr d0) as Htoast.
  destruct (DashboardRenderer.render scr d0) as [[ops r] d1].
  cbn [fst snd] in *.
  destruct (DashboardRenderer.renderThrows scr (DashboardCore.state d0));
    cbn [DashboardCore.setPreviousRenderState DashboardCore.state];
    rewrite Hs; repeat split;
    intros [m' Hin]; apply Htoast in Hin; discriminate Hin.
Qed.

Lemma render_clears_expired_toast_example :
  let '(ops, d') := Dashboard.render 1700000000101 Ex.screen
                                     (Ex.dashToast 1700000000100) in
  DashboardState.killMessage (DashboardCore.state d') = None
  /\ DashboardState.killMessageExpiresAt (DashboardCore.state d') = None
  /\ ~ Spec.drawsToast ops.
Proof.
  apply (render_clears_expired_toast 1700000000101 1700000000100
           Ex.screen (Ex.dashToast 1700000000100) Ex.toast);
    (reflexivity || lia).
Defined.

(** The guard [killMessage && killMessageExpiresAt] tests the timestamp
    for truthiness, so a timestamp of 0 (the epoch itself, which no
    [Date.now()] plus a duration gives) counts as unset: the tick at time
    1 leaves such a toast in the state and draws it. *)
Lemma render_keeps_toast_expiring_at_zero :
  let '(ops, d') := Dashboard.render 1 Ex.screen (Ex.dashToast 0) in
  DashboardState.killMessage (DashboardCore.state (Ex.dashToast 0)) = Some Ex.toast
  /\ DashboardState.killMessageExpiresAt (DashboardCore.state (Ex.dashToast 0)) = Some 0
  /\ 1 > 0
  /\ DashboardState.killMessage (DashboardCore.state d') = Some Ex.toast
  /\ DashboardState.killMessageExpiresAt (DashboardCore.state d') = Some 0
  /\ In (OpKillMessage Ex.toast) ops.
Proof.
  vm_compute. repeat split. tauto.
Qed.

(* ===================================================================== *)
(** ** Further properties: the selection cursor                           *)
(* ===================================================================== *)

(** X1: on a non-empty list [moveSelection] returns an index of the list,
    whatever the current index and the step are. *)
Theorem moveSelection_in_range (l : list Entry.t) (currentIndex direction : Z) :
  l <> [] ->
  0 <= DashboardData.moveSelection l currentIndex direction < JS.length l.
Proof.
  intros Hne. unfold DashboardData.moveSelection.
  pose proof (length_nonneg l) as Hl.
  pose proof (length_nil_iff l) as Hnil.
  destruct (Z.eqb_spec (JS.length l) 0) as [E | E]; [tauto |].
  destruct (Z.ltb_spec (currentIndex + direction) 0); [lia |].
  destruct (Z.geb_spec (currentIndex + direction) (JS.length l)); lia.
Qed.

Lemma moveSelection_in_range_witness :
  0 <= DashboardData.moveSelection Ex.three 40 (-100) < JS.length Ex.three.
Proof.
  apply (moveSelection_in_range Ex.three 40 (-100)). discriminate.
Defined.

(** X2: from an index of the list, one step down followed by one step up
    comes back to the index, and so does one step up followed by one step
    down, also across the two ends. *)
Theorem moveSelection_there_and_back (l : list Entry.t) (i : Z) :
  0 <= i < JS.length l ->
  DashboardData.moveSelection l (DashboardData.moveSelection l i 1) (-1) = i
  /\ DashboardData.moveSelection l (DashboardData.moveSelection l i (-1)) 1 = i.
Proof.
  intros Hi. unfold DashboardData.moveSelection.
  destruct (Z.eqb_spec (JS.length l) 0) as [E | E]; [lia |].
  split.
  - destruct (Z.ltb_spec (i + 1) 0); [lia |].
    destruct (Z.geb_spec (i + 1) (JS.length l)).
    + destruct (Z.ltb_spec (0 + -1) 0); lia.
    + destruct (Z.ltb_spec (i + 1 + -1) 0); [lia |].
      destruct (Z.geb_spec (i + 1 + -1) (JS.length l)); lia.
  - destruct (Z.ltb_spec (i + -1) 0).
    + destruct (Z.ltb_spec (JS.length l - 1 + 1) 0); [lia |].
      destruct (Z.geb_spec (JS.length l - 1 + 1) (JS.length l)); lia.
    + destruct (Z.geb_spec (i + -1) (JS.length l)); [lia |].
      destruct (Z.ltb_spec (i + -1 + 1) 0); [lia |].
      destruct (Z.geb_spec (i + -1 + 1) (JS.length l)); lia.
Qed.

Lemma moveSelection_there_and_back_witness :
  DashboardData.moveSelection Ex.three
    (DashboardData.moveSelection Ex.three 2 1) (-1) = 2
  /\ DashboardData.moveSelection Ex.three
       (DashboardData.moveSelection Ex.three 2 (-1)) 1 = 2.
Proof.
  apply (moveSelection_there_and_back Ex.three 2). unfold JS.length. simpl. lia.
Defined.

Lemma get_In {A : Type} (l : list A) (i : Z) (x : A) :
  JS.get l i = Some x -> In x l.
Proof.
  unfold JS.get. destruct (i <? 0); [discriminate |]. apply nth_error_In.
Qed.

(** X3: whatever [getSelectedPort] returns is an element of the list, and
    on a non-empty list it returns an element for every index that is not
    negative. *)
Theorem getSelectedPort_member (l : list Entry.t) (i : Z) :
  (forall e, DashboardData.getSelectedPort l i = Some e -> In e l)
  /\ (l <> [] -> 0 <= i ->
      exists e, DashboardData.getSelectedPort l i = Some e).
Proof.
  unfold DashboardData.getSelectedPort.
  pose proof (length_nonneg l) as Hl.
  pose proof (length_nil_iff l) as Hnil.
  split.
  - intros e. destruct (JS.length l =? 0); [discriminate |]. apply get_In.
  - intros Hne Hi. destruct (Z.eqb_spec (JS.length l) 0); [tauto |].
    apply get_in_range. lia.
Qed.

Lemma getSelectedPort_member_witness :
  exists e, DashboardData.getSelectedPort Ex.three 9 = Some e.
Proof.
  apply (proj2 (getSelectedPort_member Ex.three 9)); [discriminate | lia].
Defined.

(** X4: clamping the index first never changes the port selected:
    [getSelectedPort] clamps an index past the end the same way as
    [adjustSelectedIndex], and both leave any other index alone. *)
Theorem getSelectedPort_adjusted (l : list Entry.t) (i : Z) :
  DashboardData.getSelectedPort l (DashboardData.adjustSelectedIndex l i)
  = DashboardData.getSelectedPort l i.
Proof.
  unfold DashboardData.getSelectedPort, DashboardData.adjustSelectedIndex.
  pose proof (length_nonneg l) as Hl.
  destruct (Z.eqb_spec (JS.length l) 0); [reflexivity |].
  destruct (Z.geb_spec i (JS.length l)); [| reflexivity].
  f_equal. lia.
Qed.

(* ===================================================================== *)
(** ** Further properties: sorting                                        *)
(* ===================================================================== *)

Lemma sortInsert_perm {A : Type} (compare : A -> A -> Z) (x : A) (l : list A) :
  Permutation (JS.sortInsert compare x l) (x :: l).
Proof.
  induction l as [| y l IH]; simpl; [apply Permutation_refl |].
  destruct (compare x y <=? 0); [apply Permutation_refl |].
  eapply Permutation_trans; [apply perm_skip, IH | apply perm_swap].
Qed.

Lemma sort_perm {A : Type} (compare : A -> A -> Z) (l : list A) :
  Permutation (JS.sort compare l) l.
Proof.
  induction l as [| x l IH]; simpl; [constructor |].
  eapply Permutation_trans; [apply sortInsert_perm | now apply perm_skip].
Qed.

Lemma sort_length {A : Type} (compare : A -> A -> Z) (l : list A) :
  List.length (JS.sort compare l) = List.length l.
Proof. apply Permutation_length, sort_perm. Qed.

(** Sorting by an integer key. *)
Section ByKey.

Variable A : Type.
Variable key : A -> Z.

Let compare (a b : A) : Z := key a - key b.

Lemma sortInsert_sorted (x : A) (l : list A) :
  Spec.ascending key l -> Spec.ascending key (JS.sortInsert compare x l).
Proof.
  unfold Spec.ascending. induction l as [| y l IH]; intros Hs; simpl.
  - repeat constructor.
  - unfold compare at 1. destruct (Z.leb_spec (key x - key y) 0).
    + constructor; [exact Hs | constructor; lia].
    + inversion Hs as [| ? ? Hl Hhd]; subst.
      constructor; [now apply IH |].
      destruct l as [| z l]; simpl.
      * constructor. lia.
      * unfold compare. destruct (Z.leb_spec (key x - key z) 0).
        -- constructor. lia.
        -- inversion Hhd; subst. now constructor.
Qed.

Lemma sort_sorted (l : list A) : Spec.ascending key (JS.sort compare l).
Proof.
  induction l as [| x l IH]; simpl; [constructor | now apply sortInsert_sorted].
Qed.

Lemma sortInsert_stable (k : Z) (x : A) (l : list A) :
  List.filter (fun a => key a =? k) (JS.sortInsert compare x l)
  = List.filter (fun a => key a =? k) (x :: l).
Proof.
  induction l as [| y l IH]; [reflexivity |].
  cbn [JS.sortInsert]. unfold compare at 1.
  destruct (Z.leb_spec (key x - key y) 0); [reflexivity |].
  cbn [List.filter] in *. rewrite IH.
  destruct (Z.eqb_spec (key x) k), (Z.eqb_spec (key y) k); try reflexivity.
  lia.
Qed.

Lemma sort_stable (k : Z) (l : list A) :
  List.filter (fun a => key a =? k) (JS.sort compare l)
  = List.filter (fun a => key a =? k) l.
Proof.
  induction l as [| x l IH]; [reflexivity |].
  cbn [JS.sort fold_right]. fold (JS.sort compare l).
  rewrite sortInsert_stable. cbn [List.filter]. now rewrite IH.
Qed.

Lemma sort_of_sorted (l : list A) :
  Spec.ascending key l -> JS.sort compare l = l.
Proof.
  unfold Spec.ascending. induction l as [| x l IH]; intros Hs; [reflexivity |].
  inversion Hs as [| ? ? Hl Hhd]; subst.
  cbn [JS.sort fold_right]. fold (JS.sort compare l). rewrite (IH Hl).
  destruct l as [| y l]; [reflexivity |].
  cbn [JS.sortInsert]. unfold compare. inversion Hhd; subst.
  destruct (Z.leb_spec (key x - key y) 0); [reflexivity | lia].
Qed.

End ByKey.

Lemma groupHash_withPorts (g : PortGroup.t) (ps : list PortInfo.t) :
  List.length ps = List.length (PortGroup.ports g) ->
  DashboardData.groupHash (DashboardData.withPorts g ps)
  = DashboardData.groupHash g.
Proof.
  intros H. unfold DashboardData.groupHash, DashboardData.withPorts, JS.length.
  cbn. now rewrite H.
Qed.

Lemma sortedGroups_same (compare : PortInfo.t -> PortInfo.t -> Z)
      (groups : list PortGroup.t) :
  let sorted :=
    map (fun g => DashboardData.withPorts g (JS.sort compare (PortGroup.ports g)))
        groups in
  Forall2 Spec.sameGroupUpToOrder sorted groups
  /\ DashboardData.groupsHash sorted = DashboardData.groupsHash groups.
Proof.
  cbv zeta. split.
  - induction groups as [| g groups IH]; simpl; constructor; [| exact IH].
    unfold Spec.sameGroupUpToOrder. cbn. repeat split. apply sort_perm.
  - unfold DashboardData.groupsHash. f_equal. rewrite map_map.
    apply map_ext. intros g. apply groupHash_withPorts, sort_length.
Qed.

(** X5: sorting, interactive or from the command line and by any key,
    keeps every group in place with its id, type and collapse flag and
    only reorders the ports inside it; the cache fingerprint of the
    groups is therefore the same before and after. *)
Theorem applySorting_keeps_groups (localeCompare : string -> string -> Z)
        (groups : list PortGroup.t) :
  (forall sortBy : SortBy,
      Forall2 Spec.sameGroupUpToOrder
              (DashboardData.applySorting localeCompare groups sortBy) groups
      /\ DashboardData.groupsHash
           (DashboardData.applySorting localeCompare groups sortBy)
         = DashboardData.groupsHash groups)
  /\ (forall sortBy : string,
         Forall2 Spec.sameGroupUpToOrder
                 (DashboardData.applyCLISorting localeCompare groups sortBy)
                 groups
         /\ DashboardData.groupsHash
              (DashboardData.applyCLISorting localeCompare groups sortBy)
            = DashboardData.groupsHash groups).
Proof.
  split; intros sortBy.
  - apply (sortedGroups_same (DashboardData.compareBy localeCompare sortBy)).
  - apply (sortedGroups_same (DashboardData.compareCLI localeCompare sortBy)).
Qed.

Lemma sortedGroups_ascending (key : PortInfo.t -> Z)
      (groups : list PortGroup.t) :
  Forall2 (fun g' g =>
             Spec.ascending key (PortGroup.ports g')
             /\ forall v,
                 List.filter (fun p => key p =? v) (PortGroup.ports g')
                 = List.filter (fun p => key p =? v) (PortGroup.ports g))
          (map (fun g =>
                  DashboardData.withPorts g
                    (JS.sort (fun a b => key a - key b) (PortGroup.ports g)))
               groups)
          groups.
Proof.
  induction groups as [| g groups IH]; simpl; constructor; [| exact IH].
  cbn. split; [apply sort_sorted | intros v; apply sort_stable].
Qed.

(** X6: after sorting by port number every group lists its ports in
    ascending port order, and ports with the same number keep the order
    they had; the same holds for sorting by pid. *)
Theorem applySorting_ascending (localeCompare : string -> string -> Z)
        (groups : list PortGroup.t) :
  Forall2 (fun g' g =>
             Spec.ascending PortInfo.port (PortGroup.ports g')
             /\ forall v,
                 List.filter (fun p => PortInfo.port p =? v) (PortGroup.ports g')
                 = List.filter (fun p => PortInfo.port p =? v) (PortGroup.ports g))
          (DashboardData.applySorting localeCompare groups SortPort) groups
  /\ Forall2 (fun g' g =>
                Spec.ascending PortInfo.pid (PortGroup.ports g')
                /\ forall v,
                    List.filter (fun p => PortInfo.pid p =? v) (PortGroup.ports g')
                    = List.filter (fun p => PortInfo.pid p =? v) (PortGroup.ports g))
             (DashboardData.applySorting localeCompare groups SortPid) groups.
Proof.
  split.
  - apply (sortedGroups_ascending PortInfo.port).
  - apply (sortedGroups_ascending PortInfo.pid).
Qed.

Lemma sortedGroups_idempotent (key : PortInfo.t -> Z)
      (groups : list PortGroup.t) :
  let sortAll :=
    map (fun g =>
           DashboardData.withPorts g
             (JS.sort (fun a b => key a - key b) (PortGroup.ports g))) in
  sortAll (sortAll groups) = sortAll groups.
Proof.
  cbv zeta. rewrite map_map. apply map_ext. intros g.
  unfold DashboardData.withPorts. cbn. f_equal.
  apply sort_of_sorted, sort_sorted.
Qed.

(** X7: sorting by port number, or by pid, a second time changes
    nothing. *)
Theorem applySorting_idempotent (localeCompare : string -> string -> Z)
        (groups : list PortGroup.t) :
  DashboardData.applySorting localeCompare
    (DashboardData.applySorting localeCompare groups SortPort) SortPort
  = DashboardData.applySorting localeCompare groups SortPort
  /\ DashboardData.applySorting localeCompare
       (DashboardData.applySorting localeCompare groups SortPid) SortPid
     = DashboardData.applySorting localeCompare groups SortPid.
Proof.
  split.
  - apply (sortedGroups_idempotent PortInfo.port).
  - apply (sortedGroups_idempotent PortInfo.pid).
Qed.

Lemma filter_perm {A : Type} (f : A -> bool) (l l' : list A) :
  Permutation l l' -> Permutation (List.filter f l) (List.filter f l').
Proof.
  induction 1 as [| x l l' _ IH | x y l | l l' l'' _ IH1 _ IH2]; simpl.
  - constructor.
  - destruct (f x); [now constructor | exact IH].
  - destruct (f x), (f y); try apply Permutation_refl. apply perm_swap.
  - eapply Permutation_trans; eassumption.
Qed.

Lemma flatten_ports_perm (filter : string) (gs' gs : list PortGroup.t) :
  Forall2 Spec.sameGroupUpToOrder gs' gs ->
  Permutation (map Entry.port (Spec.flatten filter gs'))
              (map Entry.port (Spec.flatten filter gs)).
Proof.
  induction 1 as [| g' g gs' gs (Hid & Hty & Hcol & Hperm) _ IH]; simpl.
  - constructor.
  - rewrite !map_app. apply Permutation_app; [| exact IH].
    rewrite Hcol. destruct (PortGroup.collapsed g); [constructor |].
    rewrite !map_map. cbn. rewrite !map_id.
    apply filter_perm, Hperm.
Qed.

(** X8: sorting never changes which ports are listed: under any filter
    the flattened list after sorting holds the same ports as before, each
    as often, so it has the same length and a selection index valid
    before the sort is valid after it. *)
Theorem applySorting_keeps_listed_ports (localeCompare : string -> string -> Z)
        (groups : list PortGroup.t) (sortBy : SortBy) (filter : string) :
  let before := DashboardData.recalculate filter groups in
  let after :=
    DashboardData.recalculate filter
      (DashboardData.applySorting localeCompare groups sortBy) in
  Permutation (map Entry.port after) (map Entry.port before)
  /\ JS.length after = JS.length before
  /\ forall i, Spec.validIndex before i <-> Spec.validIndex after i.
Proof.
  cbv zeta. rewrite !recalculate_flatten.
  pose proof (flatten_ports_perm filter _ _
                (proj1 (sortedGroups_same
                          (DashboardData.compareBy localeCompare sortBy) groups)))
    as Hperm.
  fold (DashboardData.applySorting localeCompare groups sortBy) in Hperm.
  assert (Hlen : JS.length (Spec.flatten filter
                   (DashboardData.applySorting localeCompare groups sortBy))
                 = JS.length (Spec.flatten filter groups)).
  { unfold JS.length. f_equal.
    apply Permutation_length in Hperm. now rewrite !length_map in Hperm. }
  split; [exact Hperm | split; [exact Hlen |]].
  intros i. unfold Spec.validIndex. rewrite Hlen.
  pose proof (length_nil_iff (Spec.flatten filter groups)) as H1.
  pose proof (length_nil_iff
                (Spec.flatten filter
                   (DashboardData.applySorting localeCompare groups sortBy))) as H2.
  rewrite Hlen in H2. intuition.
Qed.

(* ===================================================================== *)
(** ** Further properties: collapsing and expanding a group               *)
(* ===================================================================== *)

Lemma flipCollapsed_involutive (g : PortGroup.t) :
  DashboardData.flipCollapsed (DashboardData.flipCollapsed g) = g.
Proof.
  destruct g. unfold DashboardData.flipCollapsed. cbn.
  now rewrite negb_involutive.
Qed.

Lemma toggleFirst_involutive (id : string) (groups : list PortGroup.t) :
  DashboardData.toggleFirst id (DashboardData.toggleFirst id groups) = groups.
Proof.
  induction groups as [| g groups IH]; [reflexivity |].
  cbn [DashboardData.toggleFirst].
  destruct (String.eqb (PortGroup.id g) id) eqn:E;
    cbn [DashboardData.toggleFirst].
  - change (PortGroup.id (DashboardData.flipCollapsed g)) with (PortGroup.id g).
    now rewrite E, flipCollapsed_involutive.
  - now rewrite E, IH.
Qed.

Lemma toggleFirst_absent (id : string) (groups : list PortGroup.t) :
  Spec.hasGroup id groups = false ->
  DashboardData.toggleFirst id groups = groups.
Proof.
  unfold Spec.hasGroup. induction groups as [| g groups IH]; [reflexivity |].
  cbn [existsb DashboardData.toggleFirst]. intros H.
  apply orb_false_iff in H. destruct H as [E H]. now rewrite E, IH.
Qed.

Lemma toggleFirst_nil_iff (id : string) (groups : list PortGroup.t) :
  DashboardData.toggleFirst id groups = [] <-> groups = [].
Proof.
  destruct groups as [| g groups]; [tauto |].
  cbn [DashboardData.toggleFirst].
  destruct (String.eqb (PortGroup.id g) id); split; discriminate.
Qed.

Lemma groupHash_flip_ne (g : PortGroup.t) (rest1 rest2 : string) :
  (DashboardData.groupHash (DashboardData.flipCollapsed g) ++ rest1)%string
  <> (DashboardData.groupHash g ++ rest2)%string.
Proof.
  unfold DashboardData.groupHash, DashboardData.flipCollapsed. cbn.
  rewrite !string_app_assoc. intros H.
  apply append_cancel_l in H.
  destruct (PortGroup.collapsed g); cbn in H; discriminate H.
Qed.

Lemma toggleFirst_changes_hash (id : string) (groups : list PortGroup.t) :
  Spec.hasGroup id groups = true ->
  DashboardData.groupsHash (DashboardData.toggleFirst id groups)
  <> DashboardData.groupsHash groups.
Proof.
  unfold Spec.hasGroup, DashboardData.groupsHash.
  induction groups as [| g groups IH]; [discriminate |].
  cbn [existsb DashboardData.toggleFirst].
  destruct (String.eqb (PortGroup.id g) id) eqn:E.
  - intros _. cbn [map]. destruct groups as [| g2 groups].
    + cbn [map JS.join]. intros H.
      apply (groupHash_flip_ne g "" "").
      now rewrite !string_app_nil_r.
    + cbn [map]. rewrite !join_cons by discriminate.
      apply groupHash_flip_ne.
  - cbn [orb]. intros Hhas. cbn [map].
    destruct groups as [| g2 groups]; [discriminate Hhas |].
    rewrite !join_cons.
    + intros H. apply append_cancel_l, append_cancel_l in H.
      exact (IH Hhas H).
    + discriminate.
    + intros Hnil. apply map_eq_nil, toggleFirst_nil_iff in Hnil.
      discriminate Hnil.
Qed.

(** X9: toggling the group of the same selected port twice gives the
    groups back as they were. *)
Theorem toggleGroup_involutive (groups : list PortGroup.t)
        (selectedPort : option Entry.t) :
  DashboardData.toggleGroup (DashboardData.toggleGroup groups selectedPort)
                            selectedPort
  = groups.
Proof.
  destruct selectedPort as [e |]; [apply toggleFirst_involutive | reflexivity].
Qed.

(** Either nothing was toggled or the fingerprint changed. *)
Lemma toggleGroup_fingerprint_aux (groups : list PortGroup.t)
      (selectedPort : option Entry.t) :
  DashboardData.toggleGroup groups selectedPort = groups
  \/ DashboardData.groupsHash (DashboardData.toggleGroup groups selectedPort)
     <> DashboardData.groupsHash groups.
Proof.
  destruct selectedPort as [e |]; [| now left].
  cbn [DashboardData.toggleGroup].
  destruct (Spec.hasGroup (PortGroup.id (Entry.group e)) groups) eqn:E.
  - right. now apply toggleFirst_changes_hash.
  - left. now apply toggleFirst_absent.
Qed.

(** X10: [toggleGroup] changes nothing without a selected port or when no
    group has the id of the selected port's group; otherwise it changes
    the groups fingerprint, so that a cache whose fingerprint matched
    before the toggle is not hit after it. *)
Theorem toggleGroup_fingerprint (groups : list PortGroup.t)
        (selectedPort : option Entry.t) :
  let toggled := DashboardData.toggleGroup groups selectedPort in
  match selectedPort with
  | None => toggled = groups
  | Some selected =>
      if Spec.hasGroup (PortGroup.id (Entry.group selected)) groups
      then DashboardData.groupsHash toggled <> DashboardData.groupsHash groups
           /\ forall state cache,
               DashboardData.cacheHit
                 state (DashboardData.groupsHash groups) cache = true ->
               DashboardData.cacheHit
                 state (DashboardData.groupsHash toggled) cache = false
      else toggled = groups
  end.
Proof.
  cbv zeta. destruct selectedPort as [e |]; [| reflexivity].
  cbn [DashboardData.toggleGroup].
  destruct (Spec.hasGroup (PortGroup.id (Entry.group e)) groups) eqn:E.
  - pose proof (toggleFirst_changes_hash _ _ E) as Hne.
    split; [exact Hne |].
    intros state cache Hhit. apply cacheHit_iff in Hhit.
    destruct Hhit as (_ & Hh & _).
    apply not_true_is_false. intros Hhit'. apply cacheHit_iff in Hhit'.
    destruct Hhit' as (_ & Hh' & _). congruence.
  - now apply toggleFirst_absent.
Qed.

Lemma groupEntries_filter (filter : string) (g : PortGroup.t)
      (f : Entry.t -> bool) (b : bool) :
  (forall e, Entry.group e = g -> f e = b) ->
  List.filter f (Spec.flatten filter [g])
  = if b then Spec.flatten filter [g] else [].
Proof.
  intros Hf. unfold Spec.flatten. cbn [flat_map]. rewrite app_nil_r.
  destruct (PortGroup.collapsed g); [now destruct b |].
  induction (List.filter (Spec.keep filter) (PortGroup.ports g)) as [| p ps IH];
    [now destruct b |].
  cbn [map List.filter]. rewrite (Hf (Entry.mk p g) eq_refl), IH.
  now destruct b.
Qed.

Lemma flatten_cons (filter : string) (g : PortGroup.t)
      (groups : list PortGroup.t) :
  Spec.flatten filter (g :: groups)
  = Spec.flatten filter [g] ++ Spec.flatten filter groups.
Proof. unfold Spec.flatten. cbn [flat_map]. now rewrite app_nil_r. Qed.

Lemma flatten_other_ids (filter id : string) (groups : list PortGroup.t) :
  Spec.hasGroup id groups = false ->
  List.filter (fun e => negb (String.eqb (PortGroup.id (Entry.group e)) id))
              (Spec.flatten filter groups)
  = Spec.flatten filter groups.
Proof.
  unfold Spec.hasGroup. induction groups as [| g groups IH]; [reflexivity |].
  cbn [existsb]. intros H. apply orb_false_iff in H. destruct H as [E H].
  rewrite flatten_cons, filter_app, (IH H).
  rewrite (groupEntries_filter filter g _ true); [reflexivity |].
  intros e <-. now rewrite E.
Qed.

Lemma toggleFirst_flatten (filter : string) (g : PortGroup.t)
      (groups : list PortGroup.t) :
  Spec.uniqueIds groups = true -> In g groups ->
  PortGroup.collapsed g = false ->
  Spec.flatten filter (DashboardData.toggleFirst (PortGroup.id g) groups)
  = List.filter
      (fun e => negb (String.eqb (PortGroup.id (Entry.group e)) (PortGroup.id g)))
      (Spec.flatten filter groups).
Proof.
  intros Huniq Hin Hopen.
  induction groups as [| h groups IH]; [destruct Hin |].
  cbn [Spec.uniqueIds] in Huniq. apply andb_true_iff in Huniq.
  destruct Huniq as [Hh Huniq]. apply negb_true_iff in Hh.
  cbn [DashboardData.toggleFirst].
  destruct (String.eqb (PortGroup.id h) (PortGroup.id g)) eqn:E.
  - assert (Hhg : h = g).
    { destruct Hin as [Hin | Hin]; [exact Hin |]. exfalso.
      assert (existsb (fun g' => String.eqb (PortGroup.id g') (PortGroup.id h))
                      groups = true); [| congruence].
      apply existsb_exists. exists g. split; [exact Hin |].
      apply String.eqb_eq. apply String.eqb_eq in E. congruence. }
    subst h.
    rewrite (flatten_cons filter g groups),
      (flatten_cons filter (DashboardData.flipCollapsed g) groups).
    rewrite filter_app, (flatten_other_ids filter _ groups Hh).
    rewrite (groupEntries_filter filter g _ false).
    + unfold Spec.flatten at 1. cbn. now rewrite Hopen.
    + intros e <-. now rewrite String.eqb_refl.
  - assert (Hin' : In g groups).
    { destruct Hin as [-> | Hin]; [| exact Hin].
      now rewrite String.eqb_refl in E. }
    rewrite (flatten_cons filter h groups),
      (flatten_cons filter h (DashboardData.toggleFirst (PortGroup.id g) groups)).
    rewrite filter_app, (IH Huniq Hin').
    rewrite (groupEntries_filter filter h _ true); [reflexivity |].
    intros e <-. now rewrite E.
Qed.

(** X11: when group ids are unique, toggling the group of a port taken
    from the flattened list collapses that group: the new flattened list
    is the old one without the entries of that group, the other entries
    keeping their order. *)
Theorem toggleGroup_hides_group (filter : string) (groups : list PortGroup.t)
        (selected : Entry.t) :
  Spec.uniqueIds groups = true ->
  In selected (DashboardData.recalculate filter groups) ->
  DashboardData.recalculate
    filter (DashboardData.toggleGroup groups (Some selected))
  = List.filter
      (fun e => negb (String.eqb (PortGroup.id (Entry.group e))
                                 (PortGroup.id (Entry.group selected))))
      (DashboardData.recalculate filter groups).
Proof.
  rewrite !recalculate_flatten. intros Huniq Hin.
  cbn [DashboardData.toggleGroup].
  unfold Spec.flatten in Hin. apply in_flat_map in Hin.
  destruct Hin as (g & Hg & Hin).
  destruct (PortGroup.collapsed g) eqn:Hopen; [destruct Hin |].
  apply in_map_iff in Hin. destruct Hin as (p & <- & _). cbn [Entry.group].
  now apply toggleFirst_flatten.
Qed.

Lemma toggleGroup_hides_group_witness :
  DashboardData.recalculate
    "" (DashboardData.toggleGroup Ex.twoGroups (Some Ex.selectedWeb))
  = List.filter
      (fun e => negb (String.eqb (PortGroup.id (Entry.group e))
                                 (PortGroup.id (Entry.group Ex.selectedWeb))))
      (DashboardData.recalculate "" Ex.twoGroups).
Proof.
  apply (toggleGroup_hides_group "" Ex.twoGroups Ex.selectedWeb).
  - reflexivity.
  - vm_compute. left. reflexivity.
Defined.

(* ===================================================================== *)
(** ** Further properties: the dashboard's cache slot                     *)
(* ===================================================================== *)

(** What [Dashboard.getFilteredPorts] leaves behind: the other fields
    untouched, and a cache object in the slot that matches the current
    state and groups and refers to the list returned. *)
Lemma core_getFilteredPorts_post (d : DashboardCore.t) :
  let '(fp, d1) := DashboardCore.getFilteredPorts d in
  DashboardCore.state d1 = DashboardCore.state d
  /\ DashboardCore.searchBuffer d1 = DashboardCore.searchBuffer d
  /\ DashboardCore.previousRenderState d1 = DashboardCore.previousRenderState d
  /\ (exists c,
         DashboardCore.filteredPortsCache d1 = Some c
         /\ DashboardData.cacheHit
              (DashboardCore.state d)
              (DashboardData.groupsHash
                 (DashboardState.groups (DashboardCore.state d)))
              (Heap.caches (DashboardCore.heap d1) c) = true
         /\ FilteredPortsCache.result (Heap.caches (DashboardCore.heap d1) c) = fp)
  /\ (Spec.cacheFresh (DashboardCore.heap d)
                      (DashboardState.groups (DashboardCore.state d))
                      (DashboardCore.filteredPortsCache d) ->
      Heap.arrays (DashboardCore.heap d1) fp
      = Spec.flatten (DashboardState.filter (DashboardCore.state d))
                     (DashboardState.groups (DashboardCore.state d))).
Proof.
  unfold DashboardCore.getFilteredPorts.
  set (state := DashboardCore.state d).
  set (groups := DashboardState.groups state).
  assert (Hfresh :
    let '(r, h1) := DashboardData.getFilteredPorts state groups None
                      (DashboardCore.heap d) in
    (exists c, DashboardData.newCache r = Some c
       /\ DashboardData.cacheHit state (DashboardData.groupsHash groups)
                                 (Heap.caches h1 c) = true
       /\ FilteredPortsCache.result (Heap.caches h1 c)
          = DashboardData.filteredPorts r)
    /\ Heap.arrays h1 (DashboardData.filteredPorts r)
       = Spec.flatten (DashboardState.filter state) groups).
  { pose proof (getFilteredPorts_fresh state groups (DashboardCore.heap d)) as H.
    destruct (DashboardData.getFilteredPorts state groups None _) as [r h1].
    destruct H as (Hr & Hc & Harr & Hobj & _). split.
    - exists (S (Heap.next (DashboardCore.heap d))). rewrite Hobj.
      split; [exact Hc | split; [| now rewrite Hr]].
      apply cacheHit_iff. cbn. tauto.
    - now rewrite Hr. }
  destruct (DashboardCore.filteredPortsCache d) as [c |].
  - destruct (DashboardData.cacheHit state (DashboardData.groupsHash groups)
                (Heap.caches (DashboardCore.heap d) c)) eqn:E.
    + rewrite (getFilteredPorts_hit _ _ _ _ E). cbn.
      repeat split; [eauto |].
      intros Hf. unfold Spec.cacheFresh in Hf. rewrite Hf.
      apply cacheHit_iff in E. destruct E as (-> & _). reflexivity.
    + rewrite (getFilteredPorts_miss state groups (Some c) _) by (right; eauto).
      destruct (DashboardData.getFilteredPorts state groups None _) as [r h1].
      cbn. destruct Hfresh as [Hc Harr]. repeat split; [exact Hc | now intros _].
  - destruct (DashboardData.getFilteredPorts state groups None _) as [r h1].
    cbn. destruct Hfresh as [Hc Harr]. repeat split; [exact Hc | now intros _].
Qed.

(** A slot whose cache matches is read without any change. *)
Lemma core_getFilteredPorts_hit (d : DashboardCore.t) (c : loc) :
  DashboardCore.filteredPortsCache d = Some c ->
  DashboardData.cacheHit
    (DashboardCore.state d)
    (DashboardData.groupsHash (DashboardState.groups (DashboardCore.state d)))
    (Heap.caches (DashboardCore.heap d) c) = true ->
  DashboardCore.getFilteredPorts d
  = (FilteredPortsCache.result (Heap.caches (DashboardCore.heap d) c), d).
Proof.
  intros Hc Hhit. unfold DashboardCore.getFilteredPorts.
  rewrite Hc, (getFilteredPorts_hit _ _ _ _ Hhit). cbn.
  destruct d. cbn in *. now subst.
Qed.

(** A slot whose cache does not match, or an empty slot, is recomputed. *)
Lemma core_getFilteredPorts_miss (d : DashboardCore.t) :
  (DashboardCore.filteredPortsCache d = None
   \/ exists c, DashboardCore.filteredPortsCache d = Some c
        /\ DashboardData.cacheHit
             (DashboardCore.state d)
             (DashboardData.groupsHash
                (DashboardState.groups (DashboardCore.state d)))
             (Heap.caches (DashboardCore.heap d) c) = false) ->
  let '(fp, d1) := DashboardCore.getFilteredPorts d in
  Heap.arrays (DashboardCore.heap d1) fp
  = Spec.flatten (DashboardState.filter (DashboardCore.state d))
                 (DashboardState.groups (DashboardCore.state d)).
Proof.
  intros Hmiss. unfold DashboardCore.getFilteredPorts.
  rewrite (getFilteredPorts_miss _ _ _ _ Hmiss).
  pose proof (getFilteredPorts_fresh
                (DashboardCore.state d)
                (DashboardState.groups (DashboardCore.state d))
                (DashboardCore.heap d)) as H.
  destruct (DashboardData.getFilteredPorts _ _ None _) as [r h1].
  destruct H as (Hr & _ & Harr & _). cbn. now rewrite Hr.
Qed.

Lemma setGroups_same (s : DashboardState.t) :
  DashboardState.setGroups s (DashboardState.groups s) = s.
Proof. now destruct s. Qed.

Lemma setState_same (d : DashboardCore.t) :
  DashboardCore.setState d (DashboardCore.state d) = d.
Proof. now destruct d. Qed.

(** X12: [Dashboard.toggleGroup] does not reset the cache, and need not:
    the list returned by the next [getFilteredPorts] is the flattening
    of the groups as they are after the toggle, whenever a group was
    toggled, and also when none was, provided the cache was absent or up
    to date before. *)
Theorem toggleGroup_then_list (d : DashboardCore.t) :
  let d' := DashboardCore.toggleGroup d in
  let '(fp, d2) := DashboardCore.getFilteredPorts d' in
  DashboardState.groups (DashboardCore.state d')
  <> DashboardState.groups (DashboardCore.state d)
  \/ Spec.cacheFresh (DashboardCore.heap d)
                     (DashboardState.groups (DashboardCore.state d))
                     (DashboardCore.filteredPortsCache d) ->
  Heap.arrays (DashboardCore.heap d2) fp
  = DashboardData.recalculate
      (DashboardState.filter (DashboardCore.state d'))
      (DashboardState.groups (DashboardCore.state d')).
Proof.
  cbv zeta. unfold DashboardCore.toggleGroup, DashboardCore.getSelectedPort.
  pose proof (core_getFilteredPorts_post d) as Hpost.
  destruct (DashboardCore.getFilteredPorts d) as [fp0 d1].
  destruct Hpost as (Hs & _ & _ & (c & Hc & Hhit & Hres) & Hfresh).
  set (sel := DashboardData.getSelectedPort _ _).
  rewrite Hs. rewrite recalculate_flatten.
  pose proof (toggleGroup_fingerprint_aux
                (DashboardState.groups (DashboardCore.state d)) sel) as Htog.
  destruct Htog as [Hsame | Hdiff].
  - rewrite Hsame, setGroups_same, <- Hs, setState_same.
    rewrite (core_getFilteredPorts_hit d1 c Hc) by (now rewrite Hs).
    rewrite Hs, Hres. intros [Hne | Hf]; [congruence | exact (Hfresh Hf)].
  - set (d' := DashboardCore.setState d1 _).
    pose proof (core_getFilteredPorts_miss d') as Hmiss.
    destruct (DashboardCore.getFilteredPorts d') as [fp d2].
    intros _. apply Hmiss. right. exists c. split; [exact Hc |].
    apply not_true_is_false. intros Hhit'.
    apply cacheHit_iff in Hhit'. apply cacheHit_iff in Hhit.
    subst d'. cbn in Hhit'.
    destruct Hhit as (_ & Hh & _). destruct Hhit' as (_ & Hh' & _).
    apply Hdiff. exact (eq_trans (eq_sym Hh') Hh).
Qed.

Lemma toggleGroup_then_list_witness :
  let d' := DashboardCore.toggleGroup Ex.dashTwoGroups in
  let '(fp, d2) := DashboardCore.getFilteredPorts d' in
  Heap.arrays (DashboardCore.heap d2) fp
  = DashboardData.recalculate
      (DashboardState.filter (DashboardCore.state d'))
      (DashboardState.groups (DashboardCore.state d')).
Proof.
  apply (toggleGroup_then_list Ex.dashTwoGroups). right. exact I.
Defined.

(** After a call the slot is settled: calling again returns the same
    reference and changes nothing. *)
Lemma core_getFilteredPorts_again (d : DashboardCore.t) :
  let '(fp, d1) := DashboardCore.getFilteredPorts d in
  forall s',
    DashboardState.filter s' = DashboardState.filter (DashboardCore.state d) ->
    DashboardState.groups s' = DashboardState.groups (DashboardCore.state d) ->
    DashboardState.sortBy s' = DashboardState.sortBy (DashboardCore.state d) ->
    DashboardCore.getFilteredPorts (DashboardCore.setState d1 s')
    = (fp, DashboardCore.setState d1 s').
Proof.
  pose proof (core_getFilteredPorts_post d) as Hpost.
  destruct (DashboardCore.getFilteredPorts d) as [fp d1].
  destruct Hpost as (Hs & _ & _ & (c & Hc & Hhit & Hres) & _).
  intros s' Hf Hg Hsort.
  rewrite (core_getFilteredPorts_hit (DashboardCore.setState d1 s') c).
  - cbn. now rewrite Hres.
  - exact Hc.
  - cbn. apply cacheHit_iff in Hhit. apply cacheHit_iff.
    rewrite Hf, Hg, Hsort. exact Hhit.
Qed.

(** X13: after [Dashboard.moveSelection] the selected index is a row of
    the very list the next [getFilteredPorts] returns, whenever that list
    is not empty, whatever index and step it started from; on an empty
    list the index is left as it was.  The cache slot is not disturbed:
    the next call returns the same list by reference. *)
Theorem moveSelection_on_list (d : DashboardCore.t) (direction : Z) :
  let d' := Dashboard.moveSelection d direction in
  let '(fp, d2) := DashboardCore.getFilteredPorts d' in
  let list := Heap.arrays (DashboardCore.heap d2) fp in
  d2 = d'
  /\ fp = fst (DashboardCore.getFilteredPorts d)
  /\ (list <> [] ->
      0 <= DashboardState.selectedIndex (DashboardCore.state d') < JS.length list)
  /\ (list = [] ->
      DashboardState.selectedIndex (DashboardCore.state d')
      = DashboardState.selectedIndex (DashboardCore.state d)).
Proof.
  cbv zeta. unfold Dashboard.moveSelection.
  pose proof (core_getFilteredPorts_again d) as Hagain.
  pose proof (core_getFilteredPorts_post d) as Hpost.
  destruct (DashboardCore.getFilteredPorts d) as [fp0 d1].
  destruct Hpost as (Hs & _).
  rewrite Hagain by (cbn; now rewrite ?Hs).
  cbn [fst DashboardCore.setState DashboardCore.heap DashboardCore.state
       DashboardState.selectedIndex].
  set (list := Heap.arrays (DashboardCore.heap d1) fp0).
  split; [reflexivity | split; [reflexivity | split]].
  - intros Hne. unfold DashboardData.moveSelection.
    pose proof (length_nonneg list) as Hl.
    pose proof (length_nil_iff list) as Hnil.
    destruct (Z.eqb_spec (JS.length list) 0) as [E | E]; [tauto |].
    cbv zeta.
    destruct (Z.ltb_spec
                (DashboardState.selectedIndex (DashboardCore.state d1) + direction)
                0); [lia |].
    destruct (Z.geb_spec
                (DashboardState.selectedIndex (DashboardCore.state d1) + direction)
                (JS.length list)); lia.
  - intros Hnil. unfold DashboardData.moveSelection. rewrite Hnil.
    cbn. now rewrite Hs.
Qed.

(* ===================================================================== *)
(** ** Further properties: what a render leaves behind                    *)
(* ===================================================================== *)

(** A dashboard whose cache slot answers for its state with [fp]. *)
Lemma getSelectedPort_settled (d : DashboardCore.t) (fp : loc) :
  DashboardCore.getFilteredPorts d = (fp, d) ->
  DashboardCore.getSelectedPort d
  = (DashboardData.getSelectedPort
       (Heap.arrays (DashboardCore.heap d) fp)
       (DashboardState.selectedIndex (DashboardCore.state d)), d).
Proof.
  intros H. unfold DashboardCore.getSelectedPort. now rewrite H.
Qed.

Lemma renderMain_settled (scr : Screen.t) (d : DashboardCore.t)
      (fp fp' : loc) (searchBuffer : string) :
  DashboardCore.getFilteredPorts d = (fp, d) ->
  snd (DashboardRenderer.renderMain scr d fp' searchBuffer) = d.
Proof.
  intros H. unfold DashboardRenderer.renderMain.
  now rewrite (getSelectedPort_settled d fp H).
Qed.

Lemma fullRender_settled (scr : Screen.t) (d : DashboardCore.t)
      (fp fp' : loc) (searchBuffer : string) :
  DashboardCore.getFilteredPorts d = (fp, d) ->
  snd (DashboardRenderer.fullRender scr d fp' searchBuffer) = d.
Proof.
  intros H. unfold DashboardRenderer.fullRender.
  pose proof (renderMain_settled scr d fp fp' searchBuffer H) as Hm.
  destruct (DashboardRenderer.renderMain scr d fp' searchBuffer). exact Hm.
Qed.

Lemma renderDelta_settled (scr : Screen.t) (previous current : RenderState.t)
      (d : DashboardCore.t) (fp : loc) (searchBuffer : string) :
  DashboardCore.getFilteredPorts d = (fp, d) ->
  snd (DashboardRenderer.renderDelta scr previous current d searchBuffer) = d.
Proof.
  intros H. unfold DashboardRenderer.renderDelta.
  destruct (DashboardRenderer.tooManyChanges _ _).
  - exact (fullRender_settled scr d fp _ "" H).
  - destruct (DashboardState.showDetails _); [| reflexivity].
    now rewrite (getSelectedPort_settled d fp H).
Qed.

(** In the main view the renderer returns the snapshot of the list it
    asked for and leaves the dashboard as that one call left it. *)
Lemma render_main_result (scr : Screen.t) (d : DashboardCore.t) :
  DashboardRenderer.anyModal (DashboardCore.state d) = false ->
  let '(fp, d1) := DashboardCore.getFilteredPorts d in
  snd (fst (DashboardRenderer.render scr d))
  = Some (DashboardRenderer.snapshot (DashboardCore.state d) fp)
  /\ snd (DashboardRenderer.render scr d) = d1.
Proof.
  intros Hmodal. unfold DashboardRenderer.render. rewrite Hmodal.
  pose proof (core_getFilteredPorts_again d) as Hagain.
  pose proof (core_getFilteredPorts_post d) as Hpost.
  destruct (DashboardCore.getFilteredPorts d) as [fp d1].
  destruct Hpost as (Hs & _).
  assert (Hset : DashboardCore.getFilteredPorts d1 = (fp, d1)).
  { pose proof (Hagain (DashboardCore.state d1)) as H.
    rewrite setState_same, Hs in H. now apply H. }
  destruct (DashboardCore.previousRenderState d) as [p |].
  - destruct (DashboardRenderer.canUseDelta _ _ _ _ _).
    + pose proof (renderDelta_settled scr p
                    (DashboardRenderer.snapshot (DashboardCore.state d) fp)
                    d1 fp (DashboardCore.searchBuffer d) Hset) as H.
      destruct (DashboardRenderer.renderDelta _ _ _ _ _). now split.
    + pose proof (fullRender_settled scr d1 fp fp
                    (DashboardCore.searchBuffer d) Hset) as H.
      destruct (DashboardRenderer.fullRender _ _ _ _). now split.
  - pose proof (fullRender_settled scr d1 fp fp
                  (DashboardCore.searchBuffer d) Hset) as H.
    destruct (DashboardRenderer.fullRender _ _ _ _). now split.
Qed.

(* ===================================================================== *)
(** ** Further properties: the rows of the main view                      *)
(* ===================================================================== *)

Lemma portLines_In (ps : list Entry.t) (i0 y0 maxH sel0 : Z)
      (e : Entry.t) (i y sel : Z) :
  In (OpPortLine e i y sel) (DashboardRenderer.portLines ps i0 y0 maxH sel0)
  <-> exists k : nat,
        nth_error ps k = Some e /\ i = i0 + Z.of_nat k
        /\ y = y0 + Z.of_nat k /\ y < maxH /\ sel = sel0.
Proof.
  revert i0 y0. induction ps as [| p ps IH]; intros i0 y0.
  - simpl. split; [tauto |]. intros (k & Hk & _). destruct k; discriminate Hk.
  - cbn [DashboardRenderer.portLines].
    destruct (Z.ltb_spec y0 maxH) as [Hlt | Hge].
    + cbn [In]. rewrite IH. split.
      * intros [E | (k & Hk & -> & -> & Hy & ->)].
        -- inversion E; subst. exists O. cbn. repeat split; lia.
        -- exists (S k). cbn. repeat split; try assumption; lia.
      * intros (k & Hk & -> & -> & Hy & ->). destruct k as [| k].
        -- cbn in Hk. inversion Hk; subst. left. f_equal; lia.
        -- right. exists k. cbn in Hk. repeat split; try assumption; lia.
    + split; [intros [] |]. intros (k & _ & _ & -> & Hy & _). lia.
Qed.

Lemma renderMain_port_line (scr : Screen.t) (d : DashboardCore.t) (fp : loc)
      (searchBuffer : string) (e : Entry.t) (i y sel : Z) :
  In (OpPortLine e i y sel)
     (fst (DashboardRenderer.renderMain scr d fp searchBuffer))
  <-> 0 <= i
      /\ JS.get (Heap.arrays (DashboardCore.heap d) fp) i = Some e
      /\ y = i + 2
      /\ y < DashboardRenderer.maxHeight scr (DashboardCore.state d)
      /\ sel = DashboardState.selectedIndex (DashboardCore.state d).
Proof.
  unfold DashboardRenderer.renderMain.
  destruct (DashboardCore.getSelectedPort d) as [selected d1]. cbn [fst].
  rewrite !in_app_iff, portLines_In. split.
  - intros [H | [H | [H | [H | H]]]].
    + destruct H as [H | []]; discriminate H.
    + destruct H as (k & Hk & -> & -> & Hy & ->).
      rewrite <- get_nth_error in Hk. repeat split; try assumption; lia.
    + destruct selected; [| destruct H].
      destruct (DashboardState.showDetails _); [| destruct H].
      destruct H as [H | []]; discriminate H.
    + destruct H as [H | []]; discriminate H.
    + apply killMessageOps_In in H. destruct H as (m & _ & H). discriminate H.
  - intros (Hi & Hget & -> & Hy & ->). right. left.
    exists (Z.to_nat i). rewrite <- get_nth_error, Z2Nat.id by lia.
    repeat split; try assumption; lia.
Qed.

(** X14: a full repaint draws exactly the rows [index + 2] of the ports
    whose row lies above [maxHeight], each with the port at that index of
    the list and the state's selected index; the list is not scrolled, so
    the selected port has a row on screen only when
    [selectedIndex + 2 < maxHeight]. *)
Theorem renderMain_rows (scr : Screen.t) (d : DashboardCore.t) (fp : loc)
        (searchBuffer : string) :
  let ops := fst (DashboardRenderer.renderMain scr d fp searchBuffer) in
  let list := Heap.arrays (DashboardCore.heap d) fp in
  let maxH := DashboardRenderer.maxHeight scr (DashboardCore.state d) in
  let selected := DashboardState.selectedIndex (DashboardCore.state d) in
  (forall e i y sel,
      In (OpPortLine e i y sel) ops
      <-> 0 <= i /\ JS.get list i = Some e /\ y = i + 2 /\ y < maxH
          /\ sel = selected)
  /\ ((exists e y sel, In (OpPortLine e selected y sel) ops)
      <-> 0 <= selected < JS.length list /\ selected + 2 < maxH).
Proof.
  cbv zeta. split.
  - intros e i y sel. apply renderMain_port_line.
  - split.
    + intros (e & y & sel & H). apply renderMain_port_line in H.
      destruct H as (_ & Hget & -> & Hy & _).
      apply get_some_range in Hget. lia.
    + intros [Hsel Hy]. destruct (get_in_range _ _ Hsel) as [e He].
      exists e, (DashboardState.selectedIndex (DashboardCore.state d) + 2),
        (DashboardState.selectedIndex (DashboardCore.state d)).
      apply renderMain_port_line. repeat split; try assumption; lia.
Qed.

Lemma changedLineOps_In (maxH currSel : Z) (curr : list Entry.t)
      (lineNum : Z) (e : Entry.t) (i y sel : Z) :
  In (OpPortLine e i y sel)
     (DashboardRenderer.changedLineOps maxH currSel curr lineNum)
  <-> y = lineNum /\ i = lineNum - 2 /\ 2 <= lineNum < maxH
      /\ JS.get curr i = Some e /\ sel = currSel.
Proof.
  unfold DashboardRenderer.changedLineOps.
  destruct (Z.geb_spec lineNum 2) as [Hge | Hlt]; cbn [andb].
  - destruct (Z.ltb_spec lineNum maxH) as [Hlt | Hge'].
    + destruct (Z.ltb_spec (lineNum - 2) (JS.length curr)) as [Hin | Hout].
      * destruct (JS.get curr (lineNum - 2)) as [e' |] eqn:E.
        -- cbn [In]. split.
           ++ intros [H | []]. inversion H; subst. repeat split; try assumption; lia.
           ++ intros (-> & -> & _ & Hget & ->). left. congruence.
        -- split; [intros [] |]. intros (_ & -> & _ & Hget & _). congruence.
      * split; [intros [] |]. intros (_ & -> & _ & Hget & _).
        apply get_some_range in Hget. lia.
    + split; [intros [] | intros (_ & _ & H & _); lia].
  - split; [intros [] | intros (_ & _ & H & _); lia].
Qed.

Lemma renderDelta_port_line (scr : Screen.t)
      (previous current : RenderState.t) (d : DashboardCore.t)
      (searchBuffer : string) (e : Entry.t) (i y sel : Z) :
  let maxH := DashboardRenderer.maxHeight scr (DashboardCore.state d) in
  let prev :=
    Heap.arrays (DashboardCore.heap d) (RenderState.filteredPorts previous) in
  let curr :=
    Heap.arrays (DashboardCore.heap d) (RenderState.filteredPorts current) in
  let changed :=
    DashboardRenderer.changedLines
      maxH (RenderState.selectedIndex previous)
      (RenderState.selectedIndex current) prev curr in
  DashboardRenderer.tooManyChanges maxH changed = false ->
  (In (OpPortLine e i y sel)
      (fst (DashboardRenderer.renderDelta scr previous current d searchBuffer))
   <-> In y changed /\ y = i + 2 /\ 0 <= i /\ y < maxH
       /\ JS.get curr i = Some e
       /\ sel = RenderState.selectedIndex current).
Proof.
  cbv zeta. intros Hfew. unfold DashboardRenderer.renderDelta. rewrite Hfew.
  match goal with
  | |- context [if ?b then _ else ([], d)] =>
      destruct b; [destruct (DashboardCore.getSelectedPort d) as [selected d1] |]
  end; cbn [fst]; rewrite !in_app_iff, in_flat_map;
    (split;
     [ intros [H | [H | [H | [H | [H | H]]]]];
       [ destruct H as [H | [H | []]]; discriminate H
       | destruct H as (lineNum & Hin & H); apply changedLineOps_In in H;
         destruct H as (-> & -> & Hrange & Hget & ->);
         repeat split; try assumption; lia
       | try (destruct selected); try (destruct H as [H | []]; discriminate H);
         destruct H
       | destruct H as [H | []]; discriminate H
       | apply killMessageOps_In in H; destruct H as (m & _ & H); discriminate H
       | destruct H as [H | []]; discriminate H ]
     | intros (Hin & -> & Hi & Hy & Hget & ->); right; left;
       exists (i + 2); split; [exact Hin |];
       apply changedLineOps_In;
       replace (i + 2 - 2) with i by lia;
       repeat split; try assumption; lia ]).
Qed.

(** X15: a delta repaint that is not abandoned redraws exactly the
    changed rows that lie on screen, each with the current port and the
    current selected index; every on-screen row it leaves alone shows a
    port whose pid, port number, process name, command, lifetime and type
    are those of the previous frame and whose selection mark did not
    change. *)
Theorem renderDelta_rows (scr : Screen.t) (previous current : RenderState.t)
        (d : DashboardCore.t) (searchBuffer : string) :
  let maxH := DashboardRenderer.maxHeight scr (DashboardCore.state d) in
  let prev :=
    Heap.arrays (DashboardCore.heap d) (RenderState.filteredPorts previous) in
  let curr :=
    Heap.arrays (DashboardCore.heap d) (RenderState.filteredPorts current) in
  let prevSel := RenderState.selectedIndex previous in
  let currSel := RenderState.selectedIndex current in
  let changed :=
    DashboardRenderer.changedLines maxH prevSel currSel prev curr in
  let ops :=
    fst (DashboardRenderer.renderDelta scr previous current d searchBuffer) in
  DashboardRenderer.tooManyChanges maxH changed = false ->
  (forall e i y sel,
      In (OpPortLine e i y sel) ops
      <-> In y changed /\ y = i + 2 /\ 0 <= i /\ y < maxH
          /\ JS.get curr i = Some e /\ sel = currSel)
  /\ (forall i p c,
         0 <= i -> i + 2 < maxH ->
         JS.get prev i = Some p -> JS.get curr i = Some c ->
         ~ In (OpPortLine c i (i + 2) currSel) ops ->
         DashboardRenderer.portDataChanged p c = false
         /\ (i = prevSel <-> i = currSel)).
Proof.
  cbv zeta. intros Hfew. split.
  - intros e i y sel.
    apply (renderDelta_port_line scr previous current d searchBuffer e i y sel Hfew).
  - intros i p c Hi Hy Hp Hc Hnot.
    assert (Hout : ~ In (i + 2)
                     (DashboardRenderer.changedLines
                        (DashboardRenderer.maxHeight scr (DashboardCore.state d))
                        (RenderState.selectedIndex previous)
                        (RenderState.selectedIndex current)
                        (Heap.arrays (DashboardCore.heap d)
                                     (RenderState.filteredPorts previous))
                        (Heap.arrays (DashboardCore.heap d)
                                     (RenderState.filteredPorts current)))).
    { intros Hin. apply Hnot.
      apply (renderDelta_port_line scr previous current d searchBuffer
                                   c i (i + 2) _ Hfew).
      repeat split; try assumption; lia. }
    rewrite changedLines_In in Hout. split.
    + destruct (DashboardRenderer.portDataChanged p c) eqn:E; [| reflexivity].
      exfalso. apply Hout. right. exists i. repeat split; try assumption.
      exists p, c. tauto.
    + destruct (Z.eq_dec (RenderState.selectedIndex previous)
                         (RenderState.selectedIndex current)) as [Heq | Hne].
      * rewrite Heq. tauto.
      * split; intros ->; exfalso; apply Hout; left; split; auto.
Qed.

Lemma renderDelta_rows_witness :
  DashboardRenderer.portDataChanged
    (Entry.mk Ex.p80 (Ex.web Ex.portsBefore))
    (Entry.mk Ex.p80 (Ex.web Ex.portsAfter)) = false
  /\ (0 = 0 <-> 0 = 0).
Proof.
  apply (proj2 (renderDelta_rows
                  Ex.tenRows (Ex.snap 0%nat) (Ex.snap 1%nat)
                  (snd (DashboardCore.getFilteredPorts Ex.dashFive)) ""
                  eq_refl)
               0 (Entry.mk Ex.p80 (Ex.web Ex.portsBefore))
               (Entry.mk Ex.p80 (Ex.web Ex.portsAfter))).
  - lia.
  - vm_compute. reflexivity.
  - reflexivity.
  - reflexivity.
  - vm_compute. intros H.
    repeat (destruct H as [H | H]; [discriminate H |]). exact H.
Defined.

(* ===================================================================== *)
(** ** Further properties: successive renders                             *)
(* ===================================================================== *)

Lemma portDataChanged_same (e : Entry.t) :
  DashboardRenderer.portDataChanged e e = false.
Proof.
  apply not_true_is_false. intros H. apply portDataChanged_iff in H.
  unfold Spec.fieldsDiffer in H. tauto.
Qed.

Lemma dataLoop_same (l : list Entry.t) (i maxH : Z) (acc : JS.NumSet) :
  DashboardRenderer.dataLoop l l i maxH acc = acc.
Proof.
  revert i. induction l as [| e l IH]; intros i; [reflexivity |].
  cbn [DashboardRenderer.dataLoop].
  destruct (i + 2 <? maxH); [| reflexivity].
  now rewrite portDataChanged_same, IH.
Qed.

Lemma expireKillMessage_none (now : Z) (state : DashboardState.t) :
  DashboardState.killMessage state = None ->
  Dashboard.expireKillMessage now state = state.
Proof. intros H. unfold Dashboard.expireKillMessage. now rewrite H. Qed.

Lemma expireKillMessage_modal (now : Z) (state : DashboardState.t) :
  DashboardRenderer.anyModal (Dashboard.expireKillMessage now state)
  = DashboardRenderer.anyModal state.
Proof.
  unfold Dashboard.expireKillMessage.
  destruct (_ && _); [| reflexivity].
  destruct (DashboardState.killMessageExpiresAt state); [| reflexivity].
  destruct (now >? z); reflexivity.
Qed.

Lemma canUseDelta_same (h : Heap.t) (state : DashboardState.t) (fp : loc)
      (searchBuffer : string) :
  DashboardState.killMessage state = None ->
  DashboardRenderer.isEnteringSearchMode state searchBuffer = false ->
  DashboardRenderer.canUseDelta
    h state (Some (DashboardRenderer.snapshot state fp))
    (DashboardRenderer.snapshot state fp) searchBuffer = true.
Proof.
  intros Hk He. unfold DashboardRenderer.canUseDelta,
    DashboardRenderer.hasKillMessage. rewrite Hk, He. cbn.
  rewrite Z.eqb_refl, String.eqb_refl, Bool.eqb_reflx.
  now destruct (DashboardState.sortBy state).
Qed.

Lemma getFilteredPorts_setPrevious (d : DashboardCore.t)
      (r : option RenderState.t) :
  DashboardCore.getFilteredPorts (DashboardCore.setPreviousRenderState d r)
  = (fst (DashboardCore.getFilteredPorts d),
     DashboardCore.setPreviousRenderState
       (snd (DashboardCore.getFilteredPorts d)) r).
Proof.
  unfold DashboardCore.getFilteredPorts. cbn.
  destruct (DashboardData.getFilteredPorts _ _ _ _). reflexivity.
Qed.

(** The first render of the main view without a toast. *)
Lemma render_main_first (now : Z) (scr : Screen.t) (d : DashboardCore.t) :
  DashboardRenderer.anyModal (DashboardCore.state d) = false ->
  DashboardState.killMessage (DashboardCore.state d) = None ->
  let '(fp, d1) := DashboardCore.getFilteredPorts d in
  snd (Dashboard.render now scr d)
  = DashboardCore.setPreviousRenderState
      d1 (Some (DashboardRenderer.snapshot (DashboardCore.state d) fp))
  /\ DashboardCore.getFilteredPorts d1 = (fp, d1)
  /\ DashboardCore.state d1 = DashboardCore.state d
  /\ DashboardCore.searchBuffer d1 = DashboardCore.searchBuffer d.
Proof.
  intros Hmodal Hkill. unfold Dashboard.render.
  rewrite (expireKillMessage_none now _ Hkill), setState_same.
  rewrite (renderThrows_main scr _ Hmodal).
  pose proof (render_main_result scr d Hmodal) as Hres.
  pose proof (core_getFilteredPorts_again d) as Hagain.
  pose proof (core_getFilteredPorts_post d) as Hpost.
  destruct (DashboardCore.getFilteredPorts d) as [fp d1].
  destruct Hpost as (Hs & Hbuf & _).
  destruct Hres as [Hsnap Hd].
  destruct (DashboardRenderer.render scr d) as [[ops1 r1] d1'].
  cbn [fst snd] in *. subst r1 d1'.
  repeat split; try assumption.
  pose proof (Hagain (DashboardCore.state d1)) as H.
  rewrite setState_same, Hs in H. now apply H.
Qed.

(** A delta repaint of a snapshot against itself. *)
Lemma renderDelta_same (scr : Screen.t) (snap : RenderState.t)
      (d : DashboardCore.t) (fp : loc) (searchBuffer : string) :
  DashboardCore.getFilteredPorts d = (fp, d) ->
  DashboardState.killMessage (DashboardCore.state d) = None ->
  0 <= DashboardRenderer.maxHeight scr (DashboardCore.state d) ->
  DashboardRenderer.renderDelta scr snap snap d searchBuffer
  = ([OpHideCursor;
      OpHeader (JS.length (Heap.arrays (DashboardCore.heap d)
                                       (RenderState.filteredPorts snap)))]
     ++ (if DashboardState.showDetails (DashboardCore.state d)
         then match DashboardData.getSelectedPort
                      (Heap.arrays (DashboardCore.heap d) fp)
                      (DashboardState.selectedIndex (DashboardCore.state d)) with
              | Some e => [OpDetails e]
              | None => []
              end
         else [])
     ++ [OpFooter (DashboardState.searching (DashboardCore.state d))
                  searchBuffer; OpFlush],
     d).
Proof.
  intros Hset Hkill Hmax. unfold DashboardRenderer.renderDelta,
    DashboardRenderer.changedLines, DashboardRenderer.tooManyChanges.
  rewrite Z.eqb_refl. cbn [negb]. rewrite dataLoop_same.
  change (JS.Set_size []) with 0. rewrite Z.mul_0_r.
  destruct (Z.ltb_spec
              (DashboardRenderer.maxHeight scr (DashboardCore.state d)) 0);
    [lia |].
  cbn [flat_map]. unfold DashboardRenderer.killMessageOps. rewrite Hkill.
  rewrite (getSelectedPort_settled d fp Hset).
  destruct (DashboardState.showDetails (DashboardCore.state d)); [| reflexivity].
  destruct (DashboardData.getSelectedPort _ _); reflexivity.
Qed.

(** X16: rendering the main view a second time with nothing changed in
    between (no toast, not entering search mode, a row budget that is not
    negative) is a delta repaint that clears nothing and draws no port
    row: only the header, the details strip of the selected port when
    details are on, and the footer; it leaves the dashboard exactly as the
    first render left it. *)
Theorem render_twice_idle (now1 now2 : Z) (scr : Screen.t)
        (d : DashboardCore.t) :
  DashboardRenderer.anyModal (DashboardCore.state d) = false ->
  DashboardState.killMessage (DashboardCore.state d) = None ->
  DashboardRenderer.isEnteringSearchMode
    (DashboardCore.state d) (DashboardCore.searchBuffer d) = false ->
  0 <= DashboardRenderer.maxHeight scr (DashboardCore.state d) ->
  let '(_, d1) := Dashboard.render now1 scr d in
  let '(ops, d2) := Dashboard.render now2 scr d1 in
  let state := DashboardCore.state d in
  let list :=
    match DashboardCore.previousRenderState d1 with
    | Some snapshot =>
        Heap.arrays (DashboardCore.heap d1) (RenderState.filteredPorts snapshot)
    | None => []
    end in
  d2 = d1
  /\ ops = [OpHideCursor; OpHeader (JS.length list)]
           ++ (if DashboardState.showDetails state
               then match DashboardData.getSelectedPort
                            list (DashboardState.selectedIndex state) with
                    | Some e => [OpDetails e]
                    | None => []
                    end
               else [])
           ++ [OpFooter (DashboardState.searching state)
                        (DashboardCore.searchBuffer d); OpFlush].
Proof.
  intros Hmodal Hkill Henter Hmax.
  pose proof (render_main_first now1 scr d Hmodal Hkill) as Hfirst.
  destruct (DashboardCore.getFilteredPorts d) as [fp d1].
  destruct Hfirst as (Hd1 & Hset & Hs & Hbuf).
  destruct (Dashboard.render now1 scr d) as [ops1 dA]. cbn [snd] in Hd1.
  subst dA.
  set (snap := DashboardRenderer.snapshot (DashboardCore.state d) fp).
  set (dA := DashboardCore.setPreviousRenderState d1 (Some snap)).
  assert (HsetA : DashboardCore.getFilteredPorts dA = (fp, dA)).
  { unfold dA. rewrite getFilteredPorts_setPrevious, Hset. reflexivity. }
  assert (HsA : DashboardCore.state dA = DashboardCore.state d) by exact Hs.
  unfold Dashboard.render.
  rewrite HsA, (expireKillMessage_none now2 _ Hkill), <- HsA, setState_same.
  rewrite (renderThrows_main scr (DashboardCore.state dA))
    by (rewrite HsA; exact Hmodal).
  unfold DashboardRenderer.render.
  rewrite HsA, Hmodal, HsetA. fold snap.
  change (DashboardCore.previousRenderState dA) with (Some snap).
  change (DashboardCore.searchBuffer dA) with (DashboardCore.searchBuffer d1).
  rewrite Hbuf, (canUseDelta_same _ _ fp _ Hkill Henter).
  rewrite (renderDelta_same scr snap dA fp _ HsetA)
    by (rewrite HsA; assumption).
  rewrite HsA. cbn [RenderState.filteredPorts snap DashboardRenderer.snapshot].
  change (DashboardCore.heap dA) with (DashboardCore.heap d1).
  split; reflexivity.
Qed.

Lemma render_twice_idle_witness :
  let '(_, d1) := Dashboard.render 5 Ex.screen Ex.dashTwoGroups in
  let '(ops, d2) := Dashboard.render 9 Ex.screen d1 in
  let state := DashboardCore.state Ex.dashTwoGroups in
  let list :=
    match DashboardCore.previousRenderState d1 with
    | Some snapshot =>
        Heap.arrays (DashboardCore.heap d1) (RenderState.filteredPorts snapshot)
    | None => []
    end in
  d2 = d1
  /\ ops = [OpHideCursor; OpHeader (JS.length list)]
           ++ (if DashboardState.showDetails state
               then match DashboardData.getSelectedPort
                            list (DashboardState.selectedIndex state) with
                    | Some e => [OpDetails e]
                    | None => []
                    end
               else [])
           ++ [OpFooter (DashboardState.searching state)
                        (DashboardCore.searchBuffer Ex.dashTwoGroups); OpFlush].
Proof.
  apply (render_twice_idle 5 9 Ex.screen Ex.dashTwoGroups).
  - reflexivity.
  - reflexivity.
  - reflexivity.
  - vm_compute. discriminate.
Defined.

Lemma render_full_without_previous (scr : Screen.t) (d : DashboardCore.t) :
  DashboardRenderer.anyModal (DashboardCore.state d) = false ->
  DashboardCore.previousRenderState d = None ->
  exists rest,
    fst (fst (DashboardRenderer.render scr d)) = OpClear :: OpHideCursor :: rest.
Proof.
  intros Hmodal Hprev. unfold DashboardRenderer.render.
  rewrite Hmodal, Hprev.
  destruct (DashboardCore.getFilteredPorts d) as [fp d1].
  unfold DashboardRenderer.fullRender.
  destruct (DashboardRenderer.renderMain _ _ _ _) as [ops d2]. cbn.
  eauto.
Qed.

Lemma expireKillMessage_renderThrows (now : Z) (scr : Screen.t)
      (state : DashboardState.t) :
  DashboardRenderer.renderThrows scr (Dashboard.expireKillMessage now state)
  = DashboardRenderer.renderThrows scr state.
Proof.
  unfold Dashboard.expireKillMessage.
  destruct (_ && _); [| reflexivity].
  destruct (DashboardState.killMessageExpiresAt state); [| reflexivity].
  destruct (now >? z); reflexivity.
Qed.

Lemma expireKillMessage_confirmStartX (now : Z) (scr : Screen.t)
      (state : DashboardState.t) :
  DashboardRenderer.confirmStartX scr (Dashboard.expireKillMessage now state)
  = DashboardRenderer.confirmStartX scr state.
Proof.
  unfold Dashboard.expireKillMessage.
  destruct (_ && _); [| reflexivity].
  destruct (DashboardState.killMessageExpiresAt state); [| reflexivity].
  destruct (now >? z); reflexivity.
Qed.

(** X17: a render with a modal flag set that returns is a full repaint,
    flushed, and drops the previous snapshot, so the first render after
    the modal view is left, whatever else the state then holds, is a full
    repaint too.  When the modal view is the confirmation box and the
    screen is too narrow for it, the render ends in the RangeError after
    clearing the screen and moving the cursor: nothing is flushed and the
    previous snapshot is kept. *)
Theorem modal_render_resets_snapshot (now : Z) (scr : Screen.t)
        (d : DashboardCore.t) :
  DashboardRenderer.anyModal (DashboardCore.state d) = true ->
  let '(ops, d1) := Dashboard.render now scr d in
  if Dashboard.renderThrows scr d
  then ops = [OpClear; OpHideCursor;
              OpMoveTo (DashboardRenderer.confirmStartX
                          scr (DashboardCore.state d))
                       (JS.floorDiv (Screen.height scr) 2 - 1)]
       /\ DashboardCore.previousRenderState d1
          = DashboardCore.previousRenderState d
  else DashboardCore.previousRenderState d1 = None
       /\ (exists rest, ops = OpClear :: OpHideCursor :: rest ++ [OpFlush])
       /\ forall (now' : Z) (state' : DashboardState.t),
           DashboardRenderer.anyModal state' = false ->
           exists rest,
             fst (Dashboard.render now' scr (DashboardCore.setState d1 state'))
             = OpClear :: OpHideCursor :: rest.
Proof.
  intros Hmodal. unfold Dashboard.render at 1, Dashboard.renderThrows.
  unfold DashboardRenderer.render.
  cbn [DashboardCore.setState DashboardCore.state].
  rewrite expireKillMessage_modal, Hmodal, expireKillMessage_renderThrows.
  destruct (DashboardRenderer.renderThrows scr (DashboardCore.state d)) eqn:Ht.
  - split; [| reflexivity].
    assert (Hm : DashboardRenderer.renderModal
                   scr (Dashboard.expireKillMessage now (DashboardCore.state d))
                 = [OpMoveTo (DashboardRenderer.confirmStartX
                                scr (DashboardCore.state d))
                             (JS.floorDiv (Screen.height scr) 2 - 1)]).
    { rewrite <- (expireKillMessage_renderThrows now) in Ht.
      rewrite <- (expireKillMessage_confirmStartX now).
      unfold DashboardRenderer.renderThrows in Ht.
      unfold DashboardRenderer.renderModal.
      destruct (DashboardState.showHelp _); [discriminate Ht |].
      destruct (DashboardState.showConfirm _); [| discriminate Ht].
      destruct (DashboardRenderer.renderConfirm _ _);
        [discriminate Ht | reflexivity]. }
    rewrite Hm. reflexivity.
  - cbn [DashboardCore.setPreviousRenderState DashboardCore.previousRenderState].
    split; [reflexivity | split; [eexists; cbn [app]; reflexivity |]].
    intros now' state' Hmain. unfold Dashboard.render.
    match goal with
    | |- context [DashboardRenderer.render scr ?d0] => set (dB := d0)
    end.
    assert (H : exists rest,
               fst (fst (DashboardRenderer.render scr dB))
               = OpClear :: OpHideCursor :: rest).
    { apply render_full_without_previous; [| reflexivity].
      unfold dB. cbn [DashboardCore.setState DashboardCore.state].
      now rewrite expireKillMessage_modal. }
    destruct H as [rest H].
    destruct (DashboardRenderer.render scr dB) as [[ops r] d2].
    cbn [fst] in H. subst ops. exists rest.
    destruct (DashboardRenderer.renderThrows scr (DashboardCore.state dB));
      reflexivity.
Qed.

Lemma modal_render_resets_snapshot_witness :
  let '(ops, d1) :=
    Dashboard.render 5 Ex.screen
      (DashboardCore.mk (Ex.commandState "ls -la") "" None
                        (Some (Ex.snap 0%nat)) Heap.empty) in
  if Dashboard.renderThrows
       Ex.screen
       (DashboardCore.mk (Ex.commandState "ls -la") "" None
                         (Some (Ex.snap 0%nat)) Heap.empty)
  then ops = [OpClear; OpHideCursor;
              OpMoveTo (DashboardRenderer.confirmStartX
                          Ex.screen (Ex.commandState "ls -la"))
                       (JS.floorDiv (Screen.height Ex.screen) 2 - 1)]
       /\ DashboardCore.previousRenderState d1 = Some (Ex.snap 0%nat)
  else DashboardCore.previousRenderState d1 = None
       /\ (exists rest, ops = OpClear :: OpHideCursor :: rest ++ [OpFlush])
       /\ forall (now' : Z) (state' : DashboardState.t),
           DashboardRenderer.anyModal state' = false ->
           exists rest,
             fst (Dashboard.render now' Ex.screen
                                   (DashboardCore.setState d1 state'))
             = OpClear :: OpHideCursor :: rest.
Proof.
  apply (modal_render_resets_snapshot
           5 Ex.screen
           (DashboardCore.mk (Ex.commandState "ls -la") "" None
                             (Some (Ex.snap 0%nat)) Heap.empty)).
  reflexivity.
Defined.

(* ===================================================================== *)
(** ** Further properties: typing a search                                *)
(* ===================================================================== *)

Lemma expireKillMessage_fields (now : Z) (state : DashboardState.t) :
  let state' := Dashboard.expireKillMessage now state in
  DashboardState.groups state' = DashboardState.groups state
  /\ DashboardState.selectedIndex state' = DashboardState.selectedIndex state
  /\ DashboardState.filter state' = DashboardState.filter state
  /\ DashboardState.sortBy state' = DashboardState.sortBy state
  /\ DashboardState.searching state' = DashboardState.searching state.
Proof.
  cbv zeta. unfold Dashboard.expireKillMessage.
  destruct (_ && _); [| tauto].
  destruct (DashboardState.killMessageExpiresAt state); [| tauto].
  destruct (now >? z); cbn; tauto.
Qed.

(** What [Dashboard.render] leaves behind. *)
Lemma Dashboard_render_post (now : Z) (scr : Screen.t) (d : DashboardCore.t) :
  let state0 := Dashboard.expireKillMessage now (DashboardCore.state d) in
  let d0 := DashboardCore.setState d state0 in
  let '(fp, d1) := DashboardCore.getFilteredPorts d0 in
  let d' := snd (Dashboard.render now scr d) in
  DashboardCore.state d' = state0
  /\ DashboardCore.searchBuffer d' = DashboardCore.searchBuffer d
  /\ (DashboardRenderer.anyModal state0 = false ->
      d' = DashboardCore.setPreviousRenderState
             d1 (Some (DashboardRenderer.snapshot state0 fp))).
Proof.
  cbv zeta. unfold Dashboard.render.
  set (state0 := Dashboard.expireKillMessage now (DashboardCore.state d)).
  set (d0 := DashboardCore.setState d state0).
  pose proof (render_state scr d0) as Hstate.
  pose proof (render_main_result scr d0) as Hmain.
  pose proof (core_getFilteredPorts_post d0) as Hpost.
  destruct (DashboardCore.getFilteredPorts d0) as [fp d1].
  destruct Hpost as (Hs & Hbuf & _).
  change (DashboardCore.state d0) with state0 in *.
  destruct (DashboardRenderer.anyModal state0) eqn:Hmodal.
  - unfold DashboardRenderer.render in *.
    change (DashboardCore.state d0) with state0 in *. rewrite Hmodal in *.
    destruct (DashboardRenderer.renderThrows scr state0);
      cbn; repeat split; discriminate.
  - specialize (Hmain eq_refl). destruct Hmain as [Hsnap Hd].
    rewrite (renderThrows_main scr state0 Hmodal).
    destruct (DashboardRenderer.render scr d0) as [[ops r] d2].
    cbn [fst snd] in *. subst r d2. cbn. repeat split; assumption.
Qed.

Lemma sliceLast_app_key (buffer key : string) :
  JS.isDigitKey key = true -> JS.sliceLast (buffer ++ key)%string = buffer.
Proof.
  intros Hkey. destruct key as [| c [| c' key]]; try discriminate Hkey.
  clear Hkey. induction buffer as [| b buffer IH]; [reflexivity |].
  cbn [String.append JS.sliceLast]. rewrite IH.
  destruct buffer; reflexivity.
Qed.

Lemma allDigits_app_key (buffer key : string) :
  Spec.allDigits buffer = true -> JS.isDigitKey key = true ->
  Spec.allDigits (buffer ++ key)%string = true.
Proof.
  intros Hb Hkey. destruct key as [| c [| c' key]]; try discriminate Hkey.
  unfold JS.isDigitKey in Hkey.
  induction buffer as [| b buffer IH]; cbn [String.append Spec.allDigits] in *.
  - apply andb_true_iff. split; [exact Hkey | reflexivity].
  - apply andb_true_iff in Hb. destruct Hb as [Hb1 Hb2].
    now rewrite Hb1, IH.
Qed.

Lemma allDigits_sliceLast (buffer : string) :
  Spec.allDigits buffer = true -> Spec.allDigits (JS.sliceLast buffer) = true.
Proof.
  induction buffer as [| b buffer IH]; [reflexivity |].
  intros H. cbn [Spec.allDigits] in H. apply andb_true_iff in H.
  destruct H as [H1 H2]. destruct buffer as [| b' buffer]; [reflexivity |].
  change (JS.sliceLast (String b (String b' buffer)))
    with (String b (JS.sliceLast (String b' buffer))).
  cbn [Spec.allDigits]. now rewrite H1, (IH H2).
Qed.

(** The dashboard handed to [render] by the search handler. *)
Lemma onKey_handled (now : Z) (scr : Screen.t) (d : DashboardCore.t)
      (key buffer : string) :
  DashboardState.searching (DashboardCore.state d) = true ->
  (JS.isDigitKey key = true
   /\ buffer = (DashboardCore.searchBuffer d ++ key)%string)
  \/ (key = "backspace"
      /\ buffer = JS.sliceLast (DashboardCore.searchBuffer d)) ->
  Dashboard.onKey now scr d key
  = Dashboard.render now scr
      (DashboardCore.clearFilteredPortsCache
         (DashboardCore.setState
            (DashboardCore.setSearchBuffer d buffer)
            (DashboardState.setFilter (DashboardCore.state d) buffer))).
Proof.
  intros Hs [[Hkey ->] | [-> ->]]; unfold Dashboard.onKey; rewrite Hs; cbn [andb].
  - now rewrite Hkey.
  - reflexivity.
Qed.

(** X18: the search input handler.  While searching, after a digit key
    the search buffer is the old one with the digit appended, after
    backspace it is the old one without its last character, and in both
    cases the filter equals the buffer and the buffer holds only digits
    if it did before; on any other key, and on any key outside search
    mode, this handler draws nothing and changes nothing. *)
Theorem onKey_search_buffer (now : Z) (scr : Screen.t) (d : DashboardCore.t)
        (key : string) :
  let '(ops, d') := Dashboard.onKey now scr d key in
  let searching := DashboardState.searching (DashboardCore.state d) in
  let buffer := DashboardCore.searchBuffer d in
  let buffer' := DashboardCore.searchBuffer d' in
  (searching = true -> JS.isDigitKey key = true ->
   buffer' = (buffer ++ key)%string)
  /\ (searching = true -> key = "backspace" -> buffer' = JS.sliceLast buffer)
  /\ (searching = true -> JS.isDigitKey key = true \/ key = "backspace" ->
      DashboardState.filter (DashboardCore.state d') = buffer'
      /\ (Spec.allDigits buffer = true -> Spec.allDigits buffer' = true))
  /\ (searching = false \/ (JS.isDigitKey key = false /\ key <> "backspace") ->
      ops = [] /\ d' = d).
Proof.
  assert (Hpost : forall buffer,
    let dK := DashboardCore.clearFilteredPortsCache
                (DashboardCore.setState
                   (DashboardCore.setSearchBuffer d buffer)
                   (DashboardState.setFilter (DashboardCore.state d) buffer)) in
    DashboardCore.searchBuffer (snd (Dashboard.render now scr dK)) = buffer
    /\ DashboardState.filter
         (DashboardCore.state (snd (Dashboard.render now scr dK))) = buffer).
  { intros buffer dK. pose proof (Dashboard_render_post now scr dK) as H.
    cbv zeta in H. destruct (DashboardCore.getFilteredPorts _) as [fp d1].
    destruct H as (Hs & Hb & _). rewrite Hs, Hb.
    split; [reflexivity |].
    now rewrite (proj1 (proj2 (proj2 (expireKillMessage_fields now _)))). }
  destruct (DashboardState.searching (DashboardCore.state d)) eqn:Hs.
  - destruct (JS.isDigitKey key) eqn:Hkey.
    + rewrite (onKey_handled now scr d key _ Hs (or_introl (conj Hkey eq_refl))).
      specialize (Hpost (DashboardCore.searchBuffer d ++ key)%string).
      cbv zeta in Hpost. destruct (Dashboard.render _ _ _) as [ops d'].
      cbn [snd] in Hpost. destruct Hpost as [Hb Hf]. cbv zeta.
      rewrite Hb, Hf. split; [| split; [| split]].
      * reflexivity.
      * intros _ Hback. subst key. discriminate Hkey.
      * intros _ _. split; [reflexivity |].
        intros Hd. now apply allDigits_app_key.
      * intros [H | [H _]]; discriminate H.
    + destruct (String.eqb_spec key "backspace") as [Hback | Hne].
      * subst key.
        rewrite (onKey_handled now scr d "backspace" _ Hs
                   (or_intror (conj eq_refl eq_refl))).
        specialize (Hpost (JS.sliceLast (DashboardCore.searchBuffer d))).
        cbv zeta in Hpost. destruct (Dashboard.render _ _ _) as [ops d'].
        cbn [snd] in Hpost. destruct Hpost as [Hb Hf]. cbv zeta.
        rewrite Hb, Hf. split; [| split; [| split]].
        -- intros _ H. discriminate H.
        -- reflexivity.
        -- intros _ _. split; [reflexivity |].
           intros Hd. now apply allDigits_sliceLast.
        -- intros [H | [_ H]]; [discriminate H | congruence].
      * unfold Dashboard.onKey. rewrite Hs, Hkey. cbn [andb].
        destruct (String.eqb_spec key "backspace") as [E | _]; [contradiction |].
        cbv zeta. split; [| split; [| split]].
        -- intros _ H. discriminate H.
        -- intros _ H. contradiction.
        -- intros _ [H | H]; [discriminate H | contradiction].
        -- intros _. split; reflexivity.
  - unfold Dashboard.onKey. rewrite Hs. cbn [andb]. cbv zeta.
    split; [| split; [| split]].
    + intros H. discriminate H.
    + intros H. discriminate H.
    + intros H. discriminate H.
    + intros _. split; reflexivity.
Qed.

(** The buffer, the filter and the search flag after a handled key. *)
Lemma onKey_after (now : Z) (scr : Screen.t) (d : DashboardCore.t)
      (key buffer : string) :
  DashboardState.searching (DashboardCore.state d) = true ->
  (JS.isDigitKey key = true
   /\ buffer = (DashboardCore.searchBuffer d ++ key)%string)
  \/ (key = "backspace"
      /\ buffer = JS.sliceLast (DashboardCore.searchBuffer d)) ->
  let d' := snd (Dashboard.onKey now scr d key) in
  DashboardCore.searchBuffer d' = buffer
  /\ DashboardState.filter (DashboardCore.state d') = buffer
  /\ DashboardState.searching (DashboardCore.state d') = true
  /\ DashboardState.groups (DashboardCore.state d')
     = DashboardState.groups (DashboardCore.state d)
  /\ (DashboardRenderer.anyModal (DashboardCore.state d) = false ->
      exists snapshot,
        DashboardCore.previousRenderState d' = Some snapshot
        /\ RenderState.filter snapshot = buffer
        /\ Heap.arrays (DashboardCore.heap d')
                       (RenderState.filteredPorts snapshot)
           = Spec.flatten buffer (DashboardState.groups (DashboardCore.state d))).
Proof.
  intros Hs Hkey. cbv zeta.
  rewrite (onKey_handled now scr d key buffer Hs Hkey).
  set (dK := DashboardCore.clearFilteredPortsCache _).
  pose proof (Dashboard_render_post now scr dK) as H. cbv zeta in H.
  pose proof (expireKillMessage_fields now (DashboardCore.state dK)) as Hf.
  cbv zeta in Hf. destruct Hf as (Hg & _ & Hfil & _ & Hsrch).
  pose proof (expireKillMessage_modal now (DashboardCore.state dK)) as Hmod.
  set (d0 := DashboardCore.setState dK _) in *.
  pose proof (core_getFilteredPorts_miss d0 (or_introl eq_refl)) as Hmiss.
  destruct (DashboardCore.getFilteredPorts d0) as [fp d1].
  destruct H as (Hst & Hbuf & Hmain).
  rewrite Hst, Hbuf, Hfil, Hsrch, Hg.
  repeat split; try assumption; try reflexivity.
  intros Hmodal. rewrite Hmain by (rewrite Hmod; exact Hmodal).
  eexists. split; [reflexivity |]. cbn [RenderState.filter
    DashboardRenderer.snapshot RenderState.filteredPorts
    DashboardCore.setPreviousRenderState DashboardCore.heap].
  split; [exact Hfil |].
  rewrite Hmiss. unfold d0. cbn [DashboardCore.setState DashboardCore.state].
  now rewrite Hfil, Hg.
Qed.

(** X19: while searching, typing a digit and then backspace leaves the
    search buffer as it was and the filter equal to it. *)
Theorem onKey_digit_then_backspace (now1 now2 : Z) (scr : Screen.t)
        (d : DashboardCore.t) (key : string) :
  DashboardState.searching (DashboardCore.state d) = true ->
  JS.isDigitKey key = true ->
  let '(_, d1) := Dashboard.onKey now1 scr d key in
  let '(_, d2) := Dashboard.onKey now2 scr d1 "backspace" in
  DashboardCore.searchBuffer d2 = DashboardCore.searchBuffer d
  /\ DashboardState.filter (DashboardCore.state d2)
     = DashboardCore.searchBuffer d.
Proof.
  intros Hs Hkey.
  pose proof (onKey_after now1 scr d key _ Hs (or_introl (conj Hkey eq_refl)))
    as H1. cbv zeta in H1.
  destruct (Dashboard.onKey now1 scr d key) as [ops1 d1]. cbn [snd] in H1.
  destruct H1 as (Hb1 & _ & Hs1 & _).
  pose proof (onKey_after now2 scr d1 "backspace" _ Hs1
                (or_intror (conj eq_refl eq_refl))) as H2. cbv zeta in H2.
  destruct (Dashboard.onKey now2 scr d1 "backspace") as [ops2 d2].
  cbn [snd] in H2. destruct H2 as (Hb2 & Hf2 & _).
  rewrite Hb2, Hf2, Hb1. split; now apply sliceLast_app_key.
Qed.

Lemma onKey_digit_then_backspace_witness :
  let '(_, d1) := Dashboard.onKey 5 Ex.screen (Ex.dashSearch "30") "7" in
  let '(_, d2) := Dashboard.onKey 6 Ex.screen d1 "backspace" in
  DashboardCore.searchBuffer d2 = DashboardCore.searchBuffer (Ex.dashSearch "30")
  /\ DashboardState.filter (DashboardCore.state d2)
     = DashboardCore.searchBuffer (Ex.dashSearch "30").
Proof.
  apply (onKey_digit_then_backspace 5 6 Ex.screen (Ex.dashSearch "30") "7");
    reflexivity.
Defined.

(** X20: while searching in the main view, the frame drawn for a digit or
    backspace key is drawn from a list computed for the new buffer: the
    snapshot kept after the key has the buffer as its filter, and its list
    is the flattening of the groups under that filter, never a list cached
    for an earlier buffer. *)
Theorem onKey_frame_is_fresh (now : Z) (scr : Screen.t) (d : DashboardCore.t)
        (key : string) :
  DashboardState.searching (DashboardCore.state d) = true ->
  JS.isDigitKey key = true \/ key = "backspace" ->
  DashboardRenderer.anyModal (DashboardCore.state d) = false ->
  let '(_, d') := Dashboard.onKey now scr d key in
  exists snapshot,
    DashboardCore.previousRenderState d' = Some snapshot
    /\ RenderState.filter snapshot = DashboardCore.searchBuffer d'
    /\ Heap.arrays (DashboardCore.heap d') (RenderState.filteredPorts snapshot)
       = DashboardData.recalculate
           (DashboardCore.searchBuffer d')
           (DashboardState.groups (DashboardCore.state d')).
Proof.
  intros Hs Hkey Hmodal.
  assert (Hcase : exists buffer,
    (JS.isDigitKey key = true
     /\ buffer = (DashboardCore.searchBuffer d ++ key)%string)
    \/ (key = "backspace"
        /\ buffer = JS.sliceLast (DashboardCore.searchBuffer d))).
  { destruct Hkey as [Hk | Hk]; eexists; [left | right]; split;
      (exact Hk || reflexivity). }
  destruct Hcase as [buffer Hcase].
  pose proof (onKey_after now scr d key buffer Hs Hcase) as H. cbv zeta in H.
  destruct (Dashboard.onKey now scr d key) as [ops d']. cbn [snd] in H.
  destruct H as (Hb & _ & _ & Hg & Hsnap).
  destruct (Hsnap Hmodal) as (snapshot & Hp & Hf & Harr).
  exists snapshot. rewrite Hb, Hg, recalculate_flatten. tauto.
Qed.

Lemma onKey_frame_is_fresh_witness :
  let '(_, d') := Dashboard.onKey 5 Ex.screen (Ex.dashSearch "8") "0" in
  exists snapshot,
    DashboardCore.previousRenderState d' = Some snapshot
    /\ RenderState.filter snapshot = DashboardCore.searchBuffer d'
    /\ Heap.arrays (DashboardCore.heap d') (RenderState.filteredPorts snapshot)
       = DashboardData.recalculate
           (DashboardCore.searchBuffer d')
           (DashboardState.groups (DashboardCore.state d')).
Proof.
  apply (onKey_frame_is_fresh 5 Ex.screen (Ex.dashSearch "8") "0").
  - reflexivity.
  - left. reflexivity.
  - reflexivity.
Defined.

(* ===================================================================== *)
(** ** Further properties: refresh                                        *)
(* ===================================================================== *)

Lemma adjustSelectedIndex_nonneg_valid (l : list Entry.t) (i : Z) :
  0 <= i -> Spec.validIndex l (DashboardData.adjustSelectedIndex l i).
Proof.
  intros Hi. unfold DashboardData.adjustSelectedIndex, Spec.validIndex.
  pose proof (length_nonneg l) as Hl.
  pose proof (length_nil_iff l) as Hnil.
  destruct (Z.geb_spec i (JS.length l)).
  - destruct (Z.eq_dec (JS.length l) 0) as [E | E].
    + right. split; [tauto | lia].
    + left. lia.
  - left. lia.
Qed.

(** X21: a refresh that succeeds, on a dashboard started without a sort
    option, stores the new groups sorted by the state's sort key, leaves
    the filter alone, ends with an empty cache slot, and re-clamps the
    selection against the list flattened from the new groups: a selected
    index that was not negative is valid for that list afterwards. *)
Theorem refresh_reclamps_selection (localeCompare : string -> string -> Z)
        (applyFiltersToGroups :
           list PortGroup.t -> Dashboard.FilterOptions -> list PortGroup.t)
        (options : Dashboard.FilterOptions) (resultGroups : list PortGroup.t)
        (d : DashboardCore.t) :
  JS.truthy_opt (Dashboard.optSort options) = false ->
  let d' :=
    Dashboard.refresh localeCompare applyFiltersToGroups options
                      (Some resultGroups) d in
  let state := DashboardCore.state d in
  let state' := DashboardCore.state d' in
  let list :=
    DashboardData.recalculate (DashboardState.filter state')
                              (DashboardState.groups state') in
  DashboardCore.filteredPortsCache d' = None
  /\ DashboardState.filter state' = DashboardState.filter state
  /\ DashboardState.groups state'
     = DashboardData.applySorting
         localeCompare
         (if JS.truthy_opt (Dashboard.optType options)
             || JS.truthy_opt (Dashboard.optUser options)
             || JS.truthy_opt (Dashboard.optProcess options)
          then applyFiltersToGroups resultGroups options
          else resultGroups)
         (DashboardState.sortBy state)
  /\ DashboardState.selectedIndex state'
     = DashboardData.adjustSelectedIndex
         list (DashboardState.selectedIndex state)
  /\ (0 <= DashboardState.selectedIndex state ->
      Spec.validIndex list (DashboardState.selectedIndex state')).
Proof.
  intros Hsort.
  assert (Hd2 : forall d1,
    match Dashboard.optSort options with
    | Some sortOption =>
        if JS.truthy sortOption
        then DashboardCore.setState d1
               (DashboardState.setGroups (DashboardCore.state d1)
                  (DashboardData.applyCLISorting localeCompare
                     (DashboardState.groups (DashboardCore.state d1))
                     sortOption))
        else DashboardCore.applySorting localeCompare d1
    | None => DashboardCore.applySorting localeCompare d1
    end
    = DashboardCore.applySorting localeCompare d1).
  { intros d1. unfold JS.truthy_opt in Hsort.
    destruct (Dashboard.optSort options) as [s |]; [| reflexivity].
    now rewrite Hsort. }
  unfold Dashboard.refresh. cbv zeta. rewrite Hd2. clear Hd2.
  set (d2 := DashboardCore.applySorting localeCompare _).
  pose proof (core_getFilteredPorts_miss d2 (or_introl eq_refl)) as Hmiss.
  pose proof (core_getFilteredPorts_post d2) as Hpost.
  destruct (DashboardCore.getFilteredPorts d2) as [fp d3].
  destruct Hpost as (Hs3 & _).
  cbn [DashboardCore.clearFilteredPortsCache DashboardCore.setState
       DashboardCore.state DashboardCore.filteredPortsCache
       DashboardState.setSelectedIndex DashboardState.filter
       DashboardState.groups DashboardState.selectedIndex].
  rewrite Hs3, Hmiss, recalculate_flatten.
  unfold d2. cbn [DashboardCore.applySorting DashboardCore.clearFilteredPortsCache
    DashboardCore.setState DashboardCore.state DashboardState.setGroups
    DashboardState.filter DashboardState.groups DashboardState.sortBy
    DashboardState.selectedIndex].
  repeat split. intros Hi. now apply adjustSelectedIndex_nonneg_valid.
Qed.

Lemma refresh_reclamps_selection_witness :
  let d' :=
    Dashboard.refresh Ex.byteCompare Ex.keepGroups Ex.noOptions
                      (Some Ex.groupsAfter) Ex.dashTwoGroups in
  DashboardCore.filteredPortsCache d' = None
  /\ DashboardState.groups (DashboardCore.state d')
     = DashboardData.applySorting Ex.byteCompare Ex.groupsAfter SortPort
  /\ Spec.validIndex
       (DashboardData.recalculate
          (DashboardState.filter (DashboardCore.state d'))
          (DashboardState.groups (DashboardCore.state d')))
       (DashboardState.selectedIndex (DashboardCore.state d')).
Proof.
  pose proof (refresh_reclamps_selection
                Ex.byteCompare Ex.keepGroups Ex.noOptions Ex.groupsAfter
                Ex.dashTwoGroups eq_refl) as H.
  cbv zeta in H. destruct H as (H1 & _ & H3 & _ & H5).
  split; [exact H1 | split; [exact H3 | apply H5]].
  vm_compute. discriminate.
Defined.

(* ===================================================================== *)
(** ** Further properties: the text views and the confirmation box        *)
(* ===================================================================== *)

Lemma get_cons_pos {A : Type} (x : A) (l : list A) (i : Z) :
  0 < i -> JS.get (x :: l) i = JS.get l (i - 1).
Proof.
  intros Hi. unfold JS.get.
  destruct (Z.ltb_spec i 0); [lia |].
  destruct (Z.ltb_spec (i - 1) 0); [lia |].
  replace (Z.to_nat i) with (S (Z.to_nat (i - 1))) by lia. reflexivity.
Qed.

Lemma textLines_In (truncate : string -> Z -> string) (width height : Z)
      (lines : list string) (y row : Z) (text : string) :
  In (row, text) (DashboardRenderer.textLines truncate width height lines y)
  <-> y <= row < height - 2
      /\ exists line,
           JS.get lines (row - y) = Some line /\ text = truncate line width.
Proof.
  revert y. induction lines as [| line rest IH]; intros y.
  - cbn. split; [tauto |]. intros (_ & l & Hget & _).
    unfold JS.get in Hget. destruct (row - y <? 0); [discriminate |].
    now destruct (Z.to_nat (row - y)).
  - cbn [DashboardRenderer.textLines].
    destruct (Z.geb_spec y (height - 2)) as [Hge | Hlt].
    + cbn. split; [tauto | lia].
    + cbn [In]. rewrite IH. split.
      * intros [E | (Hr & l & Hget & Ht)].
        -- inversion E; subst. split; [lia |]. exists line.
           now rewrite Z.sub_diag.
        -- split; [lia |]. exists l. split; [| exact Ht].
           rewrite get_cons_pos by lia.
           now replace (row - y - 1) with (row - (y + 1)) by lia.
      * intros (Hr & l & Hget & Ht).
        destruct (Z.eq_dec row y) as [E | Hne].
        -- left. subst row. rewrite Z.sub_diag in Hget. cbn in Hget.
           inversion Hget; subst. reflexivity.
        -- right. split; [lia |]. exists l. split; [| exact Ht].
           rewrite get_cons_pos in Hget by lia.
           now replace (row - (y + 1)) with (row - y - 1) by lia.
Qed.

Lemma textBody_In (truncate : string -> Z -> string) (scr : Screen.t)
      (content : option string) (row : Z) (text : string) :
  In (row, text) (DashboardRenderer.textBody truncate scr content)
  <-> exists body line,
        content = Some body /\ body <> ""
        /\ 2 <= row < Screen.height scr - 2
        /\ JS.get (JS.split "010"%char body) (row - 2) = Some line
        /\ text = truncate line (Screen.width scr).
Proof.
  unfold DashboardRenderer.textBody. destruct content as [body |].
  - destruct (JS.truthy body) eqn:Ht.
    + rewrite textLines_In. apply truthy_iff in Ht. split.
      * intros (Hr & line & Hget & Htext). now exists body, line.
      * intros (b & line & Hb & _ & Hr & Hget & Htext).
        inversion Hb; subst b. split; [exact Hr |]. now exists line.
    + split; [intros [] |]. intros (b & line & Hb & Hne & _).
      inversion Hb; subst b. apply truthy_iff in Hne. congruence.
  - split; [intros [] |]. intros (b & line & Hb & _). discriminate.
Qed.

(** X22: the logs view and the stats view write exactly the rows 2 up to
    (not including) height - 2, one per line of the text, in order: row
    [r] carries line [r - 2] of the text split at newlines, truncated to
    the screen width.  Nothing is written for a missing or empty text,
    the title rows 0 and 1 and the two bottom rows are never written, and
    the lines that do not fit are dropped. *)
Theorem renderLogs_renderStats_rows (truncate : string -> Z -> string)
        (scr : Screen.t) (state : DashboardState.t) (row : Z)
        (text : string) :
  (In (row, text) (DashboardRenderer.renderLogs truncate scr state)
   <-> exists body line,
         DashboardState.logsContent state = Some body /\ body <> ""
         /\ 2 <= row < Screen.height scr - 2
         /\ JS.get (JS.split "010"%char body) (row - 2) = Some line
         /\ text = truncate line (Screen.width scr))
  /\ (In (row, text) (DashboardRenderer.renderStats truncate scr state)
      <-> exists body line,
            DashboardState.statsContent state = Some body /\ body <> ""
            /\ 2 <= row < Screen.height scr - 2
            /\ JS.get (JS.split "010"%char body) (row - 2) = Some line
            /\ text = truncate line (Screen.width scr)).
Proof.
  split; apply textBody_In.
Qed.

(** X23: the confirmation box.  Drawing it fails (the repeat count of the
    border is negative) exactly when the screen is narrower than 6
    columns.  When it is drawn, the box lies between column 2 and column
    width - 2; and when the message with its padding fits the screen
    (length + 8 <= width) the box is four columns wider than the message,
    which then ends two columns before the right edge of the box. *)
Theorem renderConfirm_box (scr : Screen.t) (state : DashboardState.t) :
  (DashboardRenderer.renderConfirm scr state = None <-> Screen.width scr < 6)
  /\ forall box,
       DashboardRenderer.renderConfirm scr state = Some box ->
       2 <= DashboardRenderer.boxX box
       /\ DashboardRenderer.boxX box + DashboardRenderer.boxWidth box
          <= Screen.width scr - 2
       /\ (JS.len (DashboardState.confirmMessage state) + 8 <= Screen.width scr ->
           DashboardRenderer.boxWidth box
           = JS.len (DashboardState.confirmMessage state) + 4
           /\ DashboardRenderer.boxMessageX box
              + JS.len (DashboardState.confirmMessage state) + 2
              = DashboardRenderer.boxX box + DashboardRenderer.boxWidth box).
Proof.
  unfold DashboardRenderer.renderConfirm, JS.floorDiv. cbv zeta.
  set (n := JS.len (DashboardState.confirmMessage state)).
  assert (Hn : 0 <= n) by (unfold n, JS.len; lia).
  set (w := Screen.width scr).
  destruct (Z.ltb_spec (Z.min (n + 4) (w - 4) - 2) 0) as [Hlt | Hge].
  - split; [split; [lia | reflexivity] | discriminate].
  - split; [split; [discriminate | lia] |].
    intros box E. inversion E; subst box; clear E.
    cbn [DashboardRenderer.boxX DashboardRenderer.boxWidth
         DashboardRenderer.boxMessageX].
    pose proof (Z.div_mod w 2 ltac:(lia)) as Hw.
    pose proof (Z.mod_pos_bound w 2 ltac:(lia)) as Hw2.
    pose proof (Z.div_mod (Z.min (n + 4) (w - 4)) 2 ltac:(lia)) as Hm.
    pose proof (Z.mod_pos_bound (Z.min (n + 4) (w - 4)) 2 ltac:(lia)) as Hm2.
    repeat split; lia.
Qed.

(* ===================================================================== *)
(** ** Further properties: killer ranks                                   *)
(* ===================================================================== *)

(** The rank of a kill count, by the thresholds it has reached. *)
Lemma getCurrentRank_cases (kills : Z) :
  (kills < 10 /\ KillerRanks.getCurrentRank kills = KillerRanks.junior)
  \/ (10 <= kills < 25
      /\ KillerRanks.getCurrentRank kills = KillerRanks.associate)
  \/ (25 <= kills < 50
      /\ KillerRanks.getCurrentRank kills = KillerRanks.midLevel)
  \/ (50 <= kills < 100
      /\ KillerRanks.getCurrentRank kills = KillerRanks.senior)
  \/ (100 <= kills < 250
      /\ KillerRanks.getCurrentRank kills = KillerRanks.lead)
  \/ (250 <= kills < 500
      /\ KillerRanks.getCurrentRank kills = KillerRanks.principal)
  \/ (500 <= kills < 1000
      /\ KillerRanks.getCurrentRank kills = KillerRanks.staff)
  \/ (1000 <= kills
      /\ KillerRanks.getCurrentRank kills = KillerRanks.distinguished).
Proof.
  unfold KillerRanks.getCurrentRank, KillerRanks.KILLER_RANKS.
  cbn [KillerRanks.rankLoop KillerRank.minKills KillerRanks.junior
       KillerRanks.associate KillerRanks.midLevel KillerRanks.senior
       KillerRanks.lead KillerRanks.principal KillerRanks.staff
       KillerRanks.distinguished].
  destruct (Z.geb_spec kills 1);
    [| left; split; [lia | reflexivity]].
  destruct (Z.geb_spec kills 10);
    [| left; split; [lia | reflexivity]].
  destruct (Z.geb_spec kills 25);
    [| right; left; split; [lia | reflexivity]].
  destruct (Z.geb_spec kills 50);
    [| right; right; left; split; [lia | reflexivity]].
  destruct (Z.geb_spec kills 100);
    [| right; right; right; left; split; [lia | reflexivity]].
  destruct (Z.geb_spec kills 250);
    [| right; right; right; right; left; split; [lia | reflexivity]].
  destruct (Z.geb_spec kills 500);
    [| right; right; right; right; right; left; split; [lia | reflexivity]].
  destruct (Z.geb_spec kills 1000);
    [| right; right; right; right; right; right; left;
       split; [lia | reflexivity]].
  right; right; right; right; right; right; right. split; [lia | reflexivity].
Qed.

Lemma KILLER_RANKS_all (P : KillerRank.t -> Prop) :
  P KillerRanks.junior -> P KillerRanks.associate ->
  P KillerRanks.midLevel -> P KillerRanks.senior ->
  P KillerRanks.lead -> P KillerRanks.principal ->
  P KillerRanks.staff -> P KillerRanks.distinguished ->
  forall rank, In rank KillerRanks.KILLER_RANKS -> P rank.
Proof.
  intros H1 H2 H3 H4 H5 H6 H7 H8 rank Hin.
  unfold KillerRanks.KILLER_RANKS in Hin. cbn [In] in Hin.
  repeat match goal with
  | H : _ \/ _ |- _ => destruct H as [<- | H]
  end; tauto.
Qed.

Ltac rank_facts kills H :=
  destruct (getCurrentRank_cases kills)
    as [[? H] | [[? H] | [[? H] | [[? H] | [[? H] | [[? H] | [[? H] | [? H]]]]]]]].

(** X24: [getCurrentRank] returns a rank of the table; once the first
    threshold is reached it is the highest rank whose threshold the kill
    count has reached, and below the first threshold (no kills yet) it is
    still the first rank. *)
Theorem getCurrentRank_highest (totalKills : Z) :
  let rank := KillerRanks.getCurrentRank totalKills in
  In rank KillerRanks.KILLER_RANKS
  /\ (1 <= totalKills ->
      KillerRank.minKills rank <= totalKills
      /\ forall other,
           In other KillerRanks.KILLER_RANKS ->
           KillerRank.minKills other <= totalKills ->
           KillerRank.minKills other <= KillerRank.minKills rank)
  /\ (totalKills < 1 -> rank = KillerRanks.junior).
Proof.
  cbv zeta. rank_facts totalKills E; rewrite E;
    (split; [unfold KillerRanks.KILLER_RANKS; cbn [In]; tauto |]);
    (split; [| intros; reflexivity || lia]);
    intros H1; (split; [cbn; lia |]);
    refine (KILLER_RANKS_all (fun r => _) _ _ _ _ _ _ _ _); cbn; lia.
Qed.

(** X25: a promotion is announced exactly when the kill count crosses the
    threshold of a rank other than the first.  For kill counts that do
    not decrease, [checkRankUp] returns a rank iff some rank of the table
    with a threshold above 1 has its threshold above the previous count
    and at most the current count; the rank returned is the current one,
    and is strictly higher than the previous one.  In particular the
    first kill (0 to 1) announces nothing. *)
Theorem checkRankUp_crossing (previousKills currentKills : Z) :
  previousKills <= currentKills ->
  (KillerRanks.checkRankUp previousKills currentKills <> None
   <-> exists rank,
         In rank KillerRanks.KILLER_RANKS
         /\ 1 < KillerRank.minKills rank
         /\ previousKills < KillerRank.minKills rank <= currentKills)
  /\ forall rank,
       KillerRanks.checkRankUp previousKills currentKills = Some rank ->
       rank = KillerRanks.getCurrentRank currentKills
       /\ KillerRank.minKills (KillerRanks.getCurrentRank previousKills)
          < KillerRank.minKills rank
       /\ previousKills < KillerRank.minKills rank <= currentKills.
Proof.
  intros Hle. unfold KillerRanks.checkRankUp. cbv zeta.
  assert (Hno : forall (P : KillerRank.t -> Prop),
            (forall rank, In rank KillerRanks.KILLER_RANKS -> ~ P rank) ->
            ~ exists rank, In rank KillerRanks.KILLER_RANKS /\ P rank).
  { intros P H (rank & Hin & HP). exact (H rank Hin HP). }
  rank_facts previousKills Ep; rank_facts currentKills Ec;
    try lia; rewrite Ep, Ec; cbn;
    (split;
     [ split;
       [ intros Hne; try congruence;
         first
           [ exists KillerRanks.distinguished;
             split; [unfold KillerRanks.KILLER_RANKS; cbn [In]; tauto
                    | cbn; lia]
           | exists KillerRanks.staff;
             split; [unfold KillerRanks.KILLER_RANKS; cbn [In]; tauto
                    | cbn; lia]
           | exists KillerRanks.principal;
             split; [unfold KillerRanks.KILLER_RANKS; cbn [In]; tauto
                    | cbn; lia]
           | exists KillerRanks.lead;
             split; [unfold KillerRanks.KILLER_RANKS; cbn [In]; tauto
                    | cbn; lia]
           | exists KillerRanks.senior;
             split; [unfold KillerRanks.KILLER_RANKS; cbn [In]; tauto
                    | cbn; lia]
           | exists KillerRanks.midLevel;
             split; [unfold KillerRanks.KILLER_RANKS; cbn [In]; tauto
                    | cbn; lia]
           | exists KillerRanks.associate;
             split; [unfold KillerRanks.KILLER_RANKS; cbn [In]; tauto
                    | cbn; lia] ]
       | intros Hex; try discriminate; exfalso; revert Hex; apply Hno;
         refine (KILLER_RANKS_all (fun r => _) _ _ _ _ _ _ _ _); cbn; lia ]
     | intros rank E; try discriminate; inversion E; subst rank;
       cbn; repeat split; lia ]).
Qed.

Lemma checkRankUp_crossing_witness :
  9 <= 10
  /\ forall rank,
       KillerRanks.checkRankUp 9 10 = Some rank ->
       rank = KillerRanks.getCurrentRank 10
       /\ KillerRank.minKills (KillerRanks.getCurrentRank 9)
          < KillerRank.minKills rank
       /\ 9 < KillerRank.minKills rank <= 10.
Proof.
  split; [lia | apply (checkRankUp_crossing 9 10); lia].
Defined.

(* ===================================================================== *)
(** ** Further properties: command-line sorting and lifetimes             *)
(* ===================================================================== *)

Lemma compareCLI_default (localeCompare : string -> string -> Z)
      (sortBy : string) (a b : PortInfo.t) :
  sortBy <> "process" -> sortBy <> "pid" -> sortBy <> "user" ->
  DashboardData.compareCLI localeCompare sortBy a b
  = DashboardData.compareBy localeCompare SortPort a b.
Proof.
  intros H1 H2 H3. unfold DashboardData.compareCLI, DashboardData.compareBy.
  destruct (String.eqb_spec sortBy "port"); [reflexivity |].
  destruct (String.eqb_spec sortBy "process"); [contradiction |].
  destruct (String.eqb_spec sortBy "pid"); [contradiction |].
  destruct (String.eqb_spec sortBy "user"); [contradiction |].
  reflexivity.
Qed.

Lemma sortInsert_ext {A : Type} (f g : A -> A -> Z) (x : A) (l : list A) :
  (forall a b, f a b = g a b) -> JS.sortInsert f x l = JS.sortInsert g x l.
Proof.
  intros H. induction l as [| y l IH]; cbn; [reflexivity |].
  now rewrite H, IH.
Qed.

Lemma sort_ext {A : Type} (f g : A -> A -> Z) (l : list A) :
  (forall a b, f a b = g a b) -> JS.sort f l = JS.sort g l.
Proof.
  intros H. unfold JS.sort. induction l as [| x l IH]; cbn; [reflexivity |].
  rewrite IH. now apply sortInsert_ext.
Qed.

(** X26: a sort option from the command line that is none of process,
    pid and user (port itself, or any unrecognised word) sorts every
    group by port number, exactly as the dashboard's own port order
    does. *)
Theorem applyCLISorting_default (localeCompare : string -> string -> Z)
        (groups : list PortGroup.t) (sortBy : string) :
  sortBy <> "process" -> sortBy <> "pid" -> sortBy <> "user" ->
  DashboardData.applyCLISorting localeCompare groups sortBy
  = DashboardData.applySorting localeCompare groups SortPort.
Proof.
  intros H1 H2 H3.
  unfold DashboardData.applyCLISorting, DashboardData.applySorting.
  apply map_ext. intros group. f_equal. apply sort_ext. intros a b.
  now apply compareCLI_default.
Qed.

Lemma applyCLISorting_default_witness :
  DashboardData.applyCLISorting Ex.byteCompare Ex.twoGroups "name"
  = DashboardData.applySorting Ex.byteCompare Ex.twoGroups SortPort.
Proof.
  apply (applyCLISorting_default Ex.byteCompare Ex.twoGroups "name");
    discriminate.
Defined.

(** X27: the granularity of [formatLifetime].  From one hour on the
    seconds are not shown (the text is that of the lifetime rounded down
    to the minute), and from one day on the minutes are not shown either
    (the text is that of the lifetime rounded down to the hour). *)
Theorem formatLifetime_granularity (seconds : Z) :
  (3600 <= seconds ->
   DashboardData.formatLifetime seconds
   = DashboardData.formatLifetime (seconds - seconds mod 60))
  /\ (86400 <= seconds ->
      DashboardData.formatLifetime seconds
      = DashboardData.formatLifetime (seconds - seconds mod 3600)).
Proof.
  unfold DashboardData.formatLifetime, JS.floorDiv. cbv zeta. split; intros H.
  - destruct (Z.ltb_spec seconds 60); [lia |].
    destruct (Z.ltb_spec seconds 3600); [lia |].
    destruct (Z.ltb_spec (seconds - seconds mod 60) 60);
      [Z.div_mod_to_equations; lia |].
    destruct (Z.ltb_spec (seconds - seconds mod 60) 3600);
      [Z.div_mod_to_equations; lia |].
    destruct (Z.ltb_spec seconds 86400);
      destruct (Z.ltb_spec (seconds - seconds mod 60) 86400);
      try (Z.div_mod_to_equations; lia).
    + replace ((seconds - seconds mod 60) / 3600) with (seconds / 3600)
        by (Z.div_mod_to_equations; lia).
      replace (((seconds - seconds mod 60) mod 3600) / 60)
        with ((seconds mod 3600) / 60) by (Z.div_mod_to_equations; lia).
      reflexivity.
    + replace ((seconds - seconds mod 60) / 86400) with (seconds / 86400)
        by (Z.div_mod_to_equations; lia).
      replace (((seconds - seconds mod 60) mod 86400) / 3600)
        with ((seconds mod 86400) / 3600) by (Z.div_mod_to_equations; lia).
      reflexivity.
  - destruct (Z.ltb_spec seconds 60); [lia |].
    destruct (Z.ltb_spec seconds 3600); [lia |].
    destruct (Z.ltb_spec seconds 86400); [lia |].
    destruct (Z.ltb_spec (seconds - seconds mod 3600) 60);
      [Z.div_mod_to_equations; lia |].
    destruct (Z.ltb_spec (seconds - seconds mod 3600) 3600);
      [Z.div_mod_to_equations; lia |].
    destruct (Z.ltb_spec (seconds - seconds mod 3600) 86400);
      [Z.div_mod_to_equations; lia |].
    replace ((seconds - seconds mod 3600) / 86400) with (seconds / 86400)
      by (Z.div_mod_to_equations; lia).
    replace (((seconds - seconds mod 3600) mod 86400) / 3600)
      with ((seconds mod 86400) / 3600) by (Z.div_mod_to_equations; lia).
    reflexivity.
Qed.
